(** * ravdl layers: shape arithmetic and graph declarations

    A shallow embedding of [ravdl/DLOps/layers.py] and the properties its
    specification states about it.

    Conventions of the embedding.
    - Python [int] is [Z].  A Python or NumPy float is a binary64 number,
      kept as a mantissa and an exponent; every float operation is the
      exact result rounded to nearest, ties to even ([round_ratio]).
      NumPy integer scalars and NumPy integer reductions are 64-bit and
      wrap around ([wrap64]).  That is NumPy's arithmetic for operands in
      the int64 range; for larger Python integers NumPy changes the type of
      the result, which is not modelled, and the statements that depend on
      it carry the range as a hypothesis.  The float attributes that the
      layers only pass on (momentum, epsilon, p) are kept as rationals.
    - The memory of the machine is not modelled: an array whose shape NumPy
      itself accepts is taken to be allocated.  Statements that an
      allocation succeeds are made for small arrays only.
    - A tuple of integers is a [list Z].
    - An attribute that [__init__] does not assign is an [option] whose
      [None] is "attribute absent" (reading it raises [AttributeError]); an
      attribute that can hold Python's [None] is an [option] whose [None] is
      that value.  The two readings are named [attr] and [noneable].
    - The external runtime [R] is a graph: the list of declared nodes and
      the list of persist requests.  A node handle is the index of its node.
    - A method that mutates [self] or calls [R] is a computation in the
      state-and-exception monad [M]; the state survives a raised exception,
      as attribute assignments made before a Python exception do. *)

From Stdlib Require Import ZArith QArith List String Bool Lia.
Import ListNotations.
Local Open Scope string_scope.
Local Open Scope list_scope.
Local Open Scope Z_scope.

(** ** Exceptions and results *)

Inductive exn : Type :=
| AssertionError
| AttributeError
| IndexError
| NotImplementedError
| OverflowError
| TypeError
| UnboundLocalError
| ValueError
| ZeroDivisionError.

Inductive result (A : Type) : Type :=
| Ok (a : A)
| Raise (e : exn).

Arguments Ok {A} a.
Arguments Raise {A} e.

Definition rbind {A B : Type} (r : result A) (k : A -> result B) : result B :=
  match r with
  | Ok a => k a
  | Raise e => Raise e
  end.

Notation "x <~ r ;; k" := (rbind r (fun x => k))
  (at level 61, r at next level, right associativity).
Notation "' p <~ r ;; k" := (rbind r (fun x => match x with p => k end))
  (at level 61, p pattern, r at next level, right associativity).

(** ** The state-and-exception monad *)

Definition M (S A : Type) : Type := S -> result A * S.

Definition ret {S A : Type} (a : A) : M S A := fun s => (Ok a, s).

Definition raise {S A : Type} (e : exn) : M S A := fun s => (Raise e, s).

Definition bind {S A B : Type} (m : M S A) (k : A -> M S B) : M S B :=
  fun s =>
    match m s with
    | (Ok a, s') => k a s'
    | (Raise e, s') => (Raise e, s')
    end.

Definition get {S : Type} : M S S := fun s => (Ok s, s).

Definition modify {S : Type} (f : S -> S) : M S unit := fun s => (Ok tt, f s).

Definition lift_result {S A : Type} (r : result A) : M S A := fun s => (r, s).

Notation "x <- m ;; k" := (bind m (fun x => k))
  (at level 61, m at next level, right associativity).
Notation "m ;;; k" := (bind m (fun _ => k))
  (at level 61, right associativity).

(** ** Python values that cross the graph boundary *)

Definition attr (A : Type) : Type := option A.
Definition noneable (A : Type) : Type := option A.

Definition handle : Type := nat.

(** The entries of an optimizer's exported dictionary. *)
Inductive pyatom : Type :=
| AStr (s : string)
| AInt (z : Z)
| AFloat (q : Q).

Inductive pyval : Type :=
| PyNone
| PyStr (s : string)
| PyInt (z : Z)
| PyFloat (q : Q)
| PyInts (l : list Z)
| PyPair (a b : Z)
| PyNode (h : handle)
| PyDict (d : list (string * pyatom))
| PyStrOf (v : pyval).

Definition py_of_shape (s : noneable (list Z)) : pyval :=
  match s with
  | Some l => PyInts l
  | None => PyNone
  end.

Definition py_of_handle (h : noneable handle) : pyval :=
  match h with
  | Some n => PyNode n
  | None => PyNone
  end.

(** [self.x] for an attribute that may be absent. *)
Definition getattr {A : Type} (a : attr A) : result A :=
  match a with
  | Some v => Ok v
  | None => Raise AttributeError
  end.

(** ** Numbers *)

(** *** Binary64 floats *)

(** The float [mant * 2^expo]. *)
Record binary64 : Type := { mant : Z; expo : Z }.

(** [floor(log2(n/d))] for [0 < n] and [0 < d], exact from [2^-1127] on
    (below, the result only has to stay under the subnormal range). *)
Definition ilog2_ratio (n d : Z) : Z := Z.log2 (n * 2 ^ 1127 / d) - 1127.

(** The exponent of the last mantissa bit of the float nearest to [n/d]:
    53 significant bits, subnormal below [2^-1022]. *)
Definition ulp_exp (n d : Z) : Z :=
  Z.max (ilog2_ratio (Z.abs n) d - 52) (- 1074).

(** The integer nearest to [n/d], ties to the even one ([0 < d]). *)
Definition div_half_even (n d : Z) : Z :=
  let q := n / d in
  let r := n mod d in
  if 2 * r <? d then q
  else if d <? 2 * r then q + 1
  else if Z.even q then q else q + 1.

(** The float nearest to the rational [n/d] ([0 < d]), ties to even. *)
Definition round_ratio (n d : Z) : binary64 :=
  let e := ulp_exp n d in
  {| mant := if 0 <=? e then div_half_even n (d * 2 ^ e)
             else div_half_even (n * 2 ^ (- e)) d;
     expo := e |}.

(** Whether the rounded value lies beyond the largest finite float. *)
Definition overflows (x : binary64) : bool :=
  (971 <=? expo x) && (2 ^ 1024 <=? Z.abs (mant x) * 2 ^ expo x).

(** [x + k] for a float [x] and a small integer [k]. *)
Definition float_add_int (x : binary64) (k : Z) : binary64 :=
  if 0 <=? expo x then round_ratio (mant x * 2 ^ expo x + k) 1
  else round_ratio (mant x + k * 2 ^ (- expo x)) (2 ^ (- expo x)).

(** [int(x)]: truncation toward zero. *)
Definition py_int (x : binary64) : Z :=
  if 0 <=? expo x then mant x * 2 ^ expo x
  else Z.quot (mant x) (2 ^ (- expo x)).

(** [x % 1 == 0] *)
Definition is_whole (x : binary64) : bool :=
  if 0 <=? expo x then true
  else mant x mod 2 ^ (- expo x) =? 0.

(** The value of [float(z)], which is an integer again. *)
Definition round_int (z : Z) : Z := py_int (round_ratio z 1).

(** [a / b] on Python integers: the quotient correctly rounded. *)
Definition truediv (a b : Z) : result binary64 :=
  if b =? 0 then Raise ZeroDivisionError
  else
    let x := round_ratio (a * Z.sgn b) (Z.abs b) in
    if overflows x then Raise OverflowError else Ok x.

(** *** NumPy scalars *)

(** A 64-bit signed integer: the representative in [-2^63, 2^63). *)
Definition wrap64 (z : Z) : Z := (z + 2 ^ 63) mod 2 ^ 64 - 2 ^ 63.

(** [a + b] and [a - b] where one operand is a NumPy int64 scalar. *)
Definition np_int_add (a b : Z) : Z := wrap64 (a + b).
Definition np_int_sub (a b : Z) : Z := wrap64 (a - b).

(** A NumPy float64 scalar: division by zero does not raise there, it
    yields an infinity or a NaN. *)
Inductive npfloat : Type :=
| Finite (x : binary64)
| Inf
| NaN.

(** [a / b] where [a] is a NumPy int64 scalar: both operands are converted
    to float64 and divided. *)
Definition np_truediv (a b : Z) : npfloat :=
  let x := round_int a in
  let y := round_int b in
  if y =? 0 then (if x =? 0 then NaN else Inf)
  else Finite (round_ratio (x * Z.sgn y) (Z.abs y)).

Definition np_add (x : npfloat) (k : Z) : npfloat :=
  match x with
  | Finite v => Finite (float_add_int v k)
  | Inf => Inf
  | NaN => NaN
  end.

(** [int(x)] on a NumPy float64 scalar. *)
Definition np_int (x : npfloat) : result Z :=
  match x with
  | Finite v => Ok (py_int v)
  | Inf => Raise OverflowError
  | NaN => Raise ValueError
  end.

(** [np.sum] of a pair of integers. *)
Definition np_sum (p : Z * Z) : Z := wrap64 (fst p + snd p).

(** [np.prod] of a tuple of integers: the reduction of [multiply] from the
    left in int64, starting from its identity. *)
Definition np_prod (l : list Z) : Z :=
  fold_left (fun acc x => wrap64 (acc * x)) l 1.

(** [a, b, c = t] *)
Definition unpack3 (t : noneable (list Z)) : result (Z * Z * Z) :=
  match t with
  | None => Raise TypeError
  | Some [a; b; c] => Ok (a, b, c)
  | Some _ => Raise ValueError
  end.

(** [t[0]] *)
Definition index0 (t : noneable (list Z)) : result Z :=
  match t with
  | None => Raise TypeError
  | Some [] => Raise IndexError
  | Some (a :: _) => Ok a
  end.

(** [len(t)] *)
Definition py_len (t : noneable (list Z)) : result Z :=
  match t with
  | None => Raise TypeError
  | Some l => Ok (Z.of_nat (List.length l))
  end.

(** ** The padding resolver *)

(** Modelled from the spec: [determine_padding] of
    [ravdl/DLOps/utils/data_operations.py], which the layers import and
    which is not among the sources.  The specification gives it as a pure
    function from the filter shape and the padding policy to the pair of
    (before, after) paddings of the height and of the width: for "same" the
    total padding of a dimension is the filter dimension minus one, split
    as floor and ceiling of its half; for "valid" it is zero.  The
    specification names no other policy; for those no pair is returned. *)
Definition determine_padding (filter_shape : Z * Z) (output_shape : string)
  : option ((Z * Z) * (Z * Z)) :=
  let '(filter_height, filter_width) := filter_shape in
  if String.eqb output_shape "valid" then Some ((0, 0), (0, 0))
  else if String.eqb output_shape "same" then
    Some (((filter_height - 1) / 2, - ((- (filter_height - 1)) / 2)),
          ((filter_width - 1) / 2, - ((- (filter_width - 1)) / 2)))
  else None.

(** [pad_h, pad_w = determine_padding(...)] *)
Definition unpack_pads (r : option ((Z * Z) * (Z * Z)))
  : result ((Z * Z) * (Z * Z)) :=
  match r with
  | Some p => Ok p
  | None => Raise TypeError
  end.

(** ** The optimizer and the shadow arrays *)

(** The optimizer is seen only through [data_dict()]. *)
Record Optimizer : Type := { data_dict : list (string * pyatom) }.

(** The NumPy shadows of the weights are used for their shape only. *)
Record ndarray : Type := { shape : list Z }.

(** [np.zeros(shape)], [np.ones(shape)], [np.random.uniform(lo, hi, shape)].
    NumPy converts every dimension to a 64-bit integer, refuses a negative
    one, and refuses an array of more than [2^63 - 1] bytes, counted over
    the dimensions that are not zero at 8 bytes an element. *)
Definition np_new (dims : list Z) : result ndarray :=
  if negb (forallb (fun d => (- 2 ^ 63 <=? d) && (d <? 2 ^ 63)) dims)
  then Raise OverflowError
  else if negb (forallb (fun d => 0 <=? d) dims) then Raise ValueError
  else if 2 ^ 63 <=?
          8 * fold_right Z.mul 1 (filter (fun d => negb (d =? 0)) dims)
  then Raise ValueError
  else Ok {| shape := dims |}.

(** [1 / math.sqrt(d)]: the value only seeds the random weights and is not
    kept; what matters is whether it raises.  [math.sqrt] converts its
    argument to a float first. *)
Definition inv_sqrt (d : Z) : result unit :=
  if overflows (round_ratio d 1) then Raise OverflowError
  else if d <? 0 then Raise ValueError
  else if d =? 0 then Raise ZeroDivisionError
  else Ok tt.

(** ** The external graph runtime [R] *)

Record op_decl : Type := {
  op_name : string;
  op_input : pyval;
  op_kwargs : list (string * pyval)
}.

Record graph : Type := {
  nodes : list op_decl;
  persisted : list (handle * string)
}.

(** Declaring an operation appends its node and returns its handle. *)
Definition declare_node (g : graph) (d : op_decl) : handle * graph :=
  (List.length (nodes g),
   {| nodes := nodes g ++ [d]; persisted := persisted g |}).

(** [h.persist_op(name)] *)
Definition persist_node (g : graph) (h : handle) (name : string) : graph :=
  {| nodes := nodes g; persisted := persisted g ++ [(h, name)] |}.

(** The value of a keyword argument of a declaration. *)
Fixpoint kwarg (k : string) (kws : list (string * pyval)) : option pyval :=
  match kws with
  | [] => None
  | (k', v) :: rest => if String.eqb k k' then Some v else kwarg k rest
  end.

(** The string a Python truth value is passed as. *)
Definition flag_string (b : bool) : string := if b then "True" else "False".

(** ** Methods as computations over the layer and the graph *)

Section Methods.

Context {T : Type}.

(** Reading [self]. *)
Definition self_ : M (T * graph) T := fun s => (Ok (fst s), s).

(** [self.x = v], as the record update [f]. *)
Definition assign (f : T -> T) : M (T * graph) unit :=
  fun s => (Ok tt, (f (fst s), snd s)).

(** [R.<name>(input, **kwargs)] *)
Definition R_declare (name : string) (input : pyval)
  (kwargs : list (string * pyval)) : M (T * graph) handle :=
  fun s =>
    let '(h, g') :=
      declare_node (snd s)
        {| op_name := name; op_input := input; op_kwargs := kwargs |} in
    (Ok h, (fst s, g')).

(** [node.persist_op(name)], where [node] may be Python's [None]: the
    method is looked up on [node] before the argument [name] is evaluated. *)
Definition persist_op (node : noneable handle) (name : result string)
  : M (T * graph) unit :=
  fun s =>
    match node with
    | None => (Raise AttributeError, s)
    | Some h =>
        match name with
        | Raise e => (Raise e, s)
        | Ok n => (Ok tt, (fst s, persist_node (snd s) h n))
        end
    end.

End Methods.

(** ["{}<suffix>".format(self.layer_name)] *)
Definition format_name (layer_name : attr string) (suffix : string)
  : result string :=
  n <~ getattr layer_name ;;
  Ok (n ++ suffix)%string.

(** ** Layer, the base class *)

Module Layer.

(** [parameters] of the base class. *)
Definition parameters : result Z := Ok 0.

(** [output_shape] of the base class. *)
Definition output_shape : result (noneable (list Z)) :=
  Raise NotImplementedError.

End Layer.

(** ** Dense *)

Module Dense.

Record t : Type := {
  forward_pass : noneable handle;
  backward_pass : noneable handle;
  n_units : Z;
  layer_input : pyval;
  input_shape : noneable (list Z);
  trainable : bool;
  optimizer : attr Optimizer;
  np_W : attr ndarray;
  np_w0 : attr ndarray;
  layer_name : attr string
}.

Definition __init__ (n_units : Z) (input_shape : noneable (list Z)) : t :=
  {| forward_pass := None; backward_pass := None; n_units := n_units;
     layer_input := PyNone; input_shape := input_shape; trainable := true;
     optimizer := None; np_W := None; np_w0 := None; layer_name := None |}.

Definition set_forward_pass (v : noneable handle) (l : t) : t :=
  {| forward_pass := v; backward_pass := backward_pass l;
     n_units := n_units l; layer_input := layer_input l;
     input_shape := input_shape l; trainable := trainable l;
     optimizer := optimizer l; np_W := np_W l; np_w0 := np_w0 l;
     layer_name := layer_name l |}.

Definition set_backward_pass (v : noneable handle) (l : t) : t :=
  {| forward_pass := forward_pass l; backward_pass := v;
     n_units := n_units l; layer_input := layer_input l;
     input_shape := input_shape l; trainable := trainable l;
     optimizer := optimizer l; np_W := np_W l; np_w0 := np_w0 l;
     layer_name := layer_name l |}.

Definition set_layer_input (v : pyval) (l : t) : t :=
  {| forward_pass := forward_pass l; backward_pass := backward_pass l;
     n_units := n_units l; layer_input := v;
     input_shape := input_shape l; trainable := trainable l;
     optimizer := optimizer l; np_W := np_W l; np_w0 := np_w0 l;
     layer_name := layer_name l |}.

Definition set_optimizer (v : Optimizer) (l : t) : t :=
  {| forward_pass := forward_pass l; backward_pass := backward_pass l;
     n_units := n_units l; layer_input := layer_input l;
     input_shape := input_shape l; trainable := trainable l;
     optimizer := Some v; np_W := np_W l; np_w0 := np_w0 l;
     layer_name := layer_name l |}.

Definition set_np_W (v : ndarray) (l : t) : t :=
  {| forward_pass := forward_pass l; backward_pass := backward_pass l;
     n_units := n_units l; layer_input := layer_input l;
     input_shape := input_shape l; trainable := trainable l;
     optimizer := optimizer l; np_W := Some v; np_w0 := np_w0 l;
     layer_name := layer_name l |}.

Definition set_np_w0 (v : ndarray) (l : t) : t :=
  {| forward_pass := forward_pass l; backward_pass := backward_pass l;
     n_units := n_units l; layer_input := layer_input l;
     input_shape := input_shape l; trainable := trainable l;
     optimizer := optimizer l; np_W := np_W l; np_w0 := Some v;
     layer_name := layer_name l |}.

Definition initialize (optimizer : Optimizer) : M t unit :=
  modify (set_optimizer optimizer) ;;;
  self <- get ;;
  d <- lift_result (index0 (input_shape self)) ;;
  _ <- lift_result (inv_sqrt d) ;;
  W <- lift_result (np_new [d; n_units self]) ;;
  modify (set_np_W W) ;;;
  w0 <- lift_result (np_new [1; n_units self]) ;;
  modify (set_np_w0 w0).

Definition parameters (self : t) : result Z :=
  W <~ getattr (np_W self) ;;
  w0 <~ getattr (np_w0 self) ;;
  Ok (np_int_add (np_prod (shape W)) (np_prod (shape w0))).

Definition _forward_pass (X : pyval) (input_layer : string) (training : bool)
  : M (t * graph) handle :=
  assign (set_layer_input X) ;;;
  self <- self_ ;;
  h <- R_declare "forward_pass_dense" X
         [("n_units", PyInt (n_units self));
          ("input_shape", py_of_shape (input_shape self));
          ("data", py_of_handle (backward_pass self));
          ("input_layer", PyStr input_layer)] ;;
  assign (set_forward_pass (Some h)) ;;;
  ret h.

Definition _backward_pass (loss_grad : pyval) (input_layer : string)
  : M (t * graph) (noneable handle) :=
  self <- self_ ;;
  (if trainable self then
     o <- lift_result (getattr (optimizer self)) ;;
     h <- R_declare "backward_pass_dense" loss_grad
            [("layer_input", layer_input self);
             ("optimizer", PyDict (data_dict o));
             ("data", py_of_handle (forward_pass self));
             ("input_layer", PyStr input_layer)] ;;
     assign (set_backward_pass (Some h))
   else ret tt) ;;;
  self <- self_ ;;
  ret (backward_pass self).

Definition output_shape (self : t) : result (list Z) :=
  Ok [n_units self].

Definition persist_weights : M (t * graph) unit :=
  self <- self_ ;;
  persist_op (forward_pass self)
    (format_name (layer_name self) "_forward_pass") ;;;
  persist_op (backward_pass self)
    (format_name (layer_name self) "_backward_pass").

(** [Layer.set_input_shape], inherited. *)
Definition set_input_shape (v : noneable (list Z)) (l : t) : t :=
  {| forward_pass := forward_pass l; backward_pass := backward_pass l;
     n_units := n_units l; layer_input := layer_input l; input_shape := v;
     trainable := trainable l; optimizer := optimizer l; np_W := np_W l;
     np_w0 := np_w0 l; layer_name := layer_name l |}.

(** [Layer.set_layer_name], inherited: the given name, or the name of the
    class when the argument is [None]. *)
Definition set_layer_name (name : noneable string) (l : t) : t :=
  {| forward_pass := forward_pass l; backward_pass := backward_pass l;
     n_units := n_units l; layer_input := layer_input l;
     input_shape := input_shape l; trainable := trainable l;
     optimizer := optimizer l; np_W := np_W l; np_w0 := np_w0 l;
     layer_name := Some (match name with Some n => n | None => "Dense" end) |}.

(** [Layer.get_layer_name], inherited. *)
Definition get_layer_name (l : t) : result string := getattr (layer_name l).

End Dense.

(** ** BatchNormalization *)

Module BatchNormalization.

Record t : Type := {
  momentum : Q;
  float_momentum : Q;
  trainable : bool;
  eps : Q;
  float_eps : Q;
  running_mean : pyval;
  running_var : pyval;
  forward_pass : noneable handle;
  backward_pass : noneable handle;
  input_shape : attr (noneable (list Z));
  optimizer : attr Optimizer;
  np_gamma : attr ndarray;
  np_beta : attr ndarray;
  layer_name : attr string
}.

Definition __init__ (momentum epsilon : Q) : t :=
  {| momentum := momentum; float_momentum := momentum; trainable := true;
     eps := epsilon; float_eps := epsilon;
     running_mean := PyNone; running_var := PyNone;
     forward_pass := None; backward_pass := None;
     input_shape := None; optimizer := None;
     np_gamma := None; np_beta := None; layer_name := None |}.

Definition set_forward_pass (v : noneable handle) (l : t) : t :=
  {| momentum := momentum l; float_momentum := float_momentum l;
     trainable := trainable l; eps := eps l; float_eps := float_eps l;
     running_mean := running_mean l; running_var := running_var l;
     forward_pass := v; backward_pass := backward_pass l;
     input_shape := input_shape l; optimizer := optimizer l;
     np_gamma := np_gamma l; np_beta := np_beta l;
     layer_name := layer_name l |}.

Definition set_backward_pass (v : noneable handle) (l : t) : t :=
  {| momentum := momentum l; float_momentum := float_momentum l;
     trainable := trainable l; eps := eps l; float_eps := float_eps l;
     running_mean := running_mean l; running_var := running_var l;
     forward_pass := forward_pass l; backward_pass := v;
     input_shape := input_shape l; optimizer := optimizer l;
     np_gamma := np_gamma l; np_beta := np_beta l;
     layer_name := layer_name l |}.

Definition set_optimizer (v : Optimizer) (l : t) : t :=
  {| momentum := momentum l; float_momentum := float_momentum l;
     trainable := trainable l; eps := eps l; float_eps := float_eps l;
     running_mean := running_mean l; running_var := running_var l;
     forward_pass := forward_pass l; backward_pass := backward_pass l;
     input_shape := input_shape l; optimizer := Some v;
     np_gamma := np_gamma l; np_beta := np_beta l;
     layer_name := layer_name l |}.

Definition set_np_gamma (v : ndarray) (l : t) : t :=
  {| momentum := momentum l; float_momentum := float_momentum l;
     trainable := trainable l; eps := eps l; float_eps := float_eps l;
     running_mean := running_mean l; running_var := running_var l;
     forward_pass := forward_pass l; backward_pass := backward_pass l;
     input_shape := input_shape l; optimizer := optimizer l;
     np_gamma := Some v; np_beta := np_beta l;
     layer_name := layer_name l |}.

Definition set_np_beta (v : ndarray) (l : t) : t :=
  {| momentum := momentum l; float_momentum := float_momentum l;
     trainable := trainable l; eps := eps l; float_eps := float_eps l;
     running_mean := running_mean l; running_var := running_var l;
     forward_pass := forward_pass l; backward_pass := backward_pass l;
     input_shape := input_shape l; optimizer := optimizer l;
     np_gamma := np_gamma l; np_beta := Some v;
     layer_name := layer_name l |}.

(** [Layer.set_input_shape], inherited. *)
Definition set_input_shape (v : noneable (list Z)) (l : t) : t :=
  {| momentum := momentum l; float_momentum := float_momentum l;
     trainable := trainable l; eps := eps l; float_eps := float_eps l;
     running_mean := running_mean l; running_var := running_var l;
     forward_pass := forward_pass l; backward_pass := backward_pass l;
     input_shape := Some v; optimizer := optimizer l;
     np_gamma := np_gamma l; np_beta := np_beta l;
     layer_name := layer_name l |}.

Definition initialize (optimizer : Optimizer) : M t unit :=
  modify (set_optimizer optimizer) ;;;
  self <- get ;;
  input_shape <- lift_result (getattr (input_shape self)) ;;
  n <- lift_result (py_len input_shape) ;;
  shape <- (if n =? 1 then
              c <- lift_result (index0 input_shape) ;;
              ret [1; c]
            else
              c <- lift_result (index0 input_shape) ;;
              ret [1; c; 1; 1]) ;;
  gamma <- lift_result (np_new shape) ;;
  modify (set_np_gamma gamma) ;;;
  beta <- lift_result (np_new shape) ;;
  modify (set_np_beta beta).

Definition parameters (self : t) : result Z :=
  gamma <~ getattr (np_gamma self) ;;
  beta <~ getattr (np_beta self) ;;
  Ok (np_int_add (np_prod (shape gamma)) (np_prod (shape beta))).

Definition _forward_pass (X : pyval) (input_layer : string) (training : bool)
  : M (t * graph) handle :=
  let training := if training then "True" else "False" in
  self <- self_ ;;
  let trainable := if trainable self then "True" else "False" in
  input_shape <- lift_result (getattr (input_shape self)) ;;
  h <- R_declare "forward_pass_batchnorm" X
         [("input_shape", py_of_shape input_shape);
          ("momentum", PyFloat (momentum self));
          ("eps", PyFloat (eps self));
          ("training", PyStr training);
          ("trainable", PyStr trainable);
          ("data", py_of_handle (backward_pass self));
          ("input_layer", PyStr input_layer)] ;;
  assign (set_forward_pass (Some h)) ;;;
  ret h.

(** The local variable [trainable] is bound on one branch only: it is an
    [option], and reading it unbound raises [UnboundLocalError].  The
    keyword arguments are evaluated in the order they are written. *)
Definition _backward_pass (accum_grad : pyval) (input_layer : string)
  : M (t * graph) (noneable handle) :=
  self <- self_ ;;
  let trainable : option string :=
    if trainable self then Some "True" else None in
  input_shape <- lift_result (getattr (input_shape self)) ;;
  o <- lift_result (getattr (optimizer self)) ;;
  trainable <- match trainable with
               | Some v => ret v
               | None => raise UnboundLocalError
               end ;;
  h <- R_declare "backward_pass_batchnorm" accum_grad
         [("input_shape", py_of_shape input_shape);
          ("optimizer", PyDict (data_dict o));
          ("trainable", PyStr trainable);
          ("data", py_of_handle (forward_pass self));
          ("input_layer", PyStr input_layer)] ;;
  assign (set_backward_pass (Some h)) ;;;
  self <- self_ ;;
  ret (backward_pass self).

Definition output_shape (self : t) : result (noneable (list Z)) :=
  getattr (input_shape self).

Definition persist_weights : M (t * graph) unit :=
  self <- self_ ;;
  persist_op (forward_pass self)
    (format_name (layer_name self) "_forward_pass") ;;;
  persist_op (backward_pass self)
    (format_name (layer_name self) "_backward_pass").

(** [Layer.set_layer_name], inherited: the given name, or the name of the
    class when the argument is [None]. *)
Definition set_layer_name (name : noneable string) (l : t) : t :=
  {| momentum := momentum l; float_momentum := float_momentum l;
     trainable := trainable l; eps := eps l; float_eps := float_eps l;
     running_mean := running_mean l; running_var := running_var l;
     forward_pass := forward_pass l; backward_pass := backward_pass l;
     input_shape := input_shape l; optimizer := optimizer l;
     np_gamma := np_gamma l; np_beta := np_beta l;
     layer_name := Some (match name with Some n => n | None => "BatchNormalization" end) |}.

(** [Layer.get_layer_name], inherited. *)
Definition get_layer_name (l : t) : result string := getattr (layer_name l).

End BatchNormalization.

(** ** Dropout *)

Module Dropout.

Record t : Type := {
  p : Q;
  _mask : pyval;
  input_shape : noneable (list Z);
  n_units : pyval;
  pass_through : bool;
  trainable : bool;
  forward_pass : noneable handle;
  backward_pass : noneable handle;
  layer_name : attr string
}.

Definition __init__ (p : Q) : t :=
  {| p := p; _mask := PyNone; input_shape := None; n_units := PyNone;
     pass_through := true; trainable := true;
     forward_pass := None; backward_pass := None; layer_name := None |}.

Definition set_forward_pass (v : noneable handle) (l : t) : t :=
  {| p := p l; _mask := _mask l; input_shape := input_shape l;
     n_units := n_units l; pass_through := pass_through l;
     trainable := trainable l; forward_pass := v;
     backward_pass := backward_pass l; layer_name := layer_name l |}.

Definition set_backward_pass (v : noneable handle) (l : t) : t :=
  {| p := p l; _mask := _mask l; input_shape := input_shape l;
     n_units := n_units l; pass_through := pass_through l;
     trainable := trainable l; forward_pass := forward_pass l;
     backward_pass := v; layer_name := layer_name l |}.

Definition _forward_pass (X : pyval) (training : bool) (input_layer : string)
  : M (t * graph) handle :=
  let training := if training then "True" else "False" in
  self <- self_ ;;
  h <- R_declare "forward_pass_dropout" X
         [("p", PyFloat (p self));
          ("training", PyStr training);
          ("input_layer", PyStr input_layer)] ;;
  assign (set_forward_pass (Some h)) ;;;
  ret h.

Definition _backward_pass (accum_grad : pyval) (input_layer : string)
  : M (t * graph) handle :=
  self <- self_ ;;
  h <- R_declare "backward_pass_dropout" accum_grad
         [("data", py_of_handle (forward_pass self));
          ("input_layer", PyStr input_layer)] ;;
  assign (set_backward_pass (Some h)) ;;;
  ret h.

Definition output_shape (self : t) : result (noneable (list Z)) :=
  Ok (input_shape self).

Definition persist_weights : M (t * graph) unit := ret tt.

(** [Layer.set_input_shape], inherited. *)
Definition set_input_shape (v : noneable (list Z)) (l : t) : t :=
  {| p := p l; _mask := _mask l; input_shape := v; n_units := n_units l;
     pass_through := pass_through l; trainable := trainable l;
     forward_pass := forward_pass l; backward_pass := backward_pass l;
     layer_name := layer_name l |}.

(** [Layer.set_layer_name], inherited: the given name, or the name of the
    class when the argument is [None]. *)
Definition set_layer_name (name : noneable string) (l : t) : t :=
  {| p := p l; _mask := _mask l; input_shape := input_shape l;
     n_units := n_units l; pass_through := pass_through l;
     trainable := trainable l; forward_pass := forward_pass l;
     backward_pass := backward_pass l;
     layer_name := Some (match name with Some n => n | None => "Dropout" end) |}.

(** [Layer.get_layer_name], inherited. *)
Definition get_layer_name (l : t) : result string := getattr (layer_name l).

End Dropout.

(** ** Activation *)

Module Activation.

Record t : Type := {
  activation_name : string;
  trainable : bool;
  forward_pass : noneable handle;
  backward_pass : noneable handle;
  input_shape : attr (noneable (list Z));
  layer_input : attr pyval;
  layer_name : attr string
}.

Definition __init__ (name : string) : t :=
  {| activation_name := name; trainable := true;
     forward_pass := None; backward_pass := None;
     input_shape := None; layer_input := None; layer_name := None |}.

Definition set_forward_pass (v : noneable handle) (l : t) : t :=
  {| activation_name := activation_name l; trainable := trainable l;
     forward_pass := v; backward_pass := backward_pass l;
     input_shape := input_shape l; layer_input := layer_input l;
     layer_name := layer_name l |}.

Definition set_backward_pass (v : noneable handle) (l : t) : t :=
  {| activation_name := activation_name l; trainable := trainable l;
     forward_pass := forward_pass l; backward_pass := v;
     input_shape := input_shape l; layer_input := layer_input l;
     layer_name := layer_name l |}.

Definition set_layer_input (v : pyval) (l : t) : t :=
  {| activation_name := activation_name l; trainable := trainable l;
     forward_pass := forward_pass l; backward_pass := backward_pass l;
     input_shape := input_shape l; layer_input := Some v;
     layer_name := layer_name l |}.

(** [str({'name': self.activation_name})] *)
Definition act_data (self : t) : pyval :=
  PyStrOf (PyDict [("name", AStr (activation_name self))]).

Definition _forward_pass (X : pyval) (training : bool) (input_layer : string)
  : M (t * graph) handle :=
  assign (set_layer_input X) ;;;
  self <- self_ ;;
  h <- R_declare "forward_pass_activation" X
         [("act_data", act_data self);
          ("input_layer", PyStr input_layer)] ;;
  assign (set_forward_pass (Some h)) ;;;
  ret h.

Definition _backward_pass (accum_grad : pyval) (input_layer : string)
  : M (t * graph) handle :=
  self <- self_ ;;
  layer_input <- lift_result (getattr (layer_input self)) ;;
  h <- R_declare "backward_pass_activation" accum_grad
         [("layer_input", layer_input);
          ("act_data", act_data self);
          ("input_layer", PyStr input_layer)] ;;
  assign (set_backward_pass (Some h)) ;;;
  ret h.

Definition output_shape (self : t) : result (noneable (list Z)) :=
  getattr (input_shape self).

Definition persist_weights : M (t * graph) unit := ret tt.

(** [Layer.set_input_shape], inherited. *)
Definition set_input_shape (v : noneable (list Z)) (l : t) : t :=
  {| activation_name := activation_name l; trainable := trainable l;
     forward_pass := forward_pass l; backward_pass := backward_pass l;
     input_shape := Some v; layer_input := layer_input l;
     layer_name := layer_name l |}.

(** [Layer.set_layer_name], inherited: the given name, or the name of the
    class when the argument is [None]. *)
Definition set_layer_name (name : noneable string) (l : t) : t :=
  {| activation_name := activation_name l; trainable := trainable l;
     forward_pass := forward_pass l; backward_pass := backward_pass l;
     input_shape := input_shape l; layer_input := layer_input l;
     layer_name := Some (match name with Some n => n | None => "Activation" end) |}.

(** [Layer.get_layer_name], inherited. *)
Definition get_layer_name (l : t) : result string := getattr (layer_name l).

End Activation.

(** ** Conv2D *)

Module Conv2D.

Record t : Type := {
  n_filters : Z;
  filter_shape : Z * Z;
  padding : string;
  stride : Z;
  input_shape : noneable (list Z);
  trainable : bool;
  W : pyval;
  w0 : pyval;
  forward_pass : noneable handle;
  backward_pass : noneable handle;
  optimizer : attr Optimizer;
  np_W : attr ndarray;
  np_w0 : attr ndarray;
  layer_input : attr pyval;
  layer_name : attr string
}.

Definition __init__ (n_filters : Z) (filter_shape : Z * Z)
  (input_shape : noneable (list Z)) (padding : string) (stride : Z) : t :=
  {| n_filters := n_filters; filter_shape := filter_shape;
     padding := padding; stride := stride; input_shape := input_shape;
     trainable := true; W := PyNone; w0 := PyNone;
     forward_pass := None; backward_pass := None;
     optimizer := None; np_W := None; np_w0 := None;
     layer_input := None; layer_name := None |}.

Definition set_forward_pass (v : noneable handle) (l : t) : t :=
  {| n_filters := n_filters l; filter_shape := filter_shape l;
     padding := padding l; stride := stride l;
     input_shape := input_shape l; trainable := trainable l;
     W := W l; w0 := w0 l;
     forward_pass := v; backward_pass := backward_pass l;
     optimizer := optimizer l; np_W := np_W l; np_w0 := np_w0 l;
     layer_input := layer_input l; layer_name := layer_name l |}.

Definition set_backward_pass (v : noneable handle) (l : t) : t :=
  {| n_filters := n_filters l; filter_shape := filter_shape l;
     padding := padding l; stride := stride l;
     input_shape := input_shape l; trainable := trainable l;
     W := W l; w0 := w0 l;
     forward_pass := forward_pass l; backward_pass := v;
     optimizer := optimizer l; np_W := np_W l; np_w0 := np_w0 l;
     layer_input := layer_input l; layer_name := layer_name l |}.

Definition set_layer_input (v : pyval) (l : t) : t :=
  {| n_filters := n_filters l; filter_shape := filter_shape l;
     padding := padding l; stride := stride l;
     input_shape := input_shape l; trainable := trainable l;
     W := W l; w0 := w0 l;
     forward_pass := forward_pass l; backward_pass := backward_pass l;
     optimizer := optimizer l; np_W := np_W l; np_w0 := np_w0 l;
     layer_input := Some v; layer_name := layer_name l |}.

Definition set_optimizer (v : Optimizer) (l : t) : t :=
  {| n_filters := n_filters l; filter_shape := filter_shape l;
     padding := padding l; stride := stride l;
     input_shape := input_shape l; trainable := trainable l;
     W := W l; w0 := w0 l;
     forward_pass := forward_pass l; backward_pass := backward_pass l;
     optimizer := Some v; np_W := np_W l; np_w0 := np_w0 l;
     layer_input := layer_input l; layer_name := layer_name l |}.

Definition set_np_W (v : ndarray) (l : t) : t :=
  {| n_filters := n_filters l; filter_shape := filter_shape l;
     padding := padding l; stride := stride l;
     input_shape := input_shape l; trainable := trainable l;
     W := W l; w0 := w0 l;
     forward_pass := forward_pass l; backward_pass := backward_pass l;
     optimizer := optimizer l; np_W := Some v; np_w0 := np_w0 l;
     layer_input := layer_input l; layer_name := layer_name l |}.

Definition set_np_w0 (v : ndarray) (l : t) : t :=
  {| n_filters := n_filters l; filter_shape := filter_shape l;
     padding := padding l; stride := stride l;
     input_shape := input_shape l; trainable := trainable l;
     W := W l; w0 := w0 l;
     forward_pass := forward_pass l; backward_pass := backward_pass l;
     optimizer := optimizer l; np_W := np_W l; np_w0 := Some v;
     layer_input := layer_input l; layer_name := layer_name l |}.

Definition initialize (optimizer : Optimizer) : M t unit :=
  modify (set_optimizer optimizer) ;;;
  self <- get ;;
  let '(filter_height, filter_width) := filter_shape self in
  channels <- lift_result (index0 (input_shape self)) ;;
  _ <- lift_result (inv_sqrt (np_prod [filter_height; filter_width])) ;;
  W <- lift_result
         (np_new [n_filters self; channels; filter_height; filter_width]) ;;
  modify (set_np_W W) ;;;
  w0 <- lift_result (np_new [n_filters self; 1]) ;;
  modify (set_np_w0 w0).

Definition parameters (self : t) : result Z :=
  W <~ getattr (np_W self) ;;
  w0 <~ getattr (np_w0 self) ;;
  Ok (np_int_add (np_prod (shape W)) (np_prod (shape w0))).

(** [str({'padding': self.padding})] *)
Definition padding_data (self : t) : pyval :=
  PyStrOf (PyDict [("padding", AStr (padding self))]).

Definition _forward_pass (X : pyval) (input_layer : string) (training : bool)
  : M (t * graph) handle :=
  assign (set_layer_input X) ;;;
  self <- self_ ;;
  h <- R_declare "forward_pass_conv2d" X
         [("input_shape", py_of_shape (input_shape self));
          ("n_filters", PyInt (n_filters self));
          ("filter_shape",
           PyPair (fst (filter_shape self)) (snd (filter_shape self)));
          ("stride", PyInt (stride self));
          ("padding_data", padding_data self);
          ("data", py_of_handle (backward_pass self));
          ("input_layer", PyStr input_layer)] ;;
  assign (set_forward_pass (Some h)) ;;;
  ret h.

Definition _backward_pass (accum_grad : pyval) (input_layer : string)
  : M (t * graph) handle :=
  self <- self_ ;;
  let trainable := if trainable self then "True" else "False" in
  layer_input <- lift_result (getattr (layer_input self)) ;;
  o <- lift_result (getattr (optimizer self)) ;;
  h <- R_declare "backward_pass_conv2d" accum_grad
         [("layer_input", layer_input);
          ("n_filters", PyInt (n_filters self));
          ("filter_shape",
           PyPair (fst (filter_shape self)) (snd (filter_shape self)));
          ("stride", PyInt (stride self));
          ("padding_data", padding_data self);
          ("optimizer", PyDict (data_dict o));
          ("data", py_of_handle (forward_pass self));
          ("trainable", PyStr trainable);
          ("input_layer", PyStr input_layer)] ;;
  assign (set_backward_pass (Some h)) ;;;
  ret h.

Definition output_shape (self : t) : result (list Z) :=
  '(channels, height, width) <~ unpack3 (input_shape self) ;;
  '(pad_h, pad_w) <~
    unpack_pads (determine_padding (filter_shape self) (padding self)) ;;
  let output_height :=
    np_add (np_truediv
              (np_int_sub (np_int_add height (np_sum pad_h))
                          (fst (filter_shape self)))
              (stride self)) 1 in
  let output_width :=
    np_add (np_truediv
              (np_int_sub (np_int_add width (np_sum pad_w))
                          (snd (filter_shape self)))
              (stride self)) 1 in
  oh <~ np_int output_height ;;
  ow <~ np_int output_width ;;
  Ok [n_filters self; oh; ow].

Definition persist_weights : M (t * graph) unit :=
  self <- self_ ;;
  persist_op (forward_pass self)
    (format_name (layer_name self) "_forward_pass") ;;;
  persist_op (backward_pass self)
    (format_name (layer_name self) "_backward_pass").

(** [Layer.set_input_shape], inherited. *)
Definition set_input_shape (v : noneable (list Z)) (l : t) : t :=
  {| n_filters := n_filters l; filter_shape := filter_shape l;
     padding := padding l; stride := stride l; input_shape := v;
     trainable := trainable l; W := W l; w0 := w0 l;
     forward_pass := forward_pass l; backward_pass := backward_pass l;
     optimizer := optimizer l; np_W := np_W l; np_w0 := np_w0 l;
     layer_input := layer_input l; layer_name := layer_name l |}.

(** [Layer.set_layer_name], inherited: the given name, or the name of the
    class when the argument is [None]. *)
Definition set_layer_name (name : noneable string) (l : t) : t :=
  {| n_filters := n_filters l; filter_shape := filter_shape l;
     padding := padding l; stride := stride l; input_shape := input_shape l;
     trainable := trainable l; W := W l; w0 := w0 l;
     forward_pass := forward_pass l; backward_pass := backward_pass l;
     optimizer := optimizer l; np_W := np_W l; np_w0 := np_w0 l;
     layer_input := layer_input l;
     layer_name := Some (match name with Some n => n | None => "Conv2D" end) |}.

(** [Layer.get_layer_name], inherited. *)
Definition get_layer_name (l : t) : result string := getattr (layer_name l).

End Conv2D.

(** ** Flatten *)

Module Flatten.

Record t : Type := {
  prev_shape : pyval;
  trainable : bool;
  input_shape : noneable (list Z);
  forward_pass : noneable handle;
  backward_pass : noneable handle;
  prev_input : attr pyval;
  layer_name : attr string
}.

Definition __init__ (input_shape : noneable (list Z)) : t :=
  {| prev_shape := PyNone; trainable := true; input_shape := input_shape;
     forward_pass := None; backward_pass := None;
     prev_input := None; layer_name := None |}.

Definition set_forward_pass (v : noneable handle) (l : t) : t :=
  {| prev_shape := prev_shape l; trainable := trainable l;
     input_shape := input_shape l;
     forward_pass := v; backward_pass := backward_pass l;
     prev_input := prev_input l; layer_name := layer_name l |}.

Definition set_backward_pass (v : noneable handle) (l : t) : t :=
  {| prev_shape := prev_shape l; trainable := trainable l;
     input_shape := input_shape l;
     forward_pass := forward_pass l; backward_pass := v;
     prev_input := prev_input l; layer_name := layer_name l |}.

Definition set_prev_input (v : pyval) (l : t) : t :=
  {| prev_shape := prev_shape l; trainable := trainable l;
     input_shape := input_shape l;
     forward_pass := forward_pass l; backward_pass := backward_pass l;
     prev_input := Some v; layer_name := layer_name l |}.

Definition _forward_pass (X : pyval) (training : bool) (input_layer : string)
  : M (t * graph) handle :=
  assign (set_prev_input X) ;;;
  h <- R_declare "forward_pass_flatten" X
         [("input_layer", PyStr input_layer)] ;;
  assign (set_forward_pass (Some h)) ;;;
  ret h.

Definition _backward_pass (accum_grad : pyval) (input_layer : string)
  : M (t * graph) handle :=
  self <- self_ ;;
  prev_input <- lift_result (getattr (prev_input self)) ;;
  h <- R_declare "backward_pass_flatten" accum_grad
         [("prev_input", prev_input);
          ("input_layer", PyStr input_layer)] ;;
  assign (set_backward_pass (Some h)) ;;;
  ret h.

(** [(int(np.prod(self.input_shape)),)] *)
Definition output_shape (self : t) : result (list Z) :=
  match input_shape self with
  | None => Raise TypeError
  | Some dims => Ok [np_prod dims]
  end.

Definition persist_weights : M (t * graph) unit := ret tt.

(** [Layer.set_input_shape], inherited. *)
Definition set_input_shape (v : noneable (list Z)) (l : t) : t :=
  {| prev_shape := prev_shape l; trainable := trainable l; input_shape := v;
     forward_pass := forward_pass l; backward_pass := backward_pass l;
     prev_input := prev_input l; layer_name := layer_name l |}.

(** [Layer.set_layer_name], inherited: the given name, or the name of the
    class when the argument is [None]. *)
Definition set_layer_name (name : noneable string) (l : t) : t :=
  {| prev_shape := prev_shape l; trainable := trainable l;
     input_shape := input_shape l; forward_pass := forward_pass l;
     backward_pass := backward_pass l; prev_input := prev_input l;
     layer_name := Some (match name with Some n => n | None => "Flatten" end) |}.

(** [Layer.get_layer_name], inherited. *)
Definition get_layer_name (l : t) : result string := getattr (layer_name l).

End Flatten.

(** ** MaxPooling2D *)

Module MaxPooling2D.

Record t : Type := {
  pool_shape : Z * Z;
  stride : Z;
  padding_data : string;
  trainable : bool;
  forward_pass : noneable handle;
  backward_pass : noneable handle;
  input_shape : attr (noneable (list Z));
  layer_name : attr string
}.

Definition __init__ (pool_shape : Z * Z) (stride : Z) (padding : string) : t :=
  {| pool_shape := pool_shape; stride := stride; padding_data := padding;
     trainable := true; forward_pass := None; backward_pass := None;
     input_shape := None; layer_name := None |}.

Definition set_forward_pass (v : noneable handle) (l : t) : t :=
  {| pool_shape := pool_shape l; stride := stride l;
     padding_data := padding_data l; trainable := trainable l;
     forward_pass := v; backward_pass := backward_pass l;
     input_shape := input_shape l; layer_name := layer_name l |}.

Definition set_backward_pass (v : noneable handle) (l : t) : t :=
  {| pool_shape := pool_shape l; stride := stride l;
     padding_data := padding_data l; trainable := trainable l;
     forward_pass := forward_pass l; backward_pass := v;
     input_shape := input_shape l; layer_name := layer_name l |}.

(** [Layer.set_input_shape], inherited. *)
Definition set_input_shape (v : noneable (list Z)) (l : t) : t :=
  {| pool_shape := pool_shape l; stride := stride l;
     padding_data := padding_data l; trainable := trainable l;
     forward_pass := forward_pass l; backward_pass := backward_pass l;
     input_shape := Some v; layer_name := layer_name l |}.

(** [str(self.padding_data)], the dictionary [{'padding': padding}]. *)
Definition padding_str (self : t) : pyval :=
  PyStrOf (PyDict [("padding", AStr (padding_data self))]).

Definition _forward_pass (X : pyval) (training : bool) (input_layer : string)
  : M (t * graph) handle :=
  self <- self_ ;;
  input_shape <- lift_result (getattr (input_shape self)) ;;
  h <- R_declare "forward_pass_maxpool2d" X
         [("input_shape", py_of_shape input_shape);
          ("pool_shape",
           PyPair (fst (pool_shape self)) (snd (pool_shape self)));
          ("stride", PyInt (stride self));
          ("padding_data", padding_str self);
          ("input_layer", PyStr input_layer)] ;;
  assign (set_forward_pass (Some h)) ;;;
  ret h.

Definition _backward_pass (accum_grad : pyval) (input_layer : string)
  : M (t * graph) handle :=
  self <- self_ ;;
  input_shape <- lift_result (getattr (input_shape self)) ;;
  h <- R_declare "backward_pass_maxpool2d" accum_grad
         [("input_shape", py_of_shape input_shape);
          ("pool_shape",
           PyPair (fst (pool_shape self)) (snd (pool_shape self)));
          ("stride", PyInt (stride self));
          ("padding_data", padding_str self);
          ("data", py_of_handle (forward_pass self));
          ("input_layer", PyStr input_layer)] ;;
  assign (set_backward_pass (Some h)) ;;;
  ret h.

(** [assert c] *)
Definition py_assert (c : bool) : result unit :=
  if c then Ok tt else Raise AssertionError.

Definition output_shape (self : t) : result (list Z) :=
  input_shape <~ getattr (input_shape self) ;;
  '(channels, height, width) <~ unpack3 input_shape ;;
  q_h <~ truediv (height - fst (pool_shape self)) (stride self) ;;
  let out_height := float_add_int q_h 1 in
  q_w <~ truediv (width - snd (pool_shape self)) (stride self) ;;
  let out_width := float_add_int q_w 1 in
  _ <~ py_assert (is_whole out_height) ;;
  _ <~ py_assert (is_whole out_width) ;;
  Ok [channels; py_int out_height; py_int out_width].

(** [Layer.set_layer_name], inherited: the given name, or the name of the
    class when the argument is [None]. *)
Definition set_layer_name (name : noneable string) (l : t) : t :=
  {| pool_shape := pool_shape l; stride := stride l;
     padding_data := padding_data l; trainable := trainable l;
     forward_pass := forward_pass l; backward_pass := backward_pass l;
     input_shape := input_shape l;
     layer_name := Some (match name with Some n => n | None => "MaxPooling2D" end) |}.

(** [Layer.get_layer_name], inherited. *)
Definition get_layer_name (l : t) : result string := getattr (layer_name l).

End MaxPooling2D.

(** ** Any layer *)

Inductive layer : Type :=
| LDense (l : Dense.t)
| LBatchNormalization (l : BatchNormalization.t)
| LDropout (l : Dropout.t)
| LActivation (l : Activation.t)
| LConv2D (l : Conv2D.t)
| LFlatten (l : Flatten.t)
| LMaxPooling2D (l : MaxPooling2D.t).

(** Running a method of class [T] on an instance seen as a [layer]. *)
Definition run_on {T A : Type} (inj : T -> layer) (m : M (T * graph) A)
  (self : T) (g : graph) : result A * (layer * graph) :=
  let '(r, (self', g')) := m (self, g) in (r, (inj self', g')).

Definition trainable (l : layer) : bool :=
  match l with
  | LDense d => Dense.trainable d
  | LBatchNormalization b => BatchNormalization.trainable b
  | LDropout d => Dropout.trainable d
  | LActivation a => Activation.trainable a
  | LConv2D c => Conv2D.trainable c
  | LFlatten f => Flatten.trainable f
  | LMaxPooling2D m => MaxPooling2D.trainable m
  end.

(** [l.output_shape()].  Every class overrides the method of [Layer]; none
    assigns an attribute or calls [R] in it, so it is a function of [self]. *)
Definition output_shape (l : layer) : result (noneable (list Z)) :=
  match l with
  | LDense d => s <~ Dense.output_shape d ;; Ok (Some s)
  | LBatchNormalization b => BatchNormalization.output_shape b
  | LDropout d => Dropout.output_shape d
  | LActivation a => Activation.output_shape a
  | LConv2D c => s <~ Conv2D.output_shape c ;; Ok (Some s)
  | LFlatten f => s <~ Flatten.output_shape f ;; Ok (Some s)
  | LMaxPooling2D m => s <~ MaxPooling2D.output_shape m ;; Ok (Some s)
  end.

(** [l.parameters()]: the classes without weights inherit [Layer]'s. *)
Definition parameters (l : layer) : result Z :=
  match l with
  | LDense d => Dense.parameters d
  | LBatchNormalization b => BatchNormalization.parameters b
  | LConv2D c => Conv2D.parameters c
  | LDropout _ | LActivation _ | LFlatten _ | LMaxPooling2D _ =>
      Layer.parameters
  end.

(** [l._forward_pass(X, input_layer=..., training=...)] *)
Definition _forward_pass (l : layer) (X : pyval) (input_layer : string)
  (training : bool) (g : graph) : result handle * (layer * graph) :=
  match l with
  | LDense d =>
      run_on LDense (Dense._forward_pass X input_layer training) d g
  | LBatchNormalization b =>
      run_on LBatchNormalization
        (BatchNormalization._forward_pass X input_layer training) b g
  | LDropout d =>
      run_on LDropout (Dropout._forward_pass X training input_layer) d g
  | LActivation a =>
      run_on LActivation (Activation._forward_pass X training input_layer) a g
  | LConv2D c =>
      run_on LConv2D (Conv2D._forward_pass X input_layer training) c g
  | LFlatten f =>
      run_on LFlatten (Flatten._forward_pass X training input_layer) f g
  | LMaxPooling2D m =>
      run_on LMaxPooling2D
        (MaxPooling2D._forward_pass X training input_layer) m g
  end.

(** [l.persist_weights()].  [MaxPooling2D] does not define the method and
    neither does its only base class [Layer]: the attribute lookup fails. *)
Definition persist_weights (l : layer) (g : graph)
  : result unit * (layer * graph) :=
  match l with
  | LDense d => run_on LDense Dense.persist_weights d g
  | LBatchNormalization b =>
      run_on LBatchNormalization BatchNormalization.persist_weights b g
  | LDropout d => run_on LDropout Dropout.persist_weights d g
  | LActivation a => run_on LActivation Activation.persist_weights a g
  | LConv2D c => run_on LConv2D Conv2D.persist_weights c g
  | LFlatten f => run_on LFlatten Flatten.persist_weights f g
  | LMaxPooling2D _ => (Raise AttributeError, (l, g))
  end.

(** The configuration of a layer: its constructor arguments and its
    [input_shape].  Every other attribute (node handles, cached inputs,
    optimizer, weight shadows, name, the [trainable] flag) is reset to what
    [__init__] leaves. *)
Definition config (l : layer) : layer :=
  match l with
  | LDense d =>
      LDense (Dense.__init__ (Dense.n_units d) (Dense.input_shape d))
  | LBatchNormalization b =>
      LBatchNormalization
        {| BatchNormalization.momentum := BatchNormalization.momentum b;
           BatchNormalization.float_momentum :=
             BatchNormalization.float_momentum b;
           BatchNormalization.trainable := true;
           BatchNormalization.eps := BatchNormalization.eps b;
           BatchNormalization.float_eps := BatchNormalization.float_eps b;
           BatchNormalization.running_mean := PyNone;
           BatchNormalization.running_var := PyNone;
           BatchNormalization.forward_pass := None;
           BatchNormalization.backward_pass := None;
           BatchNormalization.input_shape := BatchNormalization.input_shape b;
           BatchNormalization.optimizer := None;
           BatchNormalization.np_gamma := None;
           BatchNormalization.np_beta := None;
           BatchNormalization.layer_name := None |}
  | LDropout d =>
      LDropout
        {| Dropout.p := Dropout.p d; Dropout._mask := PyNone;
           Dropout.input_shape := Dropout.input_shape d;
           Dropout.n_units := PyNone; Dropout.pass_through := true;
           Dropout.trainable := true; Dropout.forward_pass := None;
           Dropout.backward_pass := None; Dropout.layer_name := None |}
  | LActivation a =>
      LActivation
        {| Activation.activation_name := Activation.activation_name a;
           Activation.trainable := true;
           Activation.forward_pass := None;
           Activation.backward_pass := None;
           Activation.input_shape := Activation.input_shape a;
           Activation.layer_input := None;
           Activation.layer_name := None |}
  | LConv2D c =>
      LConv2D
        (Conv2D.__init__ (Conv2D.n_filters c) (Conv2D.filter_shape c)
           (Conv2D.input_shape c) (Conv2D.padding c) (Conv2D.stride c))
  | LFlatten f => LFlatten (Flatten.__init__ (Flatten.input_shape f))
  | LMaxPooling2D m =>
      LMaxPooling2D
        {| MaxPooling2D.pool_shape := MaxPooling2D.pool_shape m;
           MaxPooling2D.stride := MaxPooling2D.stride m;
           MaxPooling2D.padding_data := MaxPooling2D.padding_data m;
           MaxPooling2D.trainable := true;
           MaxPooling2D.forward_pass := None;
           MaxPooling2D.backward_pass := None;
           MaxPooling2D.input_shape := MaxPooling2D.input_shape m;
           MaxPooling2D.layer_name := None |}
  end.

(** ** The inherited methods and the backward pass of any layer *)

Definition set_input_shape (shape : noneable (list Z)) (l : layer) : layer :=
  match l with
  | LDense d => LDense (Dense.set_input_shape shape d)
  | LBatchNormalization b =>
      LBatchNormalization (BatchNormalization.set_input_shape shape b)
  | LDropout d => LDropout (Dropout.set_input_shape shape d)
  | LActivation a => LActivation (Activation.set_input_shape shape a)
  | LConv2D c => LConv2D (Conv2D.set_input_shape shape c)
  | LFlatten f => LFlatten (Flatten.set_input_shape shape f)
  | LMaxPooling2D m => LMaxPooling2D (MaxPooling2D.set_input_shape shape m)
  end.

Definition set_layer_name (name : noneable string) (l : layer) : layer :=
  match l with
  | LDense d => LDense (Dense.set_layer_name name d)
  | LBatchNormalization b =>
      LBatchNormalization (BatchNormalization.set_layer_name name b)
  | LDropout d => LDropout (Dropout.set_layer_name name d)
  | LActivation a => LActivation (Activation.set_layer_name name a)
  | LConv2D c => LConv2D (Conv2D.set_layer_name name c)
  | LFlatten f => LFlatten (Flatten.set_layer_name name f)
  | LMaxPooling2D m => LMaxPooling2D (MaxPooling2D.set_layer_name name m)
  end.

Definition get_layer_name (l : layer) : result string :=
  match l with
  | LDense d => Dense.get_layer_name d
  | LBatchNormalization b => BatchNormalization.get_layer_name b
  | LDropout d => Dropout.get_layer_name d
  | LActivation a => Activation.get_layer_name a
  | LConv2D c => Conv2D.get_layer_name c
  | LFlatten f => Flatten.get_layer_name f
  | LMaxPooling2D m => MaxPooling2D.get_layer_name m
  end.

(** [l.__class__.__name__] *)
Definition class_name (l : layer) : string :=
  match l with
  | LDense _ => "Dense"
  | LBatchNormalization _ => "BatchNormalization"
  | LDropout _ => "Dropout"
  | LActivation _ => "Activation"
  | LConv2D _ => "Conv2D"
  | LFlatten _ => "Flatten"
  | LMaxPooling2D _ => "MaxPooling2D"
  end.

(** The cached node handles of a layer. *)
Definition forward_pass (l : layer) : noneable handle :=
  match l with
  | LDense d => Dense.forward_pass d
  | LBatchNormalization b => BatchNormalization.forward_pass b
  | LDropout d => Dropout.forward_pass d
  | LActivation a => Activation.forward_pass a
  | LConv2D c => Conv2D.forward_pass c
  | LFlatten f => Flatten.forward_pass f
  | LMaxPooling2D m => MaxPooling2D.forward_pass m
  end.

Definition backward_pass (l : layer) : noneable handle :=
  match l with
  | LDense d => Dense.backward_pass d
  | LBatchNormalization b => BatchNormalization.backward_pass b
  | LDropout d => Dropout.backward_pass d
  | LActivation a => Activation.backward_pass a
  | LConv2D c => Conv2D.backward_pass c
  | LFlatten f => Flatten.backward_pass f
  | LMaxPooling2D m => MaxPooling2D.backward_pass m
  end.

(** A method that returns a node handle, seen as returning the attribute it
    has just stored. *)
Definition returning_handle {S : Type} (m : M S handle)
  : M S (noneable handle) :=
  h <- m ;; ret (Some h).

(** [l._backward_pass(grad, input_layer=...)] *)
Definition _backward_pass (l : layer) (grad : pyval) (input_layer : string)
  (g : graph) : result (noneable handle) * (layer * graph) :=
  match l with
  | LDense d => run_on LDense (Dense._backward_pass grad input_layer) d g
  | LBatchNormalization b =>
      run_on LBatchNormalization
        (BatchNormalization._backward_pass grad input_layer) b g
  | LDropout d =>
      run_on LDropout
        (returning_handle (Dropout._backward_pass grad input_layer)) d g
  | LActivation a =>
      run_on LActivation
        (returning_handle (Activation._backward_pass grad input_layer)) a g
  | LConv2D c =>
      run_on LConv2D
        (returning_handle (Conv2D._backward_pass grad input_layer)) c g
  | LFlatten f =>
      run_on LFlatten
        (returning_handle (Flatten._backward_pass grad input_layer)) f g
  | LMaxPooling2D m =>
      run_on LMaxPooling2D
        (returning_handle (MaxPooling2D._backward_pass grad input_layer)) m g
  end.

(** Every cached handle of the layer and every persist request of the graph
    designates a node of the graph. *)
Definition handle_in (g : graph) (h : noneable handle) : Prop :=
  match h with
  | Some n => (n < List.length (nodes g))%nat
  | None => True
  end.

Definition handles_valid (l : layer) (g : graph) : Prop :=
  handle_in g (forward_pass l) /\ handle_in g (backward_pass l) /\
  Forall (fun e => (fst e < List.length (nodes g))%nat) (persisted g).

(** The list [l1] is an initial segment of [l2]. *)
Definition prefix {A : Type} (l1 l2 : list A) : Prop :=
  exists rest : list A, l2 = l1 ++ rest.

(** ** Ranges *)

(** An integer of the int64 range. *)
Definition int64 (z : Z) : Prop := - 2 ^ 63 <= z < 2 ^ 63.

(** A dimension, filter size or stride below [2^48] in absolute value:
    there the int64 and binary64 arithmetic of the shape formulas is
    exact. *)
Definition dim_small (z : Z) : Prop := Z.abs z < 2 ^ 48.

(** ** Instances used by the examples *)

Definition empty_graph : graph := {| nodes := []; persisted := [] |}.

Definition sgd : Optimizer :=
  {| data_dict := [("name", AStr "SGD"); ("learning_rate", AFloat (1 # 100))] |}.

(** [Conv2D(n_filters=16, filter_shape=(3,3), input_shape=(3,32,32),
    padding="same", stride=1)] *)
Definition conv_same : Conv2D.t :=
  Conv2D.__init__ 16 (3, 3) (Some [3; 32; 32]) "same" 1.

(** The same layer with [padding="valid"]. *)
Definition conv_valid : Conv2D.t :=
  Conv2D.__init__ 16 (3, 3) (Some [3; 32; 32]) "valid" 1.

(** [Conv2D(n_filters=16, filter_shape=(4,4), input_shape=(3,1,1),
    padding="valid", stride=2)]: a filter larger than its input. *)
Definition conv_wide_filter : Conv2D.t :=
  Conv2D.__init__ 16 (4, 4) (Some [3; 1; 1]) "valid" 2.

(** [MaxPooling2D(pool_shape=(2,2), stride=2)] wired to an input shape. *)
Definition pool_2x2 (input_shape : list Z) : MaxPooling2D.t :=
  MaxPooling2D.set_input_shape (Some input_shape)
    (MaxPooling2D.__init__ (2, 2) 2 "same").

(** [Dense(n_units=10, input_shape=(5,))] *)
Definition dense_5_10 : Dense.t := Dense.__init__ 10 (Some [5]).

(** [Flatten(input_shape=(3,4,4))] *)
Definition flatten_3_4_4 : Flatten.t := Flatten.__init__ (Some [3; 4; 4]).

(** [BatchNormalization()] with its default momentum and epsilon, wired to
    an input shape. *)
Definition bn_wired (input_shape : list Z) : BatchNormalization.t :=
  BatchNormalization.set_input_shape (Some input_shape)
    (BatchNormalization.__init__ (99 # 100) (1 # 100)).

(** A Dense layer after wiring, initialization and a forward declaration
    (node 0), with its [trainable] flag as given. *)
Definition dense_wired (trainable : bool) : Dense.t :=
  {| Dense.forward_pass := Some 0%nat; Dense.backward_pass := None;
     Dense.n_units := 10; Dense.layer_input := PyNode 7%nat;
     Dense.input_shape := Some [5]; Dense.trainable := trainable;
     Dense.optimizer := Some sgd;
     Dense.np_W := Some {| shape := [5; 10] |};
     Dense.np_w0 := Some {| shape := [1; 10] |};
     Dense.layer_name := Some "dense_1" |}.

(** A graph holding the one node declared by the forward pass above. *)
Definition graph_1 : graph :=
  {| nodes :=
       [{| op_name := "forward_pass_dense"; op_input := PyNode 7%nat;
           op_kwargs := [("n_units", PyInt 10);
                         ("input_shape", PyInts [5]);
                         ("data", PyNone);
                         ("input_layer", PyStr "True")] |}];
     persisted := [] |}.

(** A BatchNormalization layer after wiring and initialization, with its
    [trainable] flag as given. *)
Definition bn_ready (trainable : bool) : BatchNormalization.t :=
  {| BatchNormalization.momentum := 99 # 100;
     BatchNormalization.float_momentum := 99 # 100;
     BatchNormalization.trainable := trainable;
     BatchNormalization.eps := 1 # 100;
     BatchNormalization.float_eps := 1 # 100;
     BatchNormalization.running_mean := PyNone;
     BatchNormalization.running_var := PyNone;
     BatchNormalization.forward_pass := Some 0%nat;
     BatchNormalization.backward_pass := None;
     BatchNormalization.input_shape := Some (Some [64]);
     BatchNormalization.optimizer := Some sgd;
     BatchNormalization.np_gamma := Some {| shape := [1; 64] |};
     BatchNormalization.np_beta := Some {| shape := [1; 64] |};
     BatchNormalization.layer_name := Some "bn_1" |}.

(** [Flatten(input_shape=(2**32, 2**32))] *)
Definition flatten_2p32 : Flatten.t :=
  Flatten.__init__ (Some [2 ^ 32; 2 ^ 32]).

(** [BatchNormalization()] whose [trainable] has been set to False, before
    the layer is wired into a model: [input_shape] and [optimizer] are not
    assigned yet. *)
Definition bn_frozen_unwired : BatchNormalization.t :=
  {| BatchNormalization.momentum := 99 # 100;
     BatchNormalization.float_momentum := 99 # 100;
     BatchNormalization.trainable := false;
     BatchNormalization.eps := 1 # 100;
     BatchNormalization.float_eps := 1 # 100;
     BatchNormalization.running_mean := PyNone;
     BatchNormalization.running_var := PyNone;
     BatchNormalization.forward_pass := None;
     BatchNormalization.backward_pass := None;
     BatchNormalization.input_shape := None;
     BatchNormalization.optimizer := None;
     BatchNormalization.np_gamma := None;
     BatchNormalization.np_beta := None;
     BatchNormalization.layer_name := None |}.

(** What a declaration call does to the graph: it appends the one node [d]
    and returns its index. *)
Definition declares (run : result handle * (layer * graph)) (g : graph)
  (d : op_decl) : Prop :=
  exists l' : layer,
    run = (Ok (List.length (nodes g)),
           (l', {| nodes := nodes g ++ [d]; persisted := persisted g |})).

(** A Conv2D layer after wiring, initialization, a forward declaration
    (node 0) and a backward declaration (node 1). *)
Definition conv_declared : Conv2D.t :=
  Conv2D.set_backward_pass (Some 1%nat)
    (Conv2D.set_forward_pass (Some 0%nat) conv_same).

(** * Properties *)

(** ** Rounding to binary64 *)

Lemma ilog2_ratio_upper (n d p : Z) :
  0 < d -> 0 <= n -> 0 <= p -> n < 2 ^ p * d -> ilog2_ratio n d <= p - 1.
Proof.
  intros Hd Hn Hp Hlt. unfold ilog2_ratio.
  assert (Hq : 0 <= n * 2 ^ 1127 / d) by (apply Z.div_pos; lia).
  destruct (Z.eq_dec (n * 2 ^ 1127 / d) 0) as [E|E].
  - rewrite E. cbn. lia.
  - assert (Hlt' : n * 2 ^ 1127 / d < 2 ^ (p + 1127)).
    { apply Z.div_lt_upper_bound; [assumption|].
      rewrite Z.pow_add_r by lia.
      assert (0 < 2 ^ 1127) by (apply Z.pow_pos_nonneg; lia). nia. }
    apply Z.log2_lt_pow2 in Hlt'; lia.
Qed.

Lemma ulp_exp_upper (n d p : Z) :
  0 < d -> 0 <= p -> Z.abs n < 2 ^ p * d ->
  ulp_exp n d <= Z.max (p - 53) (- 1074).
Proof.
  intros Hd Hp Hlt. unfold ulp_exp.
  pose proof (ilog2_ratio_upper (Z.abs n) d p Hd (Z.abs_nonneg n) Hp Hlt).
  lia.
Qed.

Lemma ulp_exp_lower (n d : Z) : - 1074 <= ulp_exp n d.
Proof. unfold ulp_exp. lia. Qed.

Lemma div_half_even_lower (n d A : Z) :
  0 < d -> A * d <= n -> A <= div_half_even n d.
Proof.
  intros Hd H. unfold div_half_even.
  assert (A <= n / d) by (apply Z.div_le_lower_bound; lia).
  destruct (2 * (n mod d) <? d); [lia|].
  destruct (d <? 2 * (n mod d)); [lia|].
  destruct (Z.even (n / d)); lia.
Qed.

Lemma div_half_even_upper (n d B : Z) :
  0 < d -> n <= B * d -> div_half_even n d <= B.
Proof.
  intros Hd H. unfold div_half_even.
  pose proof (Z.div_mod n d ltac:(lia)) as Hdm.
  pose proof (Z.mod_pos_bound n d Hd) as Hm.
  destruct (Z.ltb_spec (2 * (n mod d)) d).
  - nia.
  - assert (n mod d <> 0) by lia.
    assert (n / d < B) by nia.
    destruct (d <? 2 * (n mod d)); [lia|].
    destruct (Z.even (n / d)); lia.
Qed.

Lemma round_ratio_bounds (n d t lo hi : Z) :
  0 < d -> 0 <= t <= 53 ->
  lo * d <= n * 2 ^ t -> n * 2 ^ t <= hi * d ->
  Z.abs n < 2 ^ (53 - t) * d ->
  expo (round_ratio n d) <= - t /\
  lo * 2 ^ (- expo (round_ratio n d) - t) <= mant (round_ratio n d) /\
  mant (round_ratio n d) <= hi * 2 ^ (- expo (round_ratio n d) - t).
Proof.
  intros Hd Ht Hlo Hhi Hmag.
  pose proof (ulp_exp_upper n d (53 - t) Hd ltac:(lia) Hmag) as He.
  pose proof (ulp_exp_lower n d) as He'.
  unfold round_ratio. cbn [expo mant].
  set (e := ulp_exp n d) in *.
  assert (Hle : e <= - t) by lia.
  split; [exact Hle|].
  assert (Hpt : 0 < 2 ^ t) by (apply Z.pow_pos_nonneg; lia).
  assert (Hpe : 0 < 2 ^ (- e - t)) by (apply Z.pow_pos_nonneg; lia).
  assert (Hsplit : 2 ^ (- e) = 2 ^ t * 2 ^ (- e - t)).
  { rewrite <- Z.pow_add_r by lia. f_equal. lia. }
  destruct (Z.leb_spec 0 e).
  - assert (e = 0) by lia. assert (t = 0) by lia. subst t.
    replace (- e - 0) with 0 by lia.
    replace e with 0 by lia. cbn [Z.pow Z.pow_pos Pos.iter] in *.
    rewrite !Z.mul_1_r in *.
    split; [apply div_half_even_lower | apply div_half_even_upper]; lia.
  - split; [apply div_half_even_lower | apply div_half_even_upper];
      try assumption; rewrite Hsplit; nia.
Qed.

Lemma float_add_one_bounds (x : binary64) (t lo hi : Z) :
  0 <= t <= 53 -> expo x <= - t ->
  lo * 2 ^ (- expo x - t) <= mant x ->
  mant x <= hi * 2 ^ (- expo x - t) ->
  Z.abs lo + 2 ^ t < 2 ^ 53 -> Z.abs hi + 2 ^ t < 2 ^ 53 ->
  expo (float_add_int x 1) <= - t /\
  (lo + 2 ^ t) * 2 ^ (- expo (float_add_int x 1) - t)
    <= mant (float_add_int x 1) /\
  mant (float_add_int x 1)
    <= (hi + 2 ^ t) * 2 ^ (- expo (float_add_int x 1) - t).
Proof.
  intros Ht He Hlo Hhi Hl Hh.
  assert (Hpt : 0 < 2 ^ t) by (apply Z.pow_pos_nonneg; lia).
  assert (HP : 0 < 2 ^ (- expo x - t)) by (apply Z.pow_pos_nonneg; lia).
  assert (Hsplit : 2 ^ (- expo x) = 2 ^ t * 2 ^ (- expo x - t)).
  { rewrite <- Z.pow_add_r by lia. f_equal. lia. }
  assert (H53 : 2 ^ 53 = 2 ^ (53 - t) * 2 ^ t).
  { rewrite <- Z.pow_add_r by lia. f_equal. lia. }
  assert (Hpd : 0 < 2 ^ (53 - t)) by (apply Z.pow_pos_nonneg; lia).
  unfold float_add_int.
  destruct (Z.leb_spec 0 (expo x)).
  - assert (expo x = 0) by lia. assert (t = 0) by lia. subst t.
    replace (- expo x - 0) with 0 in * by lia.
    replace (expo x) with 0 by lia.
    change (2 ^ 0) with 1 in *. rewrite Z.mul_1_r in *.
    apply round_ratio_bounds; lia.
  - apply round_ratio_bounds.
    + apply Z.pow_pos_nonneg; lia.
    + lia.
    + rewrite Hsplit. nia.
    + rewrite Hsplit. nia.
    + rewrite Hsplit.
      assert (Z.abs (mant x) <= (Z.abs lo + Z.abs hi) * 2 ^ (- expo x - t))
        by nia.
      assert (Z.abs (mant x) <= Z.max (Z.abs lo) (Z.abs hi)
                                * 2 ^ (- expo x - t)) by nia.
      assert (Z.max (Z.abs lo) (Z.abs hi) + 2 ^ t < 2 ^ (53 - t) * 2 ^ t)
        by lia.
      nia.
Qed.

Lemma trunc_between (m D j : Z) :
  0 < D -> j * D < m -> m < (j + 1) * D ->
  Z.quot m D = if 0 <=? j then j else j + 1.
Proof.
  intros HD Hlo Hhi.
  destruct (Z.leb_spec 0 j).
  - rewrite Z.quot_div_nonneg by nia.
    symmetry. apply (Z.div_unique m D j (m - j * D)); lia.
  - rewrite <- (Z.opp_involutive m), Z.quot_opp_l by lia.
    rewrite Z.quot_div_nonneg by nia.
    assert ((- m) / D = - (j + 1)); [|lia].
    symmetry. apply (Z.div_unique (- m) D (- (j + 1)) (- m + (j + 1) * D)); lia.
Qed.

Lemma quotient_plus_one_setup (n d t : Z) :
  0 < d -> 0 <= t <= 52 -> d <= 2 ^ t ->
  (Z.abs n + 4 * d) * 2 ^ t <= 2 ^ 53 * d ->
  Z.abs n < 2 ^ (53 - t) * d /\
  (Z.abs (n / d) + 3) * 2 ^ t <= 2 ^ 53.
Proof.
  intros Hd Ht Hdt Hmag.
  assert (Hpt : 0 < 2 ^ t) by (apply Z.pow_pos_nonneg; lia).
  assert (H53 : 2 ^ 53 = 2 ^ (53 - t) * 2 ^ t).
  { rewrite <- Z.pow_add_r by lia. f_equal. lia. }
  assert (Hpd : 0 < 2 ^ (53 - t)) by (apply Z.pow_pos_nonneg; lia).
  pose proof (Z.div_mod n d ltac:(lia)) as Hdm.
  pose proof (Z.mod_pos_bound n d Hd) as Hm.
  generalize dependent (2 ^ 53). intros B Hmag H53.
  generalize dependent (2 ^ (53 - t)). intros C Hpd HB. subst B.
  generalize dependent (2 ^ t). intros T HdT HT Hmag.
  generalize dependent (n mod d). intros r Hdm Hr.
  generalize dependent (n / d). intros k Hdm.
  assert (Hk : Z.abs k * d <= Z.abs n + d) by nia.
  split.
  - nia.
  - assert ((Z.abs k + 3) * T * d <= C * T * d) by (nia).
    nia.
Qed.

Lemma noninteger_lower (n d k r T : Z) :
  0 < d -> n = d * k + r -> 1 <= r -> d <= T -> (k * T + 1) * d <= n * T.
Proof. intros Hd -> Hr HT. nia. Qed.

Lemma noninteger_upper (n d k r T : Z) :
  0 < d -> n = d * k + r -> r < d -> d <= T ->
  n * T <= ((k + 1) * T - 1) * d.
Proof. intros Hd -> Hr HT. nia. Qed.

Lemma sum_bound_lo (k T B : Z) :
  0 < T -> (Z.abs k + 3) * T <= B -> Z.abs (k * T + 1) + T < B.
Proof.
  intros HT HB.
  assert (Z.abs (k * T) = Z.abs k * T)
    by (rewrite Z.abs_mul, (Z.abs_eq T) by lia; reflexivity).
  assert (1 <= T) by lia. nia.
Qed.

Lemma sum_bound_hi (k T B : Z) :
  2 <= T -> (Z.abs k + 3) * T <= B -> Z.abs ((k + 1) * T - 1) + T < B.
Proof.
  intros HT HB.
  assert (Z.abs ((k + 1) * T) = Z.abs (k + 1) * T)
    by (rewrite Z.abs_mul, (Z.abs_eq T) by lia; reflexivity).
  assert (Z.abs (k + 1) * T <= (Z.abs k + 1) * T) by nia.
  nia.
Qed.

Lemma strictly_between (m k T P : Z) :
  0 < P -> 2 <= T ->
  (k * T + 1 + T) * P <= m -> m <= ((k + 1) * T - 1 + T) * P ->
  (k + 1) * (T * P) < m /\ m < (k + 1 + 1) * (T * P).
Proof. intros HP HT Hlo Hhi. split; nia. Qed.

Lemma not_a_multiple (m D j k : Z) :
  0 < D -> k * D < m -> m < (k + 1) * D -> m = j * D -> False.
Proof.
  intros HD Hl Hh ->.
  apply Z.mul_lt_mono_pos_r in Hl; [|assumption].
  apply Z.mul_lt_mono_pos_r in Hh; [|assumption]. lia.
Qed.

Lemma remainder_between (n d k r : Z) :
  n = d * k + r -> 0 < r -> r < d ->
  (k + 1) * d < n + d /\ n + d < (k + 1 + 1) * d.
Proof. intros -> Hr Hd. split; nia. Qed.

(** The float [n/d + 1]: when every quantity is small enough, it is whole
    exactly when [d] divides [n], and [int()] of it is the quotient of
    [n + d] by [d] truncated toward zero. *)
Lemma quotient_plus_one (n d t : Z) :
  0 < d -> 0 <= t <= 52 -> d <= 2 ^ t ->
  (Z.abs n + 4 * d) * 2 ^ t <= 2 ^ 53 * d ->
  expo (round_ratio n d) <= 0 /\
  is_whole (float_add_int (round_ratio n d) 1) = (Z.rem (n + d) d =? 0) /\
  py_int (float_add_int (round_ratio n d) 1) = Z.quot (n + d) d.
Proof.
  intros Hd Ht Hdt Hmag.
  destruct (quotient_plus_one_setup n d t Hd Ht Hdt Hmag) as [Hmag1 Hk3].
  assert (Hpt : 0 < 2 ^ t) by (apply Z.pow_pos_nonneg; lia).
  pose proof (Z.div_mod n d ltac:(lia)) as Hdm.
  pose proof (Z.mod_pos_bound n d Hd) as Hm.
  set (k := n / d) in *. set (r := n mod d) in *.
  set (T := 2 ^ t) in *.
  assert (HkT : Z.abs (k * T) = Z.abs k * T)
    by (rewrite Z.abs_mul, (Z.abs_eq T) by lia; reflexivity).
  destruct (Z.eq_dec r 0) as [Hr|Hr].
  - (* d divides n *)
    assert (Hn : n = k * d) by lia.
    destruct (round_ratio_bounds n d t (k * T) (k * T))
      as (He1 & Hlo1 & Hhi1).
    { assumption. } { lia. }
    { fold T. rewrite Hn. nia. }
    { fold T. rewrite Hn. nia. }
    { assumption. }
    destruct (float_add_one_bounds (round_ratio n d) t (k * T) (k * T))
      as (He2 & Hlo2 & Hhi2); try assumption.
    { lia. }
    { fold T. rewrite HkT. clear - Hk3 Hpt. nia. }
    { fold T. rewrite HkT. clear - Hk3 Hpt. nia. }
    split; [lia|].
    fold T in Hlo2, Hhi2.
    set (y := float_add_int (round_ratio n d) 1) in *.
    assert (HP : 0 < 2 ^ (- expo y - t)) by (apply Z.pow_pos_nonneg; lia).
    assert (Hsplit : 2 ^ (- expo y) = T * 2 ^ (- expo y - t)).
    { unfold T. rewrite <- Z.pow_add_r by lia. f_equal. lia. }
    assert (Hm2 : mant y = (k + 1) * 2 ^ (- expo y)).
    { rewrite Hsplit. set (P := 2 ^ (- expo y - t)) in *. nia. }
    replace (n + d) with ((k + 1) * d) by lia.
    rewrite Z.rem_mul, Z.quot_mul by lia. cbn [Z.eqb].
    unfold is_whole, py_int.
    destruct (Z.leb_spec 0 (expo y)).
    + assert (E0 : expo y = 0) by lia.
      rewrite Hm2, E0. cbn. split; [reflexivity|lia].
    + assert (0 < 2 ^ (- expo y)) by (apply Z.pow_pos_nonneg; lia).
      rewrite Hm2, Z.mod_mul, Z.quot_mul by lia. split; reflexivity.
  - (* d does not divide n *)
    assert (Hd2 : 2 <= d) by lia.
    assert (Ht1 : 1 <= t).
    { destruct (Z.eq_dec t 0) as [E|]; [|lia].
      unfold T in Hdt. rewrite E in Hdt. cbn in Hdt. lia. }
    assert (H2t : 2 <= T).
    { unfold T. change 2 with (2 ^ 1) at 1. apply Z.pow_le_mono_r; lia. }
    destruct (round_ratio_bounds n d t (k * T + 1) ((k + 1) * T - 1))
      as (He1 & Hlo1 & Hhi1).
    { assumption. } { lia. }
    { fold T. apply (noninteger_lower n d k r T); lia. }
    { fold T. apply (noninteger_upper n d k r T); lia. }
    { assumption. }
    destruct (float_add_one_bounds (round_ratio n d) t
                (k * T + 1) ((k + 1) * T - 1))
      as (He2 & Hlo2 & Hhi2); try assumption.
    { lia. }
    { fold T. apply sum_bound_lo; [lia | assumption]. }
    { fold T. apply sum_bound_hi; [lia | assumption]. }
    split; [lia|].
    fold T in Hlo2, Hhi2.
    set (y := float_add_int (round_ratio n d) 1) in *.
    assert (HP : 0 < 2 ^ (- expo y - t)) by (apply Z.pow_pos_nonneg; lia).
    assert (Hsplit : 2 ^ (- expo y) = T * 2 ^ (- expo y - t)).
    { unfold T. rewrite <- Z.pow_add_r by lia. f_equal. lia. }
    assert (HD : 0 < 2 ^ (- expo y)) by (apply Z.pow_pos_nonneg; lia).
    destruct (strictly_between (mant y) k T (2 ^ (- expo y - t)) HP H2t
                Hlo2 Hhi2) as [Hl Hh].
    rewrite <- Hsplit in Hl, Hh.
    destruct (remainder_between n d k r Hdm ltac:(lia) ltac:(lia))
      as [Hnl Hnh].
    split.
    + replace (Z.rem (n + d) d =? 0) with false.
      * unfold is_whole. destruct (Z.leb_spec 0 (expo y)); [lia|].
        apply Z.eqb_neq. intros Hz.
        apply Z.mod_divide in Hz; [|lia]. destruct Hz as [j Hj].
        exact (not_a_multiple _ _ j (k + 1) HD Hl Hh Hj).
      * symmetry. apply Z.eqb_neq. intros Hz.
        apply Z.rem_divide in Hz; [|lia]. destruct Hz as [j Hj].
        exact (not_a_multiple _ _ j (k + 1) Hd Hnl Hnh Hj).
    + unfold py_int. destruct (Z.leb_spec 0 (expo y)); [lia|].
      rewrite (trunc_between (mant y) (2 ^ (- expo y)) (k + 1) HD Hl Hh).
      rewrite (trunc_between (n + d) d (k + 1) Hd Hnl Hnh). reflexivity.
Qed.

Lemma log2_up_bounds (d : Z) :
  0 < d ->
  0 <= Z.log2_up d /\ d <= 2 ^ Z.log2_up d /\ 2 ^ Z.log2_up d < 2 * d.
Proof.
  intros Hd. split; [apply Z.log2_up_nonneg|].
  destruct (Z.eq_dec d 1) as [->|Hne]; [cbn; lia|].
  destruct (Z.log2_up_spec d ltac:(lia)) as [Hlo Hhi].
  split; [assumption|].
  assert (0 < Z.log2_up d) by (apply Z.log2_up_pos; lia).
  replace (Z.log2_up d) with (Z.succ (Z.pred (Z.log2_up d))) at 1 by lia.
  rewrite Z.pow_succ_r by lia. lia.
Qed.

(** The same for quantities below [2^50]: no auxiliary exponent. *)
Lemma quotient_plus_one_small (n d : Z) :
  0 < d -> Z.abs n + 4 * d <= 2 ^ 52 ->
  expo (round_ratio n d) <= 0 /\
  is_whole (float_add_int (round_ratio n d) 1) = (Z.rem (n + d) d =? 0) /\
  py_int (float_add_int (round_ratio n d) 1) = Z.quot (n + d) d.
Proof.
  intros Hd Hb.
  destruct (log2_up_bounds d Hd) as (Ht0 & Hle & Hlt).
  assert (Ht : Z.log2_up d < 51).
  { apply (Z.pow_lt_mono_r_iff 2); [lia|lia|].
    change (2 ^ 51) with (2 * 2 ^ 50). change (2 ^ 52) with (4 * 2 ^ 50) in Hb.
    lia. }
  apply (quotient_plus_one n d (Z.log2_up d)); try lia.
  change (2 ^ 53) with (2 * 2 ^ 52).
  generalize dependent (2 ^ Z.log2_up d). intros T HT1 HT2.
  generalize dependent (2 ^ 52). intros B HB.
  assert (0 <= Z.abs n) by lia. nia.
Qed.

(** The float of a quotient of integers, plus one. *)
Lemma ratio_plus_one (a b : Z) :
  b <> 0 -> Z.abs a + 4 * Z.abs b <= 2 ^ 52 ->
  let x := round_ratio (a * Z.sgn b) (Z.abs b) in
  overflows x = false /\
  is_whole (float_add_int x 1) = (Z.rem (a + b) b =? 0) /\
  py_int (float_add_int x 1) = Z.quot (a + b) b.
Proof.
  intros Hb Hmag x.
  assert (Habs : Z.abs (a * Z.sgn b) = Z.abs a).
  { rewrite Z.abs_mul. destruct b; cbn; lia. }
  destruct (quotient_plus_one_small (a * Z.sgn b) (Z.abs b))
    as (He & Hw & Hi); [lia | lia |].
  fold x in He, Hw, Hi. split.
  - unfold overflows. destruct (Z.leb_spec 971 (expo x)); [lia|reflexivity].
  - rewrite Hw, Hi. destruct b as [|p|p]; [congruence| |].
    + cbn [Z.sgn Z.abs]. rewrite Z.mul_1_r. split; reflexivity.
    + cbn [Z.sgn Z.abs].
      replace (a * -1 + Z.pos p) with (- (a + Z.neg p)) by lia.
      change (Z.pos p) with (- Z.neg p).
      rewrite Z.quot_opp_opp, Z.rem_opp_opp by discriminate.
      split; [|reflexivity].
      destruct (Z.eqb_spec (Z.rem (a + Z.neg p) (Z.neg p)) 0) as [E|E].
      * rewrite E. reflexivity.
      * apply Z.eqb_neq. lia.
Qed.

Lemma truediv_small (a b : Z) :
  b <> 0 -> Z.abs a + 4 * Z.abs b <= 2 ^ 52 ->
  exists x : binary64,
    truediv a b = Ok x /\
    is_whole (float_add_int x 1) = (Z.rem (a + b) b =? 0) /\
    py_int (float_add_int x 1) = Z.quot (a + b) b.
Proof.
  intros Hb Hmag.
  destruct (ratio_plus_one a b Hb Hmag) as (Ho & Hw & Hi).
  eexists. split; [|split; [exact Hw | exact Hi]].
  unfold truediv. destruct (Z.eqb_spec b 0); [contradiction|].
  rewrite Ho. reflexivity.
Qed.

(** Integers below [2^53] are floats. *)
Lemma round_int_small (z : Z) : Z.abs z < 2 ^ 53 -> round_int z = z.
Proof.
  intros Hz. unfold round_int.
  destruct (round_ratio_bounds z 1 0 z z) as (He & Hlo & Hhi); try lia.
  unfold py_int. rewrite Z.sub_0_r in Hlo, Hhi.
  destruct (Z.leb_spec 0 (expo (round_ratio z 1))).
  - replace (expo (round_ratio z 1)) with 0 in * by lia. cbn in *. lia.
  - assert (0 < 2 ^ (- expo (round_ratio z 1)))
      by (apply Z.pow_pos_nonneg; lia).
    replace (mant (round_ratio z 1))
      with (z * 2 ^ (- expo (round_ratio z 1))) by lia.
    apply Z.quot_mul. lia.
Qed.

Lemma np_truediv_small (a b : Z) :
  b <> 0 -> Z.abs a + 4 * Z.abs b <= 2 ^ 52 ->
  exists x : binary64,
    np_truediv a b = Finite x /\
    is_whole (float_add_int x 1) = (Z.rem (a + b) b =? 0) /\
    py_int (float_add_int x 1) = Z.quot (a + b) b.
Proof.
  intros Hb Hmag.
  destruct (ratio_plus_one a b Hb Hmag) as (_ & Hw & Hi).
  eexists. split; [|split; [exact Hw | exact Hi]].
  unfold np_truediv.
  assert (H53 : 2 ^ 52 < 2 ^ 53) by (cbn; lia).
  rewrite (round_int_small a), (round_int_small b) by lia.
  destruct (Z.eqb_spec b 0); [contradiction|reflexivity].
Qed.

(** ** 64-bit integers *)

Lemma wrap64_small (z : Z) : int64 z -> wrap64 z = z.
Proof.
  unfold int64, wrap64. intros Hz.
  change (2 ^ 64) with (2 * 2 ^ 63). rewrite Z.mod_small; lia.
Qed.

Lemma wrap64_mul_l (a b : Z) : wrap64 (wrap64 a * b) = wrap64 (a * b).
Proof.
  unfold wrap64. f_equal.
  rewrite <- (Zplus_mod_idemp_l (((a + 2 ^ 63) mod 2 ^ 64 - 2 ^ 63) * b)).
  rewrite <- (Zmult_mod_idemp_l ((a + 2 ^ 63) mod 2 ^ 64 - 2 ^ 63)).
  rewrite Zminus_mod_idemp_l.
  replace (a + 2 ^ 63 - 2 ^ 63) with a by lia.
  rewrite Zmult_mod_idemp_l, Zplus_mod_idemp_l. reflexivity.
Qed.

Lemma np_prod_from (l : list Z) (a : Z) :
  fold_left (fun acc x => wrap64 (acc * x)) l (wrap64 a) =
  wrap64 (fold_left Z.mul l a).
Proof.
  revert a. induction l as [|x l IH]; intros a; cbn [fold_left].
  - reflexivity.
  - rewrite wrap64_mul_l. apply IH.
Qed.

(** [np.prod] is the product of the entries reduced to 64 bits. *)
Lemma np_prod_wrap (dims : list Z) :
  np_prod dims = wrap64 (fold_right Z.mul 1 dims).
Proof.
  unfold np_prod. change 1 with (wrap64 1) at 1.
  rewrite np_prod_from. f_equal.
  apply fold_symmetric; intros; lia.
Qed.

Lemma np_prod_exact (dims : list Z) :
  int64 (fold_right Z.mul 1 dims) ->
  np_prod dims = fold_right Z.mul 1 dims.
Proof.
  intros H. rewrite np_prod_wrap. apply wrap64_small. exact H.
Qed.

(** ** Arithmetic of truncation *)

Lemma rem_shift_divide (a s : Z) :
  s <> 0 -> (Z.rem (a + s) s = 0 <-> (s | a)).
Proof.
  intros Hs. rewrite Z.rem_divide by assumption. split.
  - intros [k Hk]. exists (k - 1). lia.
  - intros [k Hk]. exists (k + 1). lia.
Qed.

Lemma quot_shift_exact (a s : Z) :
  s <> 0 -> (s | a) -> Z.quot (a + s) s = a / s + 1.
Proof.
  intros Hs [k ->].
  replace (k * s + s) with ((k + 1) * s) by lia.
  rewrite Z.quot_mul, Z.div_mul by assumption. reflexivity.
Qed.

Lemma quot_shift_nonneg (a s : Z) :
  0 < s -> - s <= a -> Z.quot (a + s) s = a / s + 1.
Proof.
  intros Hs Ha.
  rewrite Z.quot_div_nonneg by lia.
  replace (a + s) with (a + 1 * s) by lia.
  rewrite Z.div_add by lia. reflexivity.
Qed.

Lemma quot_shift_floor (a s : Z) :
  0 < s -> (- s <= a \/ (s | a)) -> Z.quot (a + s) s = a / s + 1.
Proof.
  intros Hs [Ha | Hd].
  - apply quot_shift_nonneg; assumption.
  - apply quot_shift_exact; [lia | assumption].
Qed.

(** Floor and ceiling of a half add up to the whole. *)
Lemma floor_ceil_half (k : Z) : k / 2 + - (- k / 2) = k.
Proof.
  pose proof (Z.div_mod k 2). pose proof (Z.mod_pos_bound k 2).
  pose proof (Z.div_mod (- k) 2). pose proof (Z.mod_pos_bound (- k) 2).
  lia.
Qed.


(** ** Shapes that NumPy accepts *)

Lemma np_new_ok (dims : list Z) (a : ndarray) :
  np_new dims = Ok a ->
  a = {| shape := dims |} /\
  Forall (fun d => 0 <= d) dims /\
  8 * fold_right Z.mul 1 (filter (fun d => negb (d =? 0)) dims) < 2 ^ 63.
Proof.
  unfold np_new.
  destruct (forallb (fun d => (- 2 ^ 63 <=? d) && (d <? 2 ^ 63)) dims);
    cbn [negb]; [|discriminate].
  destruct (forallb (fun d => 0 <=? d) dims) eqn:E; cbn [negb];
    [|discriminate].
  destruct (Z.leb_spec (2 ^ 63)
              (8 * fold_right Z.mul 1
                     (filter (fun d => negb (d =? 0)) dims))) as [|Hsz];
    [discriminate|].
  intros H. injection H as <-. split; [reflexivity|]. split; [|exact Hsz].
  apply Forall_forall. intros x Hx. apply Z.leb_le.
  exact (proj1 (forallb_forall _ _) E x Hx).
Qed.

(** The element count lies between zero and the count over the entries
    that are not zero, which is at least one. *)
Lemma product_filter_bound (l : list Z) :
  Forall (fun d => 0 <= d) l ->
  0 <= fold_right Z.mul 1 l <=
    fold_right Z.mul 1 (filter (fun d => negb (d =? 0)) l) /\
  1 <= fold_right Z.mul 1 (filter (fun d => negb (d =? 0)) l).
Proof.
  induction 1 as [|x l Hx _ IH]; cbn [filter fold_right]; [lia|].
  destruct (Z.eqb_spec x 0) as [->|Hne]; cbn [negb fold_right]; [lia|].
  nia.
Qed.

Lemma product_filter_entry (l : list Z) (x : Z) :
  Forall (fun d => 0 <= d) l -> In x l ->
  x <= fold_right Z.mul 1 (filter (fun d => negb (d =? 0)) l).
Proof.
  induction 1 as [|y l Hy Hl IH]; cbn [In filter fold_right]; [tauto|].
  pose proof (product_filter_bound l Hl) as [_ H1].
  intros [->|Hin].
  - destruct (Z.eqb_spec x 0); cbn [negb fold_right]; nia.
  - specialize (IH Hin).
    destruct (Z.eqb_spec y 0); cbn [negb fold_right]; nia.
Qed.

Lemma product_filter_small (B : Z) (l : list Z) :
  1 <= B -> Forall (fun d => 0 <= d <= B) l ->
  fold_right Z.mul 1 (filter (fun d => negb (d =? 0)) l)
    <= B ^ Z.of_nat (List.length l).
Proof.
  intros HB. induction 1 as [|x l Hx Hl IH].
  - cbn. lia.
  - assert (H0 : Forall (fun d => 0 <= d) l)
      by (eapply Forall_impl; [|exact Hl]; cbn; lia).
    pose proof (product_filter_bound l H0) as [_ H1].
    cbn [filter fold_right List.length]. rewrite Nat2Z.inj_succ.
    rewrite Z.pow_succ_r by lia.
    destruct (Z.eqb_spec x 0); cbn [negb fold_right]; nia.
Qed.

Lemma np_new_accepts (dims : list Z) :
  Forall (fun d => 0 <= d) dims ->
  8 * fold_right Z.mul 1 (filter (fun d => negb (d =? 0)) dims) < 2 ^ 63 ->
  np_new dims = Ok {| shape := dims |}.
Proof.
  intros Hpos Hsz. unfold np_new.
  replace (forallb (fun d => (- 2 ^ 63 <=? d) && (d <? 2 ^ 63)) dims)
    with true.
  2: { symmetry. apply forallb_forall. intros x Hx.
       pose proof (proj1 (Forall_forall _ _) Hpos x Hx) as H0.
       pose proof (product_filter_entry dims x Hpos Hx).
       cbn beta in H0. apply andb_true_intro. split.
       - apply Z.leb_le. lia.
       - apply Z.ltb_lt. lia. }
  replace (forallb (fun d => 0 <=? d) dims) with true.
  2: { symmetry. apply forallb_forall. intros x Hx. apply Z.leb_le.
       exact (proj1 (Forall_forall _ _) Hpos x Hx). }
  cbn [negb].
  destruct (Z.leb_spec (2 ^ 63)
              (8 * fold_right Z.mul 1
                     (filter (fun d => negb (d =? 0)) dims))); [lia|].
  reflexivity.
Qed.

(** Small shapes: at most four entries, each at most [2^14]. *)
Lemma np_new_small (dims : list Z) :
  (List.length dims <= 4)%nat -> Forall (fun d => 0 <= d <= 2 ^ 14) dims ->
  np_new dims = Ok {| shape := dims |}.
Proof.
  intros Hlen Hall. apply np_new_accepts.
  - eapply Forall_impl; [|exact Hall]. cbn. lia.
  - pose proof (product_filter_small (2 ^ 14) dims ltac:(lia) Hall) as Hp.
    assert (Hpow : (2 ^ 14) ^ Z.of_nat (List.length dims) <= (2 ^ 14) ^ 4)
      by (apply Z.pow_le_mono_r; lia).
    change ((2 ^ 14) ^ 4) with (2 ^ 56) in Hpow. lia.
Qed.

(** The number of elements of an array that NumPy has created, as
    [np.prod] of its shape gives it. *)
Lemma np_new_count (dims : list Z) (a : ndarray) :
  np_new dims = Ok a ->
  np_prod (shape a) = fold_right Z.mul 1 dims /\
  0 <= fold_right Z.mul 1 dims < 2 ^ 60.
Proof.
  intros H. destruct (np_new_ok dims a H) as (-> & Hpos & Hsz).
  pose proof (product_filter_bound dims Hpos) as [Hb _].
  cbn [shape]. split; [|lia].
  apply np_prod_exact. unfold int64. lia.
Qed.

(** ** What [1 / math.sqrt(d)] raises *)

Lemma inv_sqrt_ok (d : Z) : inv_sqrt d = Ok tt -> 0 < d.
Proof.
  unfold inv_sqrt. destruct (overflows (round_ratio d 1)); [discriminate|].
  destruct (Z.ltb_spec d 0); [discriminate|].
  destruct (Z.eqb_spec d 0); [discriminate|]. lia.
Qed.

Lemma inv_sqrt_small (d : Z) :
  Z.abs d < 2 ^ 53 ->
  inv_sqrt d = if d <? 0 then Raise ValueError
               else if d =? 0 then Raise ZeroDivisionError
               else Ok tt.
Proof.
  intros Hd. unfold inv_sqrt.
  destruct (round_ratio_bounds d 1 0 d d) as (He & _); try lia.
  unfold overflows.
  destruct (Z.leb_spec 971 (expo (round_ratio d 1))); [lia|reflexivity].
Qed.

(** ** Conv2D.output_shape *)

Lemma determine_padding_total (fh fw th tw : Z) (policy : string) :
  dim_small fh -> dim_small fw ->
  (policy = "same" /\ th = fh - 1 /\ tw = fw - 1) \/
  (policy = "valid" /\ th = 0 /\ tw = 0) ->
  exists pad_h pad_w,
    determine_padding (fh, fw) policy = Some (pad_h, pad_w) /\
    np_sum pad_h = th /\ np_sum pad_w = tw.
Proof.
  unfold dim_small.
  intros Hfh Hfw [(-> & -> & ->) | (-> & -> & ->)]; do 2 eexists;
    (split; [reflexivity|]); unfold np_sum; cbn [fst snd].
  - rewrite !floor_ceil_half.
    split; apply wrap64_small; unfold int64; lia.
  - split; reflexivity.
Qed.

(** What [output_shape] computes: the quotient is shifted by one and then
    truncated toward zero.  Below [2^48] neither the int64 additions nor
    the float64 division round. *)
Lemma Conv2D_output_shape_trunc
  (self : Conv2D.t) (channels height width fh fw th tw : Z) :
  Conv2D.input_shape self = Some [channels; height; width] ->
  Conv2D.filter_shape self = (fh, fw) ->
  Conv2D.stride self <> 0 ->
  (Conv2D.padding self = "same" /\ th = fh - 1 /\ tw = fw - 1) \/
  (Conv2D.padding self = "valid" /\ th = 0 /\ tw = 0) ->
  dim_small height -> dim_small width ->
  dim_small fh -> dim_small fw -> dim_small (Conv2D.stride self) ->
  Conv2D.output_shape self =
    Ok [Conv2D.n_filters self;
        Z.quot (height + th - fh + Conv2D.stride self) (Conv2D.stride self);
        Z.quot (width + tw - fw + Conv2D.stride self) (Conv2D.stride self)].
Proof.
  intros Hin Hf Hs Hpad Hh Hw Hfh Hfw Hst.
  destruct (determine_padding_total fh fw th tw _ Hfh Hfw Hpad)
    as (pad_h & pad_w & Hdp & Hph & Hpw).
  assert (Ht : (th = fh - 1 \/ th = 0) /\ (tw = fw - 1 \/ tw = 0))
    by (destruct Hpad as [(_ & -> & ->) | (_ & -> & ->)]; lia).
  unfold dim_small in Hh, Hw, Hfh, Hfw, Hst.
  unfold Conv2D.output_shape.
  rewrite Hin, Hf, Hdp. cbn [unpack3 unpack_pads rbind fst snd].
  rewrite Hph, Hpw. unfold np_int_add, np_int_sub.
  rewrite (wrap64_small (height + th)), (wrap64_small (width + tw))
    by (unfold int64; lia).
  rewrite (wrap64_small (height + th - fh)),
    (wrap64_small (width + tw - fw)) by (unfold int64; lia).
  destruct (np_truediv_small (height + th - fh) (Conv2D.stride self))
    as (x & Hx & _ & Hix); [assumption | lia |].
  destruct (np_truediv_small (width + tw - fw) (Conv2D.stride self))
    as (y & Hy & _ & Hiy); [assumption | lia |].
  rewrite Hx, Hy. cbn [np_add np_int rbind]. rewrite Hix, Hiy.
  reflexivity.
Qed.

(** C1 (amended).  For a Conv2D layer with input_shape = (channels, height,
    width), filter_shape = (fh, fw), stride s >= 1 and padding "same" or
    "valid", where height, width, fh, fw and s are below 2^48 in absolute
    value, and with total padding filter_dim - 1 for "same" and 0 for
    "valid", output_shape() returns n_filters followed, for each spatial
    dimension, by (dim + total_pad - filter_dim)/s + 1 truncated toward
    zero; that entry is floor((dim + total_pad - filter_dim)/s) + 1
    whenever dim + total_pad - filter_dim >= -s or s divides it.  The 3x3
    filter over (3,32,32) with stride 1 gives (16,32,32) under "same" and
    (16,30,30) under "valid". *)
Theorem Conv2D_output_shape_formula :
  (forall (self : Conv2D.t) (channels height width fh fw th tw : Z),
      Conv2D.input_shape self = Some [channels; height; width] ->
      Conv2D.filter_shape self = (fh, fw) ->
      1 <= Conv2D.stride self ->
      (Conv2D.padding self = "same" /\ th = fh - 1 /\ tw = fw - 1) \/
      (Conv2D.padding self = "valid" /\ th = 0 /\ tw = 0) ->
      dim_small height -> dim_small width ->
      dim_small fh -> dim_small fw -> dim_small (Conv2D.stride self) ->
      let s := Conv2D.stride self in
      Conv2D.output_shape self =
        Ok [Conv2D.n_filters self;
            Z.quot (height + th - fh + s) s;
            Z.quot (width + tw - fw + s) s] /\
      ((- s <= height + th - fh \/ (s | height + th - fh)) ->
       (- s <= width + tw - fw \/ (s | width + tw - fw)) ->
       Conv2D.output_shape self =
         Ok [Conv2D.n_filters self;
             (height + th - fh) / s + 1;
             (width + tw - fw) / s + 1])) /\
  Conv2D.output_shape conv_same = Ok [16; 32; 32] /\
  Conv2D.output_shape conv_valid = Ok [16; 30; 30].
Proof.
  split; [|split; vm_compute; reflexivity].
  intros self channels height width fh fw th tw Hin Hf Hs Hpad
    Hdh Hdw Hdfh Hdfw Hds s.
  assert (Ht := Conv2D_output_shape_trunc self channels height width
                  fh fw th tw Hin Hf ltac:(lia) Hpad Hdh Hdw Hdfh Hdfw Hds).
  fold s in Ht. split; [exact Ht|].
  intros Hh Hw. rewrite Ht.
  rewrite (quot_shift_floor (height + th - fh) s) by (subst s; lia || assumption).
  rewrite (quot_shift_floor (width + tw - fw) s) by (subst s; lia || assumption).
  reflexivity.
Qed.

Lemma Conv2D_output_shape_formula_witness :
  Conv2D.output_shape conv_same = Ok [16; 32; 32] /\
  Conv2D.output_shape conv_valid = Ok [16; 30; 30].
Proof.
  split.
  - apply (proj1 Conv2D_output_shape_formula conv_same 3 32 32 3 3 2 2).
    + reflexivity.
    + reflexivity.
    + cbn. lia.
    + left. repeat split; reflexivity.
    + reflexivity.
    + reflexivity.
    + reflexivity.
    + reflexivity.
    + reflexivity.
    + left. cbn. lia.
    + left. cbn. lia.
  - apply (proj1 Conv2D_output_shape_formula conv_valid 3 32 32 3 3 0 0).
    + reflexivity.
    + reflexivity.
    + cbn. lia.
    + right. repeat split; reflexivity.
    + reflexivity.
    + reflexivity.
    + reflexivity.
    + reflexivity.
    + reflexivity.
    + left. cbn. lia.
    + left. cbn. lia.
Defined.

(** The formula of C1 as stated, with floor in place of truncation, fails
    for a filter larger than its input: [(1 + 0 - 4) / 2 + 1] is [-0.5],
    which [int()] takes to [0], while [floor(-1.5) + 1] is [-1]. *)
Lemma Conv2D_output_shape_floor_fails :
  Conv2D.input_shape conv_wide_filter = Some [3; 1; 1] /\
  Conv2D.filter_shape conv_wide_filter = (4, 4) /\
  Conv2D.stride conv_wide_filter = 2 /\
  Conv2D.padding conv_wide_filter = "valid" /\
  Conv2D.output_shape conv_wide_filter = Ok [16; 0; 0] /\
  Conv2D.output_shape conv_wide_filter <>
    Ok [16; (1 + 0 - 4) / 2 + 1; (1 + 0 - 4) / 2 + 1].
Proof.
  do 4 (split; [reflexivity|]). split.
  - vm_compute. reflexivity.
  - vm_compute. discriminate.
Qed.

(** ** MaxPooling2D.output_shape *)

(** Below [2^48] the float quotient is exact enough for the integrality
    test to be the divisibility test. *)
Lemma MaxPooling2D_output_shape_cases
  (self : MaxPooling2D.t) (channels height width ph pw : Z) :
  MaxPooling2D.input_shape self = Some (Some [channels; height; width]) ->
  MaxPooling2D.pool_shape self = (ph, pw) ->
  MaxPooling2D.stride self <> 0 ->
  dim_small height -> dim_small width ->
  dim_small ph -> dim_small pw -> dim_small (MaxPooling2D.stride self) ->
  let s := MaxPooling2D.stride self in
  MaxPooling2D.output_shape self =
    if (Z.rem (height - ph + s) s =? 0) && (Z.rem (width - pw + s) s =? 0)
    then Ok [channels; Z.quot (height - ph + s) s; Z.quot (width - pw + s) s]
    else Raise AssertionError.
Proof.
  intros Hin Hp Hs Hh Hw Hph Hpw Hst s.
  unfold dim_small in Hh, Hw, Hph, Hpw, Hst.
  unfold MaxPooling2D.output_shape.
  rewrite Hin, Hp. cbn [getattr unpack3 rbind fst snd]. fold s.
  destruct (truediv_small (height - ph) s) as (x & Hx & Hwx & Hix);
    [assumption | subst s; lia |].
  destruct (truediv_small (width - pw) s) as (y & Hy & Hwy & Hiy);
    [assumption | subst s; lia |].
  rewrite Hx, Hy. cbn [rbind]. rewrite Hwx, Hwy, Hix, Hiy.
  destruct (Z.rem (height - ph + s) s =? 0),
           (Z.rem (width - pw + s) s =? 0); reflexivity.
Qed.

(** With a zero stride the division itself raises. *)
Lemma MaxPooling2D_output_shape_zero_stride
  (self : MaxPooling2D.t) (channels height width : Z) :
  MaxPooling2D.input_shape self = Some (Some [channels; height; width]) ->
  MaxPooling2D.stride self = 0 ->
  MaxPooling2D.output_shape self = Raise ZeroDivisionError.
Proof.
  intros Hin Hs. unfold MaxPooling2D.output_shape.
  rewrite Hin. cbn [getattr unpack3 rbind]. unfold truediv.
  rewrite Hs. reflexivity.
Qed.

(** C2 as stated fails for large dimensions.  With height [2^53 + 3], pool
    (2,2) and stride 2, the quotient [(2^53 + 1) / 2] is not an integer,
    but as a float it is rounded to [2^52]; the assertion passes and a
    shape is returned. *)
Lemma MaxPooling2D_output_shape_rounds :
  MaxPooling2D.input_shape (pool_2x2 [3; 2 ^ 53 + 3; 32]) =
    Some (Some [3; 2 ^ 53 + 3; 32]) /\
  MaxPooling2D.pool_shape (pool_2x2 [3; 2 ^ 53 + 3; 32]) = (2, 2) /\
  MaxPooling2D.stride (pool_2x2 [3; 2 ^ 53 + 3; 32]) = 2 /\
  ~ (2 | 2 ^ 53 + 3 - 2) /\
  MaxPooling2D.output_shape (pool_2x2 [3; 2 ^ 53 + 3; 32]) =
    Ok [3; 2 ^ 52 + 1; 16] /\
  MaxPooling2D.output_shape (pool_2x2 [3; 2 ^ 53 + 3; 32]) <>
    Raise AssertionError.
Proof.
  split; [reflexivity|]. split; [reflexivity|]. split; [reflexivity|].
  split; [|split].
  - intros [k Hk]. lia.
  - vm_compute. reflexivity.
  - vm_compute. discriminate.
Qed.

(** C2 (amended).  For a MaxPooling2D layer with input_shape = (channels,
    height, width), pool_shape = (ph, pw) and a stride s that is not zero,
    where height, width, ph, pw and s are below 2^48 in absolute value,
    output_shape() returns (channels, (height - ph)/s + 1,
    (width - pw)/s + 1) when s divides both height - ph and width - pw, and
    fails with an assertion error when it does not divide one of them;
    pool (2,2) with stride 2 maps (3,32,32) to (3,16,16) and rejects
    (3,33,33). *)
Theorem MaxPooling2D_output_shape_integral :
  (forall (self : MaxPooling2D.t) (channels height width ph pw : Z),
      MaxPooling2D.input_shape self = Some (Some [channels; height; width]) ->
      MaxPooling2D.pool_shape self = (ph, pw) ->
      MaxPooling2D.stride self <> 0 ->
      dim_small height -> dim_small width ->
      dim_small ph -> dim_small pw -> dim_small (MaxPooling2D.stride self) ->
      let s := MaxPooling2D.stride self in
      (((s | height - ph) /\ (s | width - pw)) ->
       MaxPooling2D.output_shape self =
         Ok [channels; (height - ph) / s + 1; (width - pw) / s + 1]) /\
      (~ ((s | height - ph) /\ (s | width - pw)) ->
       MaxPooling2D.output_shape self = Raise AssertionError)) /\
  MaxPooling2D.output_shape (pool_2x2 [3; 32; 32]) = Ok [3; 16; 16] /\
  MaxPooling2D.output_shape (pool_2x2 [3; 33; 33]) = Raise AssertionError.
Proof.
  split; [|split; vm_compute; reflexivity].
  intros self channels height width ph pw Hin Hp Hs Hdh Hdw Hdph Hdpw Hds s.
  rewrite (MaxPooling2D_output_shape_cases self channels height width ph pw
             Hin Hp Hs Hdh Hdw Hdph Hdpw Hds).
  fold s. split.
  - intros [Hh Hw].
    rewrite !quot_shift_exact by assumption.
    apply rem_shift_divide in Hh, Hw; try assumption.
    rewrite Hh, Hw. reflexivity.
  - intros Hn.
    destruct (Z.eqb_spec (Z.rem (height - ph + s) s) 0) as [Eh|Eh];
      [|reflexivity].
    destruct (Z.eqb_spec (Z.rem (width - pw + s) s) 0) as [Ew|Ew];
      [|reflexivity].
    exfalso. apply Hn. split; apply rem_shift_divide; assumption.
Qed.

Lemma MaxPooling2D_output_shape_integral_witness :
  MaxPooling2D.output_shape (pool_2x2 [3; 32; 32]) = Ok [3; 16; 16] /\
  MaxPooling2D.output_shape (pool_2x2 [3; 33; 33]) = Raise AssertionError.
Proof.
  split.
  - apply (proj1 (proj1 MaxPooling2D_output_shape_integral
                    (pool_2x2 [3; 32; 32]) 3 32 32 2 2
                    eq_refl eq_refl ltac:(discriminate)
                    eq_refl eq_refl eq_refl eq_refl eq_refl)).
    split; exists 15; reflexivity.
  - apply (proj2 (proj1 MaxPooling2D_output_shape_integral
                    (pool_2x2 [3; 33; 33]) 3 33 33 2 2
                    eq_refl eq_refl ltac:(discriminate)
                    eq_refl eq_refl eq_refl eq_refl eq_refl)).
    intros [[k Hk] _]. cbn in Hk. lia.
Defined.

(** ** Dense: initialize, parameters, output_shape *)

Lemma Dense_initialize_run (self : Dense.t) (o : Optimizer) (d : Z)
  (rest : list Z) :
  Dense.input_shape self = Some (d :: rest) ->
  Dense.initialize o self =
    match inv_sqrt d with
    | Raise e => (Raise e, Dense.set_optimizer o self)
    | Ok _ =>
        match np_new [d; Dense.n_units self] with
        | Raise e => (Raise e, Dense.set_optimizer o self)
        | Ok W =>
            match np_new [1; Dense.n_units self] with
            | Raise e =>
                (Raise e, Dense.set_np_W W (Dense.set_optimizer o self))
            | Ok w0 =>
                (Ok tt,
                 Dense.set_np_w0 w0
                   (Dense.set_np_W W (Dense.set_optimizer o self)))
            end
        end
    end.
Proof.
  intros Hin.
  unfold Dense.initialize, bind, modify, get, lift_result.
  cbn [Dense.set_optimizer Dense.input_shape Dense.n_units].
  rewrite Hin. cbn [index0].
  destruct (inv_sqrt d); [|reflexivity].
  destruct (np_new [d; Dense.n_units self]); [|reflexivity].
  cbn [Dense.set_np_W Dense.n_units].
  destruct (np_new [1; Dense.n_units self]); reflexivity.
Qed.

(** Once the weight array has been created, the bias array is smaller and
    is created as well. *)
Lemma np_new_row (d n : Z) (W : ndarray) :
  0 < d -> np_new [d; n] = Ok W ->
  np_new [1; n] = Ok {| shape := [1; n] |} /\
  0 <= n /\ 0 <= d * n < 2 ^ 60 /\ n < 2 ^ 60.
Proof.
  intros Hd HW.
  destruct (np_new_count _ _ HW) as [_ Hc].
  destruct (np_new_ok _ _ HW) as (_ & Hpos & Hsz).
  assert (Hn : 0 <= n).
  { apply Forall_inv_tail in Hpos. apply Forall_inv in Hpos. exact Hpos. }
  cbn [fold_right] in Hc. rewrite Z.mul_1_r in Hc.
  assert (Hn60 : n < 2 ^ 60) by nia.
  split; [|lia].
  apply np_new_accepts.
  - repeat constructor; lia.
  - cbn [filter fold_right Z.eqb negb].
    destruct (Z.eqb_spec n 0); cbn [negb fold_right]; lia.
Qed.

Lemma Dense_initialize_post (self self' : Dense.t) (o : Optimizer) (d : Z)
  (rest : list Z) :
  Dense.input_shape self = Some (d :: rest) ->
  Dense.initialize o self = (Ok tt, self') ->
  let n := Dense.n_units self in
  Dense.np_W self' = Some {| shape := [d; n] |} /\
  Dense.np_w0 self' = Some {| shape := [1; n] |} /\
  Dense.output_shape self' = Ok [n] /\
  Dense.parameters self' = Ok (d * n + n).
Proof.
  intros Hin Hrun n.
  rewrite (Dense_initialize_run self o d rest Hin) in Hrun. fold n in Hrun.
  destruct (inv_sqrt d) as [[]|] eqn:Hsq; [|discriminate].
  apply inv_sqrt_ok in Hsq.
  destruct (np_new [d; n]) as [W|] eqn:HW; [|discriminate].
  destruct (np_new_row d n W Hsq HW) as (Hw0 & Hn & Hdn & Hn60).
  rewrite Hw0 in Hrun. destruct (np_new_ok _ _ HW) as (-> & _).
  injection Hrun as <-.
  split; [reflexivity|]. split; [reflexivity|]. split; [reflexivity|].
  unfold Dense.parameters.
  cbn [Dense.np_W Dense.np_w0 Dense.set_np_W Dense.set_np_w0
       getattr rbind shape].
  rewrite !np_prod_exact by (cbn [fold_right]; unfold int64; lia).
  cbn [fold_right]. unfold np_int_add.
  rewrite wrap64_small by (unfold int64; lia).
  f_equal. lia.
Qed.

Lemma Dense_initialize_small (self : Dense.t) (o : Optimizer) (d : Z)
  (rest : list Z) :
  Dense.input_shape self = Some (d :: rest) ->
  0 < d <= 1024 -> 0 <= Dense.n_units self <= 1024 ->
  exists self' : Dense.t, Dense.initialize o self = (Ok tt, self').
Proof.
  intros Hin Hd Hn.
  rewrite (Dense_initialize_run self o d rest Hin).
  rewrite inv_sqrt_small by lia.
  destruct (Z.ltb_spec d 0); [lia|].
  destruct (Z.eqb_spec d 0); [lia|].
  rewrite !np_new_small
    by (cbn [List.length]; try lia; repeat constructor; lia).
  eexists. reflexivity.
Qed.

(** C3.  For a Dense layer with a non-empty input_shape, once initialize
    has returned the weight shadow has shape (input_shape[0], n_units), the
    bias shadow has shape (1, n_units), output_shape() is (n_units,) and
    parameters() is input_shape[0]*n_units + n_units; and initialize does
    return when input_shape[0] is between 1 and 1024 and n_units between 0
    and 1024. *)
Theorem Dense_initialize_shapes
  (self : Dense.t) (o : Optimizer) (d : Z) (rest : list Z) :
  Dense.input_shape self = Some (d :: rest) ->
  let n := Dense.n_units self in
  (forall self' : Dense.t,
      Dense.initialize o self = (Ok tt, self') ->
      Dense.np_W self' = Some {| shape := [d; n] |} /\
      Dense.np_w0 self' = Some {| shape := [1; n] |} /\
      Dense.output_shape self' = Ok [n] /\
      Dense.parameters self' = Ok (d * n + n)) /\
  (0 < d <= 1024 -> 0 <= n <= 1024 ->
   exists self' : Dense.t, Dense.initialize o self = (Ok tt, self')).
Proof.
  intros Hin n. split.
  - intros self' Hrun.
    exact (Dense_initialize_post self self' o d rest Hin Hrun).
  - exact (Dense_initialize_small self o d rest Hin).
Qed.

Lemma Dense_initialize_shapes_witness :
  exists self' : Dense.t,
    Dense.initialize sgd dense_5_10 = (Ok tt, self') /\
    Dense.np_W self' = Some {| shape := [5; 10] |} /\
    Dense.np_w0 self' = Some {| shape := [1; 10] |} /\
    Dense.output_shape self' = Ok [10] /\
    Dense.parameters self' = Ok 60.
Proof.
  destruct (Dense_initialize_shapes dense_5_10 sgd 5 [] eq_refl)
    as [Hpost Hruns].
  destruct (Hruns ltac:(lia) ltac:(cbn; lia)) as [self' Hrun].
  exists self'. split; [exact Hrun|].
  exact (Hpost self' Hrun).
Defined.

(** ** BatchNormalization.initialize *)

Lemma BatchNormalization_initialize_run
  (self : BatchNormalization.t) (o : Optimizer) (c : Z) (rest : list Z) :
  BatchNormalization.input_shape self = Some (Some (c :: rest)) ->
  let dims := match rest with [] => [1; c] | _ :: _ => [1; c; 1; 1] end in
  BatchNormalization.initialize o self =
    match np_new dims with
    | Ok _ =>
        (Ok tt,
         BatchNormalization.set_np_beta {| shape := dims |}
           (BatchNormalization.set_np_gamma {| shape := dims |}
              (BatchNormalization.set_optimizer o self)))
    | Raise e => (Raise e, BatchNormalization.set_optimizer o self)
    end.
Proof.
  intros Hin dims.
  unfold BatchNormalization.initialize, bind, modify, get, lift_result, ret.
  cbn [BatchNormalization.set_optimizer BatchNormalization.input_shape].
  rewrite Hin. cbn [getattr py_len].
  destruct rest as [|c' rest].
  - cbn [List.length Z.of_nat Pos.of_succ_nat Z.eqb Pos.eqb index0].
    subst dims. cbn beta iota.
    destruct (np_new [1; c]) as [a|] eqn:Ha; [|reflexivity].
    destruct (np_new_ok _ _ Ha) as (-> & _). reflexivity.
  - replace (Z.of_nat (List.length (c :: c' :: rest)) =? 1) with false.
    + cbn [index0]. subst dims. cbn beta iota.
      destruct (np_new [1; c; 1; 1]) as [a|] eqn:Ha; [|reflexivity].
      destruct (np_new_ok _ _ Ha) as (-> & _). reflexivity.
    + symmetry. apply Z.eqb_neq. cbn [List.length]. lia.
Qed.

(** C4.  Once BatchNormalization.initialize has returned, input_shape is a
    non-empty tuple and, with C = input_shape[0], the gamma and beta shadows
    have shape (1, C) when len(input_shape) == 1 and (1, C, 1, 1)
    otherwise; and initialize does return for every non-empty input_shape
    whose first entry is between 0 and 1024. *)
Theorem BatchNormalization_initialize_shapes :
  (forall (self self' : BatchNormalization.t) (o : Optimizer),
      BatchNormalization.initialize o self = (Ok tt, self') ->
      exists (C : Z) (rest : list Z),
        BatchNormalization.input_shape self = Some (Some (C :: rest)) /\
        (List.length (C :: rest) = 1%nat ->
         BatchNormalization.np_gamma self' = Some {| shape := [1; C] |} /\
         BatchNormalization.np_beta self' = Some {| shape := [1; C] |}) /\
        (List.length (C :: rest) <> 1%nat ->
         BatchNormalization.np_gamma self' =
           Some {| shape := [1; C; 1; 1] |} /\
         BatchNormalization.np_beta self' =
           Some {| shape := [1; C; 1; 1] |})) /\
  (forall (self : BatchNormalization.t) (o : Optimizer) (C : Z)
          (rest : list Z),
      BatchNormalization.input_shape self = Some (Some (C :: rest)) ->
      0 <= C <= 1024 ->
      exists self' : BatchNormalization.t,
        BatchNormalization.initialize o self = (Ok tt, self')).
Proof.
  split.
  - intros self self' o Hrun.
    destruct (BatchNormalization.input_shape self) as [[[|C rest]|]|] eqn:Hin.
    + exfalso. revert Hrun.
      unfold BatchNormalization.initialize, bind, modify, get, lift_result.
      cbn [BatchNormalization.set_optimizer BatchNormalization.input_shape].
      rewrite Hin. cbn. discriminate.
    + exists C, rest. split; [reflexivity|].
      rewrite (BatchNormalization_initialize_run self o C rest Hin) in Hrun.
      destruct (np_new _); [|discriminate].
      injection Hrun as <-.
      split; intros Hlen.
      * destruct rest; [|discriminate]. cbn. split; reflexivity.
      * destruct rest; [contradiction|]. cbn. split; reflexivity.
    + exfalso. revert Hrun.
      unfold BatchNormalization.initialize, bind, modify, get, lift_result.
      cbn [BatchNormalization.set_optimizer BatchNormalization.input_shape].
      rewrite Hin. cbn. discriminate.
    + exfalso. revert Hrun.
      unfold BatchNormalization.initialize, bind, modify, get, lift_result.
      cbn [BatchNormalization.set_optimizer BatchNormalization.input_shape].
      rewrite Hin. cbn. discriminate.
  - intros self o C rest Hin HC.
    rewrite (BatchNormalization_initialize_run self o C rest Hin).
    rewrite np_new_small.
    + eexists. reflexivity.
    + destruct rest; cbn [List.length]; lia.
    + destruct rest; repeat constructor; lia.
Qed.

Lemma BatchNormalization_initialize_shapes_witness :
  (exists self' : BatchNormalization.t,
      BatchNormalization.initialize sgd (bn_wired [64]) = (Ok tt, self') /\
      BatchNormalization.np_gamma self' = Some {| shape := [1; 64] |} /\
      BatchNormalization.np_beta self' = Some {| shape := [1; 64] |}) /\
  (exists self' : BatchNormalization.t,
      BatchNormalization.initialize sgd (bn_wired [16; 8; 8]) = (Ok tt, self') /\
      BatchNormalization.np_gamma self' = Some {| shape := [1; 16; 1; 1] |} /\
      BatchNormalization.np_beta self' = Some {| shape := [1; 16; 1; 1] |}).
Proof.
  split.
  - destruct (proj2 BatchNormalization_initialize_shapes
                (bn_wired [64]) sgd 64 [] eq_refl ltac:(lia)) as [self' Hrun].
    exists self'. split; [exact Hrun|].
    destruct (proj1 BatchNormalization_initialize_shapes _ _ _ Hrun)
      as (C & rest & Hin & H1 & _).
    injection Hin as <- <-. exact (H1 eq_refl).
  - destruct (proj2 BatchNormalization_initialize_shapes
                (bn_wired [16; 8; 8]) sgd 16 [8; 8] eq_refl ltac:(lia))
      as [self' Hrun].
    exists self'. split; [exact Hrun|].
    destruct (proj1 BatchNormalization_initialize_shapes _ _ _ Hrun)
      as (C & rest & Hin & _ & H4).
    injection Hin as <- <-. apply H4. discriminate.
Defined.

(** ** Flatten.output_shape *)

(** C5 as stated fails where the product leaves the int64 range: [np.prod]
    multiplies in 64 bits, and for (2^32, 2^32) the product [2^64] wraps
    around to [0]. *)
Lemma Flatten_output_shape_wraps :
  Flatten.input_shape flatten_2p32 = Some [2 ^ 32; 2 ^ 32] /\
  Flatten.output_shape flatten_2p32 = Ok [0] /\
  Flatten.output_shape flatten_2p32 <>
    Ok [fold_right Z.mul 1 [2 ^ 32; 2 ^ 32]].
Proof.
  split; [reflexivity|]. split.
  - vm_compute. reflexivity.
  - vm_compute. discriminate.
Qed.

(** C5 (amended).  For a Flatten layer with a non-empty input_shape whose
    entries are 64-bit integers, output_shape() is the one-element tuple
    holding the product of the entries of input_shape reduced to a signed
    64-bit integer; it is the product itself whenever that lies in the
    int64 range; (3,4,4) yields (48,). *)
Theorem Flatten_output_shape_product :
  (forall (self : Flatten.t) (dims : list Z),
      Flatten.input_shape self = Some dims ->
      dims <> [] ->
      Forall int64 dims ->
      Flatten.output_shape self = Ok [wrap64 (fold_right Z.mul 1 dims)] /\
      (int64 (fold_right Z.mul 1 dims) ->
       Flatten.output_shape self = Ok [fold_right Z.mul 1 dims])) /\
  Flatten.output_shape flatten_3_4_4 = Ok [48].
Proof.
  split; [|vm_compute; reflexivity].
  intros self dims Hin _ _. unfold Flatten.output_shape.
  rewrite Hin, np_prod_wrap. split; [reflexivity|].
  intros Hp. rewrite wrap64_small by exact Hp. reflexivity.
Qed.

Lemma Flatten_output_shape_product_witness :
  Flatten.output_shape flatten_3_4_4 = Ok [48].
Proof.
  apply (proj2 (proj1 Flatten_output_shape_product flatten_3_4_4 [3; 4; 4]
                  eq_refl ltac:(discriminate)
                  ltac:(repeat constructor; unfold int64; lia))).
  unfold int64. cbn. lia.
Defined.

(** ** Dense._backward_pass *)

(** The node that a trainable Dense layer declares in its backward pass. *)
Lemma Dense_backward_pass_trainable (self : Dense.t) (o : Optimizer)
  (loss_grad : pyval) (input_layer : string) (g : graph) :
  Dense.trainable self = true ->
  Dense.optimizer self = Some o ->
  Dense._backward_pass loss_grad input_layer (self, g) =
    (Ok (Some (List.length (nodes g))),
     (Dense.set_backward_pass (Some (List.length (nodes g))) self,
      {| nodes :=
           nodes g ++
           [{| op_name := "backward_pass_dense"; op_input := loss_grad;
               op_kwargs :=
                 [("layer_input", Dense.layer_input self);
                  ("optimizer", PyDict (data_dict o));
                  ("data", py_of_handle (Dense.forward_pass self));
                  ("input_layer", PyStr input_layer)] |}];
         persisted := persisted g |})).
Proof.
  intros Ht Ho.
  unfold Dense._backward_pass, bind, self_, lift_result, R_declare,
    assign, ret, declare_node.
  cbn [fst snd]. rewrite Ht, Ho. reflexivity.
Qed.

Lemma Dense_backward_pass_frozen (self : Dense.t)
  (loss_grad : pyval) (input_layer : string) (g : graph) :
  Dense.trainable self = false ->
  Dense._backward_pass loss_grad input_layer (self, g) =
    (Ok (Dense.backward_pass self), (self, g)).
Proof.
  intros Ht.
  unfold Dense._backward_pass, bind, self_, ret.
  cbn [fst snd]. rewrite Ht. reflexivity.
Qed.

(** A trainable layer that was never initialized has no optimizer: the
    call raises before anything is declared. *)
Lemma Dense_backward_pass_no_optimizer (self : Dense.t)
  (loss_grad : pyval) (input_layer : string) (g : graph) :
  Dense.trainable self = true ->
  Dense.optimizer self = None ->
  Dense._backward_pass loss_grad input_layer (self, g) =
    (Raise AttributeError, (self, g)).
Proof.
  intros Ht Ho.
  unfold Dense._backward_pass, bind, self_, lift_result.
  cbn [fst snd]. rewrite Ht, Ho. reflexivity.
Qed.

Lemma app_singleton_neq {A : Type} (l : list A) (x : A) : l ++ [x] <> l.
Proof.
  intros H. apply (f_equal (@List.length A)) in H.
  rewrite length_app in H. cbn in H. lia.
Qed.

(** C6 as stated fails on a layer that was never initialized.  A Dense
    layer as its constructor leaves it has trainable True and no optimizer:
    the call raises AttributeError on [self.optimizer] and declares
    nothing. *)
Lemma Dense_backward_pass_uninitialized :
  Dense.trainable dense_5_10 = true /\
  Dense._backward_pass (PyNode 1%nat) "False" (dense_5_10, empty_graph) =
    (Raise AttributeError, (dense_5_10, empty_graph)) /\
  forall (r : result (noneable handle)) (self' : Dense.t) (g' : graph),
    Dense._backward_pass (PyNode 1%nat) "False" (dense_5_10, empty_graph) =
      (r, (self', g')) ->
    nodes g' = nodes empty_graph.
Proof.
  split; [reflexivity|]. split; [reflexivity|].
  intros r self' g' H. injection H as _ _ <-. reflexivity.
Qed.

(** C6 (amended).  For a Dense layer on which initialize has stored an
    optimizer, _backward_pass declares a backward node exactly when
    trainable is True: with trainable True it appends one
    backward_pass_dense node and stores its handle.  With trainable False
    the call returns the stored backward_pass and leaves the layer and the
    graph as they were, initialized or not.  A trainable layer without an
    optimizer raises AttributeError and leaves the layer and the graph as
    they were.  Whatever the outcome, the graph has grown exactly if
    trainable is True and the call returned. *)
Theorem Dense_backward_pass_iff_trainable
  (self : Dense.t) (loss_grad : pyval) (input_layer : string) (g : graph) :
  (Dense.trainable self = false ->
   Dense._backward_pass loss_grad input_layer (self, g) =
     (Ok (Dense.backward_pass self), (self, g))) /\
  (Dense.trainable self = true ->
   forall o : Optimizer,
     Dense.optimizer self = Some o ->
     exists d : op_decl,
       op_name d = "backward_pass_dense" /\
       Dense._backward_pass loss_grad input_layer (self, g) =
         (Ok (Some (List.length (nodes g))),
          (Dense.set_backward_pass (Some (List.length (nodes g))) self,
           {| nodes := nodes g ++ [d]; persisted := persisted g |}))) /\
  (Dense.trainable self = true ->
   Dense.optimizer self = None ->
   Dense._backward_pass loss_grad input_layer (self, g) =
     (Raise AttributeError, (self, g))) /\
  (forall (r : result (noneable handle)) (self' : Dense.t) (g' : graph),
      Dense._backward_pass loss_grad input_layer (self, g) =
        (r, (self', g')) ->
      (nodes g' <> nodes g <->
       Dense.trainable self = true /\ exists v, r = Ok v)).
Proof.
  split; [apply Dense_backward_pass_frozen|]. split; [|split].
  - intros Ht o Ho. eexists. split; [|apply Dense_backward_pass_trainable;
                                        eassumption].
    reflexivity.
  - apply Dense_backward_pass_no_optimizer.
  - intros r self' g' Hrun.
    destruct (Dense.trainable self) eqn:Ht.
    + destruct (Dense.optimizer self) as [o|] eqn:Ho.
      * rewrite (Dense_backward_pass_trainable self o) in Hrun by assumption.
        injection Hrun as <- <- <-. cbn [nodes]. split.
        -- intros _. split; [reflexivity|]. eexists. reflexivity.
        -- intros _. apply app_singleton_neq.
      * rewrite Dense_backward_pass_no_optimizer in Hrun by assumption.
        injection Hrun as <- <- <-. split.
        -- intros H. contradiction.
        -- intros [_ [h Hh]]. discriminate.
    + rewrite Dense_backward_pass_frozen in Hrun by assumption.
      injection Hrun as <- <- <-. split.
      * intros H. contradiction.
      * intros [H _]. discriminate.
Qed.

Lemma Dense_backward_pass_iff_trainable_witness :
  Dense._backward_pass (PyNode 1%nat) "False" (dense_wired false, graph_1) =
    (Ok None, (dense_wired false, graph_1)) /\
  exists d : op_decl,
    op_name d = "backward_pass_dense" /\
    Dense._backward_pass (PyNode 1%nat) "False" (dense_wired true, graph_1) =
      (Ok (Some 1%nat),
       (Dense.set_backward_pass (Some 1%nat) (dense_wired true),
        {| nodes := nodes graph_1 ++ [d]; persisted := [] |})).
Proof.
  split.
  - apply (proj1 (Dense_backward_pass_iff_trainable
                    (dense_wired false) (PyNode 1%nat) "False" graph_1)).
    reflexivity.
  - apply (proj1 (proj2 (Dense_backward_pass_iff_trainable
                           (dense_wired true) (PyNode 1%nat) "False" graph_1))
             eq_refl sgd eq_refl).
Defined.

(** ** BatchNormalization._backward_pass *)

Lemma BatchNormalization_backward_pass_trainable
  (self : BatchNormalization.t) (sh : noneable (list Z)) (o : Optimizer)
  (accum_grad : pyval) (input_layer : string) (g : graph) :
  BatchNormalization.trainable self = true ->
  BatchNormalization.input_shape self = Some sh ->
  BatchNormalization.optimizer self = Some o ->
  BatchNormalization._backward_pass accum_grad input_layer (self, g) =
    (Ok (Some (List.length (nodes g))),
     (BatchNormalization.set_backward_pass (Some (List.length (nodes g))) self,
      {| nodes :=
           nodes g ++
           [{| op_name := "backward_pass_batchnorm"; op_input := accum_grad;
               op_kwargs :=
                 [("input_shape", py_of_shape sh);
                  ("optimizer", PyDict (data_dict o));
                  ("trainable", PyStr "True");
                  ("data",
                   py_of_handle (BatchNormalization.forward_pass self));
                  ("input_layer", PyStr input_layer)] |}];
         persisted := persisted g |})).
Proof.
  intros Ht Hin Ho.
  unfold BatchNormalization._backward_pass, bind, self_, lift_result,
    R_declare, assign, ret, declare_node.
  cbn [fst snd]. rewrite Ht, Hin, Ho. reflexivity.
Qed.

Lemma BatchNormalization_backward_pass_frozen
  (self : BatchNormalization.t)
  (accum_grad : pyval) (input_layer : string) (g : graph) :
  BatchNormalization.trainable self = false ->
  BatchNormalization._backward_pass accum_grad input_layer (self, g) =
    (Raise
       match BatchNormalization.input_shape self,
             BatchNormalization.optimizer self with
       | Some _, Some _ => UnboundLocalError
       | _, _ => AttributeError
       end,
     (self, g)).
Proof.
  intros Ht.
  unfold BatchNormalization._backward_pass, bind, self_, lift_result, raise.
  cbn [fst snd]. rewrite Ht.
  destruct (BatchNormalization.input_shape self);
    destruct (BatchNormalization.optimizer self); reflexivity.
Qed.

(** C10 as stated fails on a layer that is not wired yet.  The keyword
    arguments are evaluated in order, and [self.input_shape] and
    [self.optimizer] come before the local [trainable]: a layer with
    trainable False and no input_shape raises AttributeError, not the
    unbound-local error. *)
Lemma BatchNormalization_backward_pass_unwired :
  BatchNormalization.trainable bn_frozen_unwired = false /\
  BatchNormalization._backward_pass (PyNode 1%nat) "False"
    (bn_frozen_unwired, empty_graph) =
    (Raise AttributeError, (bn_frozen_unwired, empty_graph)) /\
  BatchNormalization._backward_pass (PyNode 1%nat) "False"
    (bn_frozen_unwired, empty_graph) <>
    (Raise UnboundLocalError, (bn_frozen_unwired, empty_graph)).
Proof.
  assert (E : BatchNormalization._backward_pass (PyNode 1%nat) "False"
                (bn_frozen_unwired, empty_graph)
              = (Raise AttributeError, (bn_frozen_unwired, empty_graph)))
    by reflexivity.
  split; [reflexivity|]. split; [exact E|]. rewrite E. discriminate.
Qed.

(** C10 (amended).  A BatchNormalization layer whose trainable field is
    False cannot declare its backward node: the call raises, nothing is
    declared and the layer is unchanged.  For a layer that has been wired
    (input_shape set) and initialized (optimizer stored) the error is the
    unbound local [trainable]; for a layer whose input_shape or optimizer
    is missing it is AttributeError.  With trainable True, wired and
    initialized, the node is declared, carrying trainable="True"; and the
    graph grows only when trainable is True. *)
Theorem BatchNormalization_backward_pass_unbound_local
  (self : BatchNormalization.t) (accum_grad : pyval) (input_layer : string)
  (g : graph) :
  (BatchNormalization.trainable self = false ->
   (exists e : exn,
       BatchNormalization._backward_pass accum_grad input_layer (self, g) =
         (Raise e, (self, g))) /\
   forall (sh : noneable (list Z)) (o : Optimizer),
     BatchNormalization.input_shape self = Some sh ->
     BatchNormalization.optimizer self = Some o ->
     BatchNormalization._backward_pass accum_grad input_layer (self, g) =
       (Raise UnboundLocalError, (self, g))) /\
  (BatchNormalization.trainable self = false ->
   BatchNormalization.input_shape self = None \/
   BatchNormalization.optimizer self = None ->
   BatchNormalization._backward_pass accum_grad input_layer (self, g) =
     (Raise AttributeError, (self, g))) /\
  (BatchNormalization.trainable self = true ->
   forall (sh : noneable (list Z)) (o : Optimizer),
     BatchNormalization.input_shape self = Some sh ->
     BatchNormalization.optimizer self = Some o ->
     exists d : op_decl,
       op_name d = "backward_pass_batchnorm" /\
       kwarg "trainable" (op_kwargs d) = Some (PyStr "True") /\
       BatchNormalization._backward_pass accum_grad input_layer (self, g) =
         (Ok (Some (List.length (nodes g))),
          (BatchNormalization.set_backward_pass
             (Some (List.length (nodes g))) self,
           {| nodes := nodes g ++ [d]; persisted := persisted g |}))) /\
  (forall (r : result (noneable handle)) (self' : BatchNormalization.t)
          (g' : graph),
      BatchNormalization._backward_pass accum_grad input_layer (self, g) =
        (r, (self', g')) ->
      nodes g' <> nodes g ->
      BatchNormalization.trainable self = true).
Proof.
  split; [|split; [|split]].
  - intros Ht. split.
    + eexists. apply BatchNormalization_backward_pass_frozen. assumption.
    + intros sh o Hin Ho.
      rewrite BatchNormalization_backward_pass_frozen by assumption.
      rewrite Hin, Ho. reflexivity.
  - intros Ht Hmiss.
    rewrite BatchNormalization_backward_pass_frozen by assumption.
    destruct Hmiss as [-> | Ho]; [reflexivity|]. rewrite Ho.
    destruct (BatchNormalization.input_shape self); reflexivity.
  - intros Ht sh o Hin Ho. eexists. split; [|split].
    3: apply BatchNormalization_backward_pass_trainable; eassumption.
    all: reflexivity.
  - intros r self' g' Hrun Hgrow.
    destruct (BatchNormalization.trainable self) eqn:Ht; [reflexivity|].
    rewrite BatchNormalization_backward_pass_frozen in Hrun by assumption.
    injection Hrun as _ _ <-. contradiction.
Qed.

Lemma BatchNormalization_backward_pass_unbound_local_witness :
  BatchNormalization._backward_pass (PyNode 1%nat) "False"
    (bn_ready false, graph_1) =
    (Raise UnboundLocalError, (bn_ready false, graph_1)) /\
  exists d : op_decl,
    op_name d = "backward_pass_batchnorm" /\
    kwarg "trainable" (op_kwargs d) = Some (PyStr "True") /\
    BatchNormalization._backward_pass (PyNode 1%nat) "False"
      (bn_ready true, graph_1) =
      (Ok (Some 1%nat),
       (BatchNormalization.set_backward_pass (Some 1%nat) (bn_ready true),
        {| nodes := nodes graph_1 ++ [d]; persisted := [] |})).
Proof.
  split.
  - apply (proj2 (proj1 (BatchNormalization_backward_pass_unbound_local
                           (bn_ready false) (PyNode 1%nat) "False" graph_1)
                    eq_refl) (Some [64]) sgd eq_refl eq_refl).
  - apply (proj1 (proj2 (proj2 (BatchNormalization_backward_pass_unbound_local
                                  (bn_ready true) (PyNode 1%nat) "False"
                                  graph_1)))
             eq_refl (Some [64]) sgd eq_refl eq_refl).
Defined.

(** ** persist_weights *)

(** The three classes with weights request the two persists, on the cached
    forward node and then on the cached backward node. *)
Lemma persist_weights_with_weights (l : layer) (g : graph)
  (name : string) (f b : handle) :
  (exists d, l = LDense d /\ Dense.layer_name d = Some name /\
             Dense.forward_pass d = Some f /\
             Dense.backward_pass d = Some b) \/
  (exists n, l = LBatchNormalization n /\
             BatchNormalization.layer_name n = Some name /\
             BatchNormalization.forward_pass n = Some f /\
             BatchNormalization.backward_pass n = Some b) \/
  (exists c, l = LConv2D c /\ Conv2D.layer_name c = Some name /\
             Conv2D.forward_pass c = Some f /\
             Conv2D.backward_pass c = Some b) ->
  persist_weights l g =
    (Ok tt,
     (l, {| nodes := nodes g;
            persisted :=
              persisted g ++ [(f, (name ++ "_forward_pass")%string);
                              (b, (name ++ "_backward_pass")%string)] |})).
Proof.
  intros [(d & -> & Hn & Hf & Hb) | [(d & -> & Hn & Hf & Hb)
                                    | (d & -> & Hn & Hf & Hb)]];
    unfold persist_weights, run_on;
    [unfold Dense.persist_weights
    |unfold BatchNormalization.persist_weights
    |unfold Conv2D.persist_weights];
    unfold bind, self_, persist_op, format_name, persist_node;
    cbn [fst snd]; rewrite Hn, Hf, Hb;
    cbn [getattr rbind nodes persisted fst snd];
    rewrite <- app_assoc; reflexivity.
Qed.

(** Dropout, Activation and Flatten define the method as [pass]. *)
Lemma persist_weights_pass (l : layer) (g : graph) :
  (exists d, l = LDropout d) \/ (exists a, l = LActivation a) \/
  (exists f, l = LFlatten f) ->
  persist_weights l g = (Ok tt, (l, g)).
Proof.
  intros [[d ->] | [[a ->] | [f ->]]]; reflexivity.
Qed.

(** C7, at the layer where the code departs from it.  MaxPooling2D has no
    persist_weights of its own and [Layer] offers none: the call is not a
    no-op, it raises AttributeError. *)
Theorem MaxPooling2D_persist_weights_missing
  (m : MaxPooling2D.t) (g : graph) :
  persist_weights (LMaxPooling2D m) g =
    (Raise AttributeError, (LMaxPooling2D m, g)) /\
  persist_weights (LMaxPooling2D m) g <> (Ok tt, (LMaxPooling2D m, g)).
Proof.
  split; [reflexivity | discriminate].
Qed.

(** ** The flags of the forward declarations *)

(** C8 as stated fails on Dense: the node it declares carries neither a
    [training] nor a [trainable] keyword. *)
Lemma Dense_forward_pass_has_no_flags :
  exists d : op_decl,
    declares (_forward_pass (LDense dense_5_10) (PyNode 7%nat) "True" true
                empty_graph) empty_graph d /\
    op_kwargs d = [("n_units", PyInt 10); ("input_shape", PyInts [5]);
                   ("data", PyNone); ("input_layer", PyStr "True")] /\
    kwarg "training" (op_kwargs d) <> Some (PyStr "True") /\
    kwarg "trainable" (op_kwargs d) <> Some (PyStr "True").
Proof.
  eexists. split; [eexists; reflexivity|].
  split; [reflexivity|]. split; discriminate.
Qed.

(** C8 (amended).  BatchNormalization's forward declaration passes both
    flags as the strings "True" / "False"; Dropout's passes [training] so
    and has no [trainable] keyword; the forward declarations of Dense,
    Activation, Conv2D, Flatten and MaxPooling2D carry neither keyword.
    (BatchNormalization and MaxPooling2D read [input_shape], which model
    wiring has to have set.) *)
Theorem forward_pass_flags
  (l : layer) (X : pyval) (input_layer : string) (training : bool)
  (g : graph) :
  match l with
  | LBatchNormalization b =>
      BatchNormalization.input_shape b <> None ->
      exists d : op_decl,
        declares (_forward_pass l X input_layer training g) g d /\
        kwarg "training" (op_kwargs d) =
          Some (PyStr (flag_string training)) /\
        kwarg "trainable" (op_kwargs d) =
          Some (PyStr (flag_string (BatchNormalization.trainable b)))
  | LDropout _ =>
      exists d : op_decl,
        declares (_forward_pass l X input_layer training g) g d /\
        kwarg "training" (op_kwargs d) =
          Some (PyStr (flag_string training)) /\
        kwarg "trainable" (op_kwargs d) = None
  | LMaxPooling2D m =>
      MaxPooling2D.input_shape m <> None ->
      exists d : op_decl,
        declares (_forward_pass l X input_layer training g) g d /\
        kwarg "training" (op_kwargs d) = None /\
        kwarg "trainable" (op_kwargs d) = None
  | LDense _ | LActivation _ | LConv2D _ | LFlatten _ =>
      exists d : op_decl,
        declares (_forward_pass l X input_layer training g) g d /\
        kwarg "training" (op_kwargs d) = None /\
        kwarg "trainable" (op_kwargs d) = None
  end.
Proof.
  destruct l as [d|b|d|a|c|f|m].
  - eexists. split; [eexists; reflexivity|]. split; reflexivity.
  - intros Hin.
    destruct (BatchNormalization.input_shape b) as [sh|] eqn:E;
      [|contradiction].
    eexists. split.
    + unfold declares, _forward_pass, run_on,
        BatchNormalization._forward_pass, bind, self_, lift_result,
        R_declare, assign, ret, declare_node.
      cbn [fst snd]. rewrite E. cbn [getattr]. eexists. reflexivity.
    + cbn [op_kwargs]. destruct training, (BatchNormalization.trainable b);
        split; reflexivity.
  - eexists. split; [eexists; reflexivity|].
    destruct training; split; reflexivity.
  - eexists. split; [eexists; reflexivity|]. split; reflexivity.
  - eexists. split; [eexists; reflexivity|]. split; reflexivity.
  - eexists. split; [eexists; reflexivity|]. split; reflexivity.
  - intros Hin.
    destruct (MaxPooling2D.input_shape m) as [sh|] eqn:E; [|contradiction].
    eexists. split.
    + unfold declares, _forward_pass, run_on,
        MaxPooling2D._forward_pass, bind, self_, lift_result,
        R_declare, assign, ret, declare_node.
      cbn [fst snd]. rewrite E. cbn [getattr]. eexists. reflexivity.
    + split; reflexivity.
Qed.

Lemma forward_pass_flags_witness :
  exists d : op_decl,
    declares (_forward_pass (LBatchNormalization (bn_ready false))
                (PyNode 0%nat) "False" true graph_1) graph_1 d /\
    kwarg "training" (op_kwargs d) = Some (PyStr "True") /\
    kwarg "trainable" (op_kwargs d) = Some (PyStr "False").
Proof.
  apply (forward_pass_flags (LBatchNormalization (bn_ready false))
           (PyNode 0%nat) "False" true graph_1).
  discriminate.
Defined.

(** ** output_shape is a function of the configuration *)

Lemma output_shape_config (l : layer) :
  output_shape (config l) = output_shape l.
Proof.
  destruct l; reflexivity.
Qed.

(** C9.  output_shape() reads nothing but the configuration of its layer:
    two states of a layer with the same constructor arguments and the same
    input_shape give the same result, be it a shape or an exception, so
    repeated calls agree as long as the configuration is not mutated. *)
Theorem output_shape_idempotent (l l' : layer) :
  config l = config l' -> output_shape l = output_shape l'.
Proof.
  intros H. rewrite <- (output_shape_config l), <- (output_shape_config l').
  f_equal. exact H.
Qed.

(** Declaring the forward node of a layer, or persisting its weights,
    leaves the configuration as it was. *)
Lemma forward_pass_keeps_config (l l' : layer) (X : pyval)
  (input_layer : string) (training : bool) (g g' : graph)
  (r : result handle) :
  _forward_pass l X input_layer training g = (r, (l', g')) ->
  config l' = config l.
Proof.
  destruct l as [d|b|d|a|c|f|m]; cbn.
  - intros H. injection H as _ <- _. reflexivity.
  - unfold run_on, BatchNormalization._forward_pass, bind, self_,
      lift_result. cbn [fst snd].
    destruct (BatchNormalization.input_shape b) eqn:E; cbn;
      intros H; injection H as _ <- _; cbn; rewrite ?E; reflexivity.
  - intros H. injection H as _ <- _. reflexivity.
  - intros H. injection H as _ <- _. reflexivity.
  - intros H. injection H as _ <- _. reflexivity.
  - intros H. injection H as _ <- _. reflexivity.
  - unfold run_on, MaxPooling2D._forward_pass, bind, self_,
      lift_result. cbn [fst snd].
    destruct (MaxPooling2D.input_shape m) eqn:E; cbn;
      intros H; injection H as _ <- _; cbn; rewrite ?E; reflexivity.
Qed.

Lemma output_shape_idempotent_witness :
  output_shape (LConv2D conv_same) = output_shape (LConv2D conv_declared) /\
  output_shape (LConv2D conv_declared) = Ok (Some [16; 32; 32]).
Proof.
  split.
  - apply (output_shape_idempotent (LConv2D conv_same)
             (LConv2D conv_declared)).
    reflexivity.
  - vm_compute. reflexivity.
Defined.

(** * Further properties of the layers *)

(** ** Running the methods *)

Ltac unfold_methods :=
  unfold _forward_pass, _backward_pass, persist_weights, run_on,
    returning_handle,
    Dense._forward_pass, Dense._backward_pass, Dense.persist_weights,
    BatchNormalization._forward_pass, BatchNormalization._backward_pass,
    BatchNormalization.persist_weights,
    Dropout._forward_pass, Dropout._backward_pass, Dropout.persist_weights,
    Activation._forward_pass, Activation._backward_pass,
    Activation.persist_weights,
    Conv2D._forward_pass, Conv2D._backward_pass, Conv2D.persist_weights,
    Flatten._forward_pass, Flatten._backward_pass, Flatten.persist_weights,
    MaxPooling2D._forward_pass, MaxPooling2D._backward_pass,
    bind, self_, lift_result, R_declare, assign, ret, raise, persist_op,
    format_name, declare_node, persist_node in *;
  cbn [fst snd] in *.

(** Case analysis on the attributes and flags that a run inspects. *)
Ltac split_run :=
  repeat match goal with
    | H : context [getattr ?x] |- _ =>
        let E := fresh "E" in destruct x eqn:E; cbn [getattr rbind] in H
    | H : context [match ?x with Some _ => _ | None => _ end] |- _ =>
        let E := fresh "E" in destruct x eqn:E
    | H : context [if ?b then _ else _] |- _ =>
        let E := fresh "E" in destruct b eqn:E
    end.

Ltac finish_run H :=
  cbn [fst snd] in H; injection H; intros; subst; clear H.

Lemma prefix_refl {A : Type} (l : list A) : prefix l l.
Proof. exists []. symmetry. apply app_nil_r. Qed.

Lemma prefix_app {A : Type} (l rest : list A) : prefix l (l ++ rest).
Proof. exists rest. reflexivity. Qed.

(** ** A forward declaration adds exactly one node *)

(** X1.  A forward pass either raises and leaves the layer and the graph as
    they were, or appends one node fed by [X], returns its index and
    caches it; it never issues a persist request and never touches the
    cached backward handle. *)
Theorem forward_pass_appends_one_node
  (l l' : layer) (X : pyval) (input_layer : string) (training : bool)
  (g g' : graph) (r : result handle) :
  _forward_pass l X input_layer training g = (r, (l', g')) ->
  persisted g' = persisted g /\
  backward_pass l' = backward_pass l /\
  ((exists e : exn, r = Raise e /\ l' = l /\ g' = g) \/
   (exists d : op_decl,
       r = Ok (List.length (nodes g)) /\
       nodes g' = nodes g ++ [d] /\
       op_input d = X /\
       kwarg "input_layer" (op_kwargs d) = Some (PyStr input_layer) /\
       forward_pass l' = Some (List.length (nodes g)))).
Proof.
  intros H. destruct l; unfold_methods; split_run; finish_run H;
    cbn; (split; [reflexivity|]); (split; [reflexivity|]);
    first [ left; eexists; repeat split; reflexivity
          | right; eexists; repeat split; reflexivity ].
Qed.

(** ** A backward declaration adds at most one node *)

(** X2.  A backward pass raises and leaves everything as it was, or (a
    Dense layer that is not trainable) returns the cached backward handle
    and changes nothing, or appends one node fed by the gradient and caches
    its index; it never issues a persist request and never touches the
    cached forward handle. *)
Theorem backward_pass_appends_at_most_one_node
  (l l' : layer) (grad : pyval) (input_layer : string)
  (g g' : graph) (r : result (noneable handle)) :
  _backward_pass l grad input_layer g = (r, (l', g')) ->
  persisted g' = persisted g /\
  forward_pass l' = forward_pass l /\
  ((exists e : exn, r = Raise e /\ l' = l /\ g' = g) \/
   (r = Ok (backward_pass l) /\ l' = l /\ g' = g /\
    exists d : Dense.t, l = LDense d /\ Dense.trainable d = false) \/
   (exists d : op_decl,
       r = Ok (Some (List.length (nodes g))) /\
       nodes g' = nodes g ++ [d] /\
       op_input d = grad /\
       kwarg "input_layer" (op_kwargs d) = Some (PyStr input_layer) /\
       backward_pass l' = Some (List.length (nodes g)))).
Proof.
  intros H. destruct l; unfold_methods; split_run; finish_run H;
    cbn; (split; [reflexivity|]); (split; [reflexivity|]);
    first [ left; eexists; repeat split; reflexivity
          | right; left; repeat split; eexists; split; [reflexivity|assumption]
          | right; right; eexists; repeat split; reflexivity ].
Qed.

(** ** persist_weights changes nothing but the persist requests *)

(** X3.  Whatever its outcome, persist_weights leaves the layer and the
    nodes of the graph as they were and only appends persist requests, at
    most two, each on a handle that the layer caches; when it returns, it
    has appended none or both. *)
Theorem persist_weights_frame
  (l l' : layer) (g g' : graph) (r : result unit) :
  persist_weights l g = (r, (l', g')) ->
  l' = l /\ nodes g' = nodes g /\
  exists added : list (handle * string),
    persisted g' = persisted g ++ added /\
    (List.length added <= 2)%nat /\
    (forall e, In e added ->
       Some (fst e) = forward_pass l \/ Some (fst e) = backward_pass l) /\
    (r = Ok tt -> added = [] \/ List.length added = 2%nat).
Proof.
  intros H. destruct l; unfold_methods; split_run; finish_run H;
    cbn [forward_pass backward_pass nodes persisted];
    (split; [reflexivity|]); (split; [reflexivity|]).
  all: try (exists []; rewrite app_nil_r; cbn;
            repeat split; try lia; try tauto; discriminate).
  all: try (eexists [_]; cbn; repeat split; try lia; try discriminate;
            intros e [<-|[]]; cbn; rewrite ?E, ?E0, ?E1; tauto).
  all: try (eexists [_; _]; rewrite <- app_assoc; cbn;
            repeat split; try lia; try tauto;
            intros e [<-|[<-|[]]]; cbn; rewrite ?E, ?E0, ?E1, ?E2; tauto).
Qed.

(** ** Cached handles and persist requests always designate nodes *)

Lemma Forall_handle_grow (ps : list (handle * string)) (n : nat) :
  Forall (fun e => (fst e < n)%nat) ps ->
  Forall (fun e => (fst e < n + 1)%nat) ps.
Proof.
  apply Forall_impl. intros e He. lia.
Qed.

Ltac solve_valid :=
  unfold handles_valid, handle_in in *;
  cbn [forward_pass backward_pass nodes persisted
       Dense.forward_pass Dense.backward_pass Dense.set_forward_pass
       Dense.set_backward_pass Dense.set_layer_input
       BatchNormalization.forward_pass BatchNormalization.backward_pass
       BatchNormalization.set_forward_pass
       BatchNormalization.set_backward_pass
       Dropout.forward_pass Dropout.backward_pass Dropout.set_forward_pass
       Dropout.set_backward_pass
       Activation.forward_pass Activation.backward_pass
       Activation.set_forward_pass Activation.set_backward_pass
       Activation.set_layer_input
       Conv2D.forward_pass Conv2D.backward_pass Conv2D.set_forward_pass
       Conv2D.set_backward_pass Conv2D.set_layer_input
       Flatten.forward_pass Flatten.backward_pass Flatten.set_forward_pass
       Flatten.set_backward_pass Flatten.set_prev_input
       MaxPooling2D.forward_pass MaxPooling2D.backward_pass
       MaxPooling2D.set_forward_pass MaxPooling2D.set_backward_pass] in *;
  rewrite ?length_app; cbn [List.length];
  repeat match goal with
    | H : _ /\ _ |- _ => destruct H
    | H : ?x = Some _, H' : context [match ?x with _ => _ end] |- _ =>
        rewrite H in H'
    | |- _ /\ _ => split
    | |- match ?x with Some _ => _ | None => _ end =>
        let E := fresh "E" in destruct x eqn:E
    | |- Forall _ (_ ++ _) => apply Forall_app
    | |- Forall _ (_ :: _) => constructor
    | |- Forall _ [] => constructor
    | |- Forall _ _ => first [assumption | apply Forall_handle_grow; assumption]
    end;
  cbn [fst] in *;
  repeat match goal with
    | H : Some _ = Some _ |- _ => injection H as H; subst
    end;
  try lia; try exact I.

(** X4.  If the handles that a layer caches and the persist requests of
    the graph all designate nodes of the graph, they still do after a
    forward pass, a backward pass or persist_weights, whatever the outcome
    of the call. *)
Theorem handles_stay_valid (l : layer) (g : graph) :
  handles_valid l g ->
  (forall X input_layer training r l' g',
      _forward_pass l X input_layer training g = (r, (l', g')) ->
      handles_valid l' g') /\
  (forall grad input_layer r l' g',
      _backward_pass l grad input_layer g = (r, (l', g')) ->
      handles_valid l' g') /\
  (forall r l' g',
      persist_weights l g = (r, (l', g')) ->
      handles_valid l' g').
Proof.
  intros Hv. split; [|split].
  - intros X input_layer training r l' g' H.
    destruct l; unfold_methods; split_run; finish_run H; solve_valid.
  - intros grad input_layer r l' g' H.
    destruct l; unfold_methods; split_run; finish_run H; solve_valid.
  - intros r l' g' H.
    destruct l; unfold_methods; split_run; finish_run H; solve_valid.
Qed.

(** ** How the forward and the backward declarations refer to each other *)

(** X5.  The node that a backward pass declares after a forward pass of
    the same layer refers to that forward pass: Dense and Conv2D pass the
    forward node as [data] and the forward input as [layer_input];
    BatchNormalization, Dropout and MaxPooling2D pass the forward node as
    [data]; Activation passes the forward input as [layer_input] and
    Flatten as [prev_input]. *)
Theorem backward_pass_refers_to_forward
  (l l1 l2 : layer) (X grad : pyval) (il il' : string) (training : bool)
  (g g1 g2 : graph) (h : handle) (r : result (noneable handle)) :
  _forward_pass l X il training g = (Ok h, (l1, g1)) ->
  _backward_pass l1 grad il' g1 = (r, (l2, g2)) ->
  nodes g2 <> nodes g1 ->
  exists d : op_decl,
    nodes g2 = nodes g1 ++ [d] /\
    match l with
    | LDense _ | LConv2D _ =>
        kwarg "data" (op_kwargs d) = Some (PyNode h) /\
        kwarg "layer_input" (op_kwargs d) = Some X
    | LBatchNormalization _ | LDropout _ | LMaxPooling2D _ =>
        kwarg "data" (op_kwargs d) = Some (PyNode h)
    | LActivation _ => kwarg "layer_input" (op_kwargs d) = Some X
    | LFlatten _ => kwarg "prev_input" (op_kwargs d) = Some X
    end.
Proof.
  intros Hf Hb Hgrow.
  destruct l; unfold_methods; split_run; finish_run Hf;
    unfold_methods; cbn in Hb; split_run; finish_run Hb;
    try (exfalso; apply Hgrow; reflexivity);
    try discriminate;
    eexists; (split; [reflexivity|]); cbn; repeat split; reflexivity.
Qed.

(** X6.  A forward pass of Dense, BatchNormalization or Conv2D that
    follows a backward pass of the same layer passes the node of that
    backward pass as [data]; before any backward pass it passes [None]. *)
Theorem forward_pass_follows_backward
  (l l' : layer) (X : pyval) (il : string) (training : bool)
  (g g' : graph) (h : handle) :
  (exists d, l = LDense d) \/ (exists b, l = LBatchNormalization b) \/
  (exists c, l = LConv2D c) ->
  _forward_pass l X il training g = (Ok h, (l', g')) ->
  exists d : op_decl,
    nodes g' = nodes g ++ [d] /\
    kwarg "data" (op_kwargs d) = Some (py_of_handle (backward_pass l)) /\
    forall (l0 : layer) (g0 : graph) (grad : pyval) (il0 : string)
           (hb : handle),
      _backward_pass l0 grad il0 g0 = (Ok (Some hb), (l, g)) ->
      kwarg "data" (op_kwargs d) = Some (PyNode hb).
Proof.
  intros Hl Hf.
  destruct Hl as [[d ->] | [[b ->] | [c ->]]];
    unfold_methods; split_run; finish_run Hf; try discriminate;
    eexists; (split; [reflexivity|]); (split; [reflexivity|]);
    intros l0 g0 grad il0 hb Hb;
    destruct l0; unfold_methods; split_run; finish_run Hb;
    try discriminate; cbn;
    repeat match goal with
      | H : LDense _ = LDense _ |- _ => injection H as H; subst
      | H : LBatchNormalization _ = LBatchNormalization _ |- _ =>
          injection H as H; subst
      | H : LConv2D _ = LConv2D _ |- _ => injection H as H; subst
      end;
    cbn; try reflexivity;
    match goal with
    | H : ?x = Some _ |- context [?x] => rewrite H; reflexivity
    end.
Qed.

(** ** A Dense layer that is not trainable cannot persist its weights *)

(** X7.  On a Dense layer that is not trainable and has no cached
    backward node, the sequence forward pass, backward pass,
    persist_weights ends in AttributeError: the backward pass declares
    nothing, so persist_weights finds [None] as backward node, after it has
    already requested the persist of the forward node. *)
Theorem Dense_frozen_cannot_persist
  (self : Dense.t) (X grad : pyval) (il il' : string) (training : bool)
  (g : graph) (name : string) :
  Dense.trainable self = false ->
  Dense.backward_pass self = None ->
  Dense.layer_name self = Some name ->
  exists d : op_decl,
    op_name d = "forward_pass_dense" /\
    (Dense._forward_pass X il training ;;;
     Dense._backward_pass grad il' ;;;
     Dense.persist_weights) (self, g) =
      (Raise AttributeError,
       (Dense.set_forward_pass (Some (List.length (nodes g)))
          (Dense.set_layer_input X self),
        {| nodes := nodes g ++ [d];
           persisted :=
             persisted g ++
             [(List.length (nodes g), (name ++ "_forward_pass")%string)] |})).
Proof.
  intros Ht Hb Hn. eexists. split.
  2: { unfold_methods. cbn. rewrite Ht. cbn. rewrite Hb, Hn. cbn.
       reflexivity. }
  reflexivity.
Qed.

Lemma Dense_frozen_cannot_persist_witness :
  exists (d : op_decl) (self' : Dense.t) (g' : graph),
    (Dense._forward_pass (PyNode 7%nat) "True" true ;;;
     Dense._backward_pass (PyNode 1%nat) "False" ;;;
     Dense.persist_weights)
      (Dense.set_forward_pass None (dense_wired false), empty_graph) =
      (Raise AttributeError, (self', g')) /\
    nodes g' = [d] /\
    persisted g' = [(0%nat, "dense_1_forward_pass")].
Proof.
  destruct (Dense_frozen_cannot_persist
              (Dense.set_forward_pass None (dense_wired false))
              (PyNode 7%nat) (PyNode 1%nat) "True" "False" true empty_graph
              "dense_1" eq_refl eq_refl eq_refl) as (d & _ & Hrun).
  exists d. do 2 eexists. split; [exact Hrun|]. split; reflexivity.
Defined.

(** ** The backward pass needs the forward pass *)

(** X8.  Activation, Flatten and Conv2D cache the forward input only in
    their forward pass: on a layer as constructed the backward pass raises
    AttributeError and declares nothing.  Once a forward pass has returned,
    the backward pass of a layer without weights (Dropout, Activation,
    Flatten, MaxPooling2D) always returns and declares its node. *)
Theorem backward_pass_needs_forward :
  (forall (l : layer) (grad : pyval) (il : string) (g : graph),
      (exists name, l = LActivation (Activation.__init__ name)) \/
      (exists s, l = LFlatten (Flatten.__init__ s)) \/
      (exists n f s p st, l = LConv2D (Conv2D.__init__ n f s p st)) ->
      _backward_pass l grad il g = (Raise AttributeError, (l, g))) /\
  (forall (l l1 : layer) (X grad : pyval) (il il' : string)
          (training : bool) (g g1 : graph) (h : handle),
      (exists d, l = LDropout d) \/ (exists a, l = LActivation a) \/
      (exists f, l = LFlatten f) \/ (exists m, l = LMaxPooling2D m) ->
      _forward_pass l X il training g = (Ok h, (l1, g1)) ->
      exists (d : op_decl) (l2 : layer),
        _backward_pass l1 grad il' g1 =
          (Ok (Some (List.length (nodes g1))),
           (l2, {| nodes := nodes g1 ++ [d];
                   persisted := persisted g1 |}))).
Proof.
  split.
  - intros l grad il g [[name ->] | [[s ->] | (n & f & s & p & st & ->)]];
      reflexivity.
  - intros l l1 X grad il il' training g g1 h Hl Hf.
    destruct Hl as [[d ->] | [[a ->] | [[f ->] | [m ->]]]];
      unfold_methods; split_run; finish_run Hf; try discriminate;
      cbn; rewrite ?E; cbn; do 2 eexists; reflexivity.
Qed.

Lemma backward_pass_needs_forward_witness :
  _backward_pass (LFlatten flatten_3_4_4) (PyNode 1%nat) "False" empty_graph =
    (Raise AttributeError, (LFlatten flatten_3_4_4, empty_graph)) /\
  exists (d : op_decl) (l2 : layer),
    _backward_pass
      (fst (snd (_forward_pass (LFlatten flatten_3_4_4) (PyNode 7%nat)
                   "True" true empty_graph)))
      (PyNode 1%nat) "False"
      (snd (snd (_forward_pass (LFlatten flatten_3_4_4) (PyNode 7%nat)
                   "True" true empty_graph))) =
      (Ok (Some 1%nat),
       (l2, {| nodes :=
                 nodes (snd (snd (_forward_pass (LFlatten flatten_3_4_4)
                                    (PyNode 7%nat) "True" true empty_graph)))
                 ++ [d];
               persisted := [] |})).
Proof.
  split.
  - apply (proj1 backward_pass_needs_forward).
    right. left. eexists. reflexivity.
  - exact (proj2 backward_pass_needs_forward (LFlatten flatten_3_4_4)
             (fst (snd (_forward_pass (LFlatten flatten_3_4_4) (PyNode 7%nat)
                          "True" true empty_graph)))
             (PyNode 7%nat) (PyNode 1%nat) "True" "False" true empty_graph
             (snd (snd (_forward_pass (LFlatten flatten_3_4_4) (PyNode 7%nat)
                          "True" true empty_graph)))
             0%nat
             (or_intror (or_intror (or_introl
                (ex_intro _ flatten_3_4_4 eq_refl))))
             eq_refl).
Defined.

(** ** Conv2D._backward_pass *)

(** X9.  Once a forward pass has cached the input and initialize the
    optimizer, Conv2D declares its backward node whether or not the layer
    is trainable, and passes the flag as the string "True" or "False";
    without the cached input or without the optimizer it raises
    AttributeError and declares nothing. *)
Theorem Conv2D_backward_pass_flag
  (self : Conv2D.t) (grad : pyval) (il : string) (g : graph) :
  (forall (X : pyval) (o : Optimizer),
      Conv2D.layer_input self = Some X ->
      Conv2D.optimizer self = Some o ->
      exists d : op_decl,
        op_name d = "backward_pass_conv2d" /\
        kwarg "trainable" (op_kwargs d) =
          Some (PyStr (flag_string (Conv2D.trainable self))) /\
        kwarg "layer_input" (op_kwargs d) = Some X /\
        Conv2D._backward_pass grad il (self, g) =
          (Ok (List.length (nodes g)),
           (Conv2D.set_backward_pass (Some (List.length (nodes g))) self,
            {| nodes := nodes g ++ [d]; persisted := persisted g |}))) /\
  (Conv2D.layer_input self = None \/ Conv2D.optimizer self = None ->
   Conv2D._backward_pass grad il (self, g) =
     (Raise AttributeError, (self, g))).
Proof.
  split.
  - intros X o HX Ho. eexists. split; [|split; [|split]].
    4: { unfold_methods. rewrite HX, Ho. cbn. reflexivity. }
    + reflexivity.
    + cbn. destruct (Conv2D.trainable self); reflexivity.
    + reflexivity.
  - intros H. unfold_methods.
    destruct (Conv2D.layer_input self), (Conv2D.optimizer self);
      destruct H; try discriminate; reflexivity.
Qed.

Lemma Conv2D_backward_pass_flag_witness :
  exists d : op_decl,
    kwarg "trainable" (op_kwargs d) = Some (PyStr "True") /\
    Conv2D._backward_pass (PyNode 1%nat) "False"
      (Conv2D.set_optimizer sgd
         (Conv2D.set_layer_input (PyNode 7%nat) conv_same), graph_1) =
      (Ok 1%nat,
       (Conv2D.set_backward_pass (Some 1%nat)
          (Conv2D.set_optimizer sgd
             (Conv2D.set_layer_input (PyNode 7%nat) conv_same)),
        {| nodes := nodes graph_1 ++ [d]; persisted := [] |})).
Proof.
  destruct (proj1 (Conv2D_backward_pass_flag
                     (Conv2D.set_optimizer sgd
                        (Conv2D.set_layer_input (PyNode 7%nat) conv_same))
                     (PyNode 1%nat) "False" graph_1)
              (PyNode 7%nat) sgd eq_refl eq_refl) as (d & _ & Ht & _ & Hrun).
  exists d. split; [exact Ht | exact Hrun].
Defined.

(** ** Conv2D: initialize and parameters *)

Lemma Conv2D_initialize_run (self : Conv2D.t) (o : Optimizer)
  (channels fh fw : Z) (rest : list Z) :
  Conv2D.input_shape self = Some (channels :: rest) ->
  Conv2D.filter_shape self = (fh, fw) ->
  Conv2D.initialize o self =
    match inv_sqrt (np_prod [fh; fw]) with
    | Raise e => (Raise e, Conv2D.set_optimizer o self)
    | Ok _ =>
        match np_new [Conv2D.n_filters self; channels; fh; fw] with
        | Raise e => (Raise e, Conv2D.set_optimizer o self)
        | Ok W =>
            match np_new [Conv2D.n_filters self; 1] with
            | Raise e =>
                (Raise e, Conv2D.set_np_W W (Conv2D.set_optimizer o self))
            | Ok w0 =>
                (Ok tt,
                 Conv2D.set_np_w0 w0
                   (Conv2D.set_np_W W (Conv2D.set_optimizer o self)))
            end
        end
    end.
Proof.
  intros Hin Hf.
  unfold Conv2D.initialize, bind, modify, get, lift_result.
  cbn [Conv2D.set_optimizer Conv2D.input_shape Conv2D.filter_shape
       Conv2D.n_filters].
  rewrite Hin, Hf. cbn [index0].
  destruct (inv_sqrt (np_prod [fh; fw])); [|reflexivity].
  destruct (np_new [Conv2D.n_filters self; channels; fh; fw]);
    [|reflexivity].
  cbn [Conv2D.set_np_W Conv2D.n_filters].
  destruct (np_new [Conv2D.n_filters self; 1]); reflexivity.
Qed.

(** X10.  When Conv2D.initialize returns, the weight shadow has shape
    (n_filters, channels, fh, fw), the bias shadow (n_filters, 1),
    parameters() is n_filters*channels*fh*fw + n_filters, and both filter
    dimensions are positive while n_filters and channels are not negative;
    conversely it returns when both filter dimensions are between 1 and 64
    and n_filters and channels between 0 and 64. *)
Theorem Conv2D_initialize_parameters
  (self : Conv2D.t) (o : Optimizer) (channels fh fw : Z) (rest : list Z) :
  Conv2D.input_shape self = Some (channels :: rest) ->
  Conv2D.filter_shape self = (fh, fw) ->
  let n := Conv2D.n_filters self in
  (forall self' : Conv2D.t,
      Conv2D.initialize o self = (Ok tt, self') ->
      Conv2D.np_W self' = Some {| shape := [n; channels; fh; fw] |} /\
      Conv2D.np_w0 self' = Some {| shape := [n; 1] |} /\
      Conv2D.parameters self' = Ok (n * channels * fh * fw + n) /\
      0 < fh /\ 0 < fw /\ 0 <= n /\ 0 <= channels) /\
  (0 < fh <= 64 -> 0 < fw <= 64 -> 0 <= n <= 64 -> 0 <= channels <= 64 ->
   exists self' : Conv2D.t, Conv2D.initialize o self = (Ok tt, self')).
Proof.
  intros Hin Hf n.
  rewrite (Conv2D_initialize_run self o channels fh fw rest Hin Hf). fold n.
  split.
  - intros self'.
    destruct (inv_sqrt (np_prod [fh; fw])) as [[]|] eqn:Hsq; [|discriminate].
    apply inv_sqrt_ok in Hsq. rewrite np_prod_wrap in Hsq.
    cbn [fold_right] in Hsq.
    destruct (np_new [n; channels; fh; fw]) as [W|] eqn:HW; [|discriminate].
    destruct (np_new [n; 1]) as [w0|] eqn:Hw0; [|discriminate].
    destruct (np_new_count _ _ HW) as [HcW HbW].
    destruct (np_new_count _ _ Hw0) as [Hcw0 Hbw0].
    destruct (np_new_ok _ _ HW) as (-> & HposW & _).
    destruct (np_new_ok _ _ Hw0) as (-> & _ & _).
    intros Hrun. injection Hrun as <-.
    assert (Hpos : 0 <= n /\ 0 <= channels /\ 0 <= fh /\ 0 <= fw).
    { inversion HposW as [|? ? H1 HposW1]; subst.
      inversion HposW1 as [|? ? H2 HposW2]; subst.
      inversion HposW2 as [|? ? H3 HposW3]; subst.
      inversion HposW3 as [|? ? H4 _]; subst. lia. }
    assert (Hfh : fh <> 0).
    { intros ->. rewrite Z.mul_0_l in Hsq. vm_compute in Hsq. discriminate. }
    assert (Hfw : fw <> 0).
    { intros ->. rewrite Z.mul_0_l, Z.mul_0_r in Hsq.
      vm_compute in Hsq. discriminate. }
    split; [reflexivity|]. split; [reflexivity|]. split; [|lia].
    unfold Conv2D.parameters.
    cbn [Conv2D.np_W Conv2D.np_w0 Conv2D.set_np_W Conv2D.set_np_w0
         getattr rbind shape].
    cbn [shape] in HcW, Hcw0. rewrite HcW, Hcw0.
    cbn [fold_right] in *. unfold np_int_add.
    rewrite wrap64_small by (unfold int64; lia).
    f_equal. lia.
  - intros Hfh Hfw Hn Hc.
    rewrite np_prod_exact by (cbn [fold_right]; unfold int64; nia).
    cbn [fold_right].
    rewrite inv_sqrt_small by nia.
    destruct (Z.ltb_spec (fh * (fw * 1)) 0); [nia|].
    destruct (Z.eqb_spec (fh * (fw * 1)) 0); [nia|].
    rewrite !np_new_small
      by (cbn [List.length]; try lia; repeat constructor; lia).
    eexists. reflexivity.
Qed.

Lemma Conv2D_initialize_parameters_witness :
  exists self' : Conv2D.t,
    Conv2D.initialize sgd conv_same = (Ok tt, self') /\
    Conv2D.np_W self' = Some {| shape := [16; 3; 3; 3] |} /\
    Conv2D.np_w0 self' = Some {| shape := [16; 1] |} /\
    Conv2D.parameters self' = Ok 448.
Proof.
  destruct (Conv2D_initialize_parameters conv_same sgd 3 3 3 [32; 32]
              eq_refl eq_refl) as [Hpost Hruns].
  destruct (Hruns ltac:(lia) ltac:(lia) ltac:(cbn; lia) ltac:(lia))
    as [self' Hrun].
  exists self'. split; [exact Hrun|].
  destruct (Hpost self' Hrun) as (HW & Hw0 & Hp & _).
  repeat split; assumption.
Defined.

(** ** BatchNormalization: parameters *)

(** X11.  Once BatchNormalization.initialize has returned, parameters() is
    twice the first entry of input_shape, whatever the length of
    input_shape, and that entry is not negative. *)
Theorem BatchNormalization_parameters_after_initialize
  (self self' : BatchNormalization.t) (o : Optimizer) :
  BatchNormalization.initialize o self = (Ok tt, self') ->
  exists (C : Z) (rest : list Z),
    BatchNormalization.input_shape self = Some (Some (C :: rest)) /\
    0 <= C /\
    BatchNormalization.parameters self' = Ok (2 * C).
Proof.
  intros Hrun.
  destruct (BatchNormalization.input_shape self) as [[[|C rest]|]|] eqn:Hin.
  1, 3, 4: exfalso; revert Hrun;
    unfold BatchNormalization.initialize, bind, modify, get, lift_result;
    cbn [BatchNormalization.set_optimizer BatchNormalization.input_shape];
    rewrite Hin; cbn; discriminate.
  exists C, rest. split; [reflexivity|].
  rewrite (BatchNormalization_initialize_run self o C rest Hin) in Hrun.
  destruct (np_new _) as [a|] eqn:Ha; [|discriminate].
  injection Hrun as <-.
  destruct (np_new_count _ _ Ha) as [Hc Hb].
  destruct (np_new_ok _ _ Ha) as (-> & Hpos & _).
  cbn [shape] in Hc.
  assert (HC : 0 <= C).
  { destruct rest; apply Forall_inv_tail in Hpos; apply Forall_inv in Hpos;
      exact Hpos. }
  split; [exact HC|].
  unfold BatchNormalization.parameters.
  cbn [BatchNormalization.np_gamma BatchNormalization.np_beta
       BatchNormalization.set_np_gamma BatchNormalization.set_np_beta
       getattr rbind shape].
  rewrite Hc. unfold np_int_add.
  destruct rest; cbn [fold_right] in *;
    (rewrite wrap64_small by (unfold int64; lia)); f_equal; lia.
Qed.

Lemma BatchNormalization_parameters_after_initialize_witness :
  exists self' : BatchNormalization.t,
    BatchNormalization.initialize sgd (bn_wired [16; 8; 8]) = (Ok tt, self') /\
    BatchNormalization.parameters self' = Ok 32.
Proof.
  eexists. split; [vm_compute; reflexivity|].
  destruct (BatchNormalization_parameters_after_initialize
              (bn_wired [16; 8; 8]) _ sgd eq_refl)
    as (C & rest & Hin & _ & Hp).
  injection Hin as <- _. exact Hp.
Defined.

(** ** Conv2D.output_shape: "same" padding and a zero stride *)

(** A NumPy division by zero gives a NaN or an infinity. *)
Lemma np_truediv_by_zero (a : Z) :
  np_truediv a 0 = if round_int a =? 0 then NaN else Inf.
Proof.
  unfold np_truediv. rewrite (round_int_small 0) by reflexivity.
  reflexivity.
Qed.

(** X12.  Under "same" padding the output shape does not depend on the
    filter, as long as the dimensions, the filter sizes and the stride are
    below 2^48 in absolute value: for a stride s >= 1 and spatial
    dimensions >= 1 it is (n_filters, floor((height - 1)/s) + 1,
    floor((width - 1)/s) + 1), and with stride 1 it is (n_filters, height,
    width) for every height and width. *)
Theorem Conv2D_same_padding_keeps_size
  (self : Conv2D.t) (channels height width : Z) :
  Conv2D.input_shape self = Some [channels; height; width] ->
  Conv2D.padding self = "same" ->
  dim_small height -> dim_small width ->
  dim_small (fst (Conv2D.filter_shape self)) ->
  dim_small (snd (Conv2D.filter_shape self)) ->
  (1 <= Conv2D.stride self -> dim_small (Conv2D.stride self) ->
   1 <= height -> 1 <= width ->
   Conv2D.output_shape self =
     Ok [Conv2D.n_filters self;
         (height - 1) / Conv2D.stride self + 1;
         (width - 1) / Conv2D.stride self + 1]) /\
  (Conv2D.stride self = 1 ->
   Conv2D.output_shape self = Ok [Conv2D.n_filters self; height; width]).
Proof.
  intros Hin Hp Hdh Hdw.
  destruct (Conv2D.filter_shape self) as [fh fw] eqn:Hf.
  cbn [fst snd]. intros Hdfh Hdfw.
  split.
  - intros Hs Hds Hh Hw.
    rewrite (Conv2D_output_shape_trunc self channels height width fh fw
               (fh - 1) (fw - 1) Hin Hf ltac:(lia)
               (or_introl (conj Hp (conj eq_refl eq_refl)))
               Hdh Hdw Hdfh Hdfw Hds).
    replace (height + (fh - 1) - fh) with (height - 1) by lia.
    replace (width + (fw - 1) - fw) with (width - 1) by lia.
    rewrite !quot_shift_nonneg by lia. reflexivity.
  - intros Hs.
    rewrite (Conv2D_output_shape_trunc self channels height width fh fw
               (fh - 1) (fw - 1) Hin Hf ltac:(lia)
               (or_introl (conj Hp (conj eq_refl eq_refl)))
               Hdh Hdw Hdfh Hdfw ltac:(rewrite Hs; reflexivity)).
    rewrite Hs, !Z.quot_1_r. repeat f_equal; lia.
Qed.

Lemma Conv2D_same_padding_keeps_size_witness :
  Conv2D.output_shape conv_same = Ok [16; 32; 32].
Proof.
  apply (proj2 (Conv2D_same_padding_keeps_size conv_same 3 32 32
                  eq_refl eq_refl eq_refl eq_refl eq_refl eq_refl)).
  reflexivity.
Defined.



(** ** MaxPooling2D.output_shape: when it returns *)

(** X14.  MaxPooling2D.output_shape returns a shape only if input_shape
    has been set to a tuple of three entries and the stride is not zero;
    and when height, width, the pool sizes and the stride are below 2^48
    in absolute value, only if the stride divides both height - ph and
    width - pw, the shape being then (channels, (height - ph)/s + 1,
    (width - pw)/s + 1). *)
Theorem MaxPooling2D_output_shape_returns_only_if
  (self : MaxPooling2D.t) (out : list Z) :
  MaxPooling2D.output_shape self = Ok out ->
  exists channels height width : Z,
    MaxPooling2D.input_shape self = Some (Some [channels; height; width]) /\
    MaxPooling2D.stride self <> 0 /\
    (dim_small height -> dim_small width ->
     dim_small (fst (MaxPooling2D.pool_shape self)) ->
     dim_small (snd (MaxPooling2D.pool_shape self)) ->
     dim_small (MaxPooling2D.stride self) ->
     (MaxPooling2D.stride self
      | height - fst (MaxPooling2D.pool_shape self)) /\
     (MaxPooling2D.stride self
      | width - snd (MaxPooling2D.pool_shape self)) /\
     out = [channels;
            (height - fst (MaxPooling2D.pool_shape self))
              / MaxPooling2D.stride self + 1;
            (width - snd (MaxPooling2D.pool_shape self))
              / MaxPooling2D.stride self + 1]).
Proof.
  intros Hout.
  destruct (MaxPooling2D.input_shape self)
    as [[[|c [|h [|w [|x rest]]]]|]|] eqn:Hin;
    try (unfold MaxPooling2D.output_shape in Hout; rewrite Hin in Hout;
         discriminate).
  destruct (Z.eq_dec (MaxPooling2D.stride self) 0) as [Hs|Hs].
  { rewrite (MaxPooling2D_output_shape_zero_stride self c h w Hin Hs) in Hout.
    discriminate. }
  exists c, h, w. split; [reflexivity|]. split; [assumption|].
  destruct (MaxPooling2D.pool_shape self) as [ph pw] eqn:Hp.
  cbn [fst snd]. intros Hdh Hdw Hdph Hdpw Hds.
  rewrite (MaxPooling2D_output_shape_cases self c h w ph pw Hin Hp Hs
             Hdh Hdw Hdph Hdpw Hds) in Hout.
  destruct (Z.eqb_spec
              (Z.rem (h - ph + MaxPooling2D.stride self)
                 (MaxPooling2D.stride self)) 0) as [Eh|];
    [|discriminate].
  destruct (Z.eqb_spec
              (Z.rem (w - pw + MaxPooling2D.stride self)
                 (MaxPooling2D.stride self)) 0) as [Ew|];
    [|discriminate].
  cbn [andb] in Hout. injection Hout as <-.
  apply rem_shift_divide in Eh, Ew; try assumption.
  repeat split; try assumption.
  rewrite !quot_shift_exact by assumption. reflexivity.
Qed.

Lemma MaxPooling2D_output_shape_returns_only_if_witness :
  exists channels height width : Z,
    MaxPooling2D.input_shape (pool_2x2 [3; 32; 32]) =
      Some (Some [channels; height; width]) /\
    (2 | height - 2) /\ (2 | width - 2).
Proof.
  destruct (MaxPooling2D_output_shape_returns_only_if
              (pool_2x2 [3; 32; 32]) [3; 16; 16]
              ltac:(vm_compute; reflexivity))
    as (c & h & w & Hin & _ & Hrest).
  cbn in Hin. injection Hin as <- <- <-.
  exists 3, 32, 32. split; [reflexivity|].
  destruct (Hrest eq_refl eq_refl eq_refl eq_refl eq_refl) as (Hh & Hw & _).
  split; assumption.
Defined.

(** X15.  A pooling window that does not overlap (pool_shape = (p, p) and
    stride p), with p and the spatial dimensions below 2^48 in absolute
    value, divides both spatial dimensions by p when p divides them, and
    is rejected with an assertion error when it does not divide one of
    them. *)
Theorem MaxPooling2D_tiling_divides
  (self : MaxPooling2D.t) (channels height width p : Z) :
  MaxPooling2D.input_shape self = Some (Some [channels; height; width]) ->
  MaxPooling2D.pool_shape self = (p, p) ->
  MaxPooling2D.stride self = p ->
  p <> 0 ->
  dim_small height -> dim_small width -> dim_small p ->
  ((p | height) /\ (p | width) ->
   MaxPooling2D.output_shape self = Ok [channels; height / p; width / p]) /\
  (~ ((p | height) /\ (p | width)) ->
   MaxPooling2D.output_shape self = Raise AssertionError).
Proof.
  intros Hin Hp Hs Hp0 Hdh Hdw Hdp.
  assert (Hcases := MaxPooling2D_output_shape_cases self channels height
                      width p p Hin Hp ltac:(rewrite Hs; exact Hp0)
                      Hdh Hdw Hdp Hdp ltac:(rewrite Hs; exact Hdp)).
  cbv zeta in Hcases. rewrite Hs in Hcases.
  replace (height - p + p) with height in Hcases by lia.
  replace (width - p + p) with width in Hcases by lia.
  rewrite Hcases. split.
  - intros [Hh Hw].
    pose proof (proj2 (Z.rem_divide height p Hp0) Hh) as Eh.
    pose proof (proj2 (Z.rem_divide width p Hp0) Hw) as Ew.
    rewrite Eh, Ew. cbn [Z.eqb andb].
    destruct Hh as [kh ->], Hw as [kw ->].
    rewrite !Z.quot_mul, !Z.div_mul by assumption. reflexivity.
  - intros Hn.
    destruct (Z.eqb_spec (Z.rem height p) 0) as [Eh|]; [|reflexivity].
    destruct (Z.eqb_spec (Z.rem width p) 0) as [Ew|]; [|reflexivity].
    exfalso. apply Hn. split; apply Z.rem_divide; assumption.
Qed.

Lemma MaxPooling2D_tiling_divides_witness :
  MaxPooling2D.output_shape (pool_2x2 [3; 32; 32]) = Ok [3; 16; 16] /\
  MaxPooling2D.output_shape (pool_2x2 [3; 33; 33]) = Raise AssertionError.
Proof.
  split.
  - apply (proj1 (MaxPooling2D_tiling_divides (pool_2x2 [3; 32; 32])
                    3 32 32 2 eq_refl eq_refl eq_refl ltac:(discriminate)
                    eq_refl eq_refl eq_refl)).
    split; exists 16; reflexivity.
  - apply (proj2 (MaxPooling2D_tiling_divides (pool_2x2 [3; 33; 33])
                    3 33 33 2 eq_refl eq_refl eq_refl ltac:(discriminate)
                    eq_refl eq_refl eq_refl)).
    intros [[k Hk] _]. lia.
Defined.

(** ** Names and input shapes *)

(** X16.  What get_layer_name returns is what set_layer_name stored: the given
    name, or the name of the class when no name was given; a later
    set_layer_name replaces an earlier one; and set_layer_name changes
    neither output_shape() nor parameters() nor the cached handles. *)
Theorem layer_name_round_trip (l : layer) (name : string)
  (earlier : noneable string) :
  get_layer_name (set_layer_name (Some name) l) = Ok name /\
  get_layer_name (set_layer_name None l) = Ok (class_name l) /\
  set_layer_name (Some name) (set_layer_name earlier l) =
    set_layer_name (Some name) l /\
  output_shape (set_layer_name earlier l) = output_shape l /\
  parameters (set_layer_name earlier l) = parameters l /\
  forward_pass (set_layer_name earlier l) = forward_pass l /\
  backward_pass (set_layer_name earlier l) = backward_pass l.
Proof.
  destruct l; repeat split; reflexivity.
Qed.

(** X17.  A layer with weights (Dense, BatchNormalization, Conv2D) that was
    named by set_layer_name() without argument persists its two nodes under
    "<class name>_forward_pass" and "<class name>_backward_pass"; a layer
    that was never named raises AttributeError and persists nothing. *)
Theorem persist_weights_uses_layer_name
  (l : layer) (g : graph) (f b : handle) :
  (exists d, l = LDense d) \/ (exists n, l = LBatchNormalization n) \/
  (exists c, l = LConv2D c) ->
  forward_pass l = Some f ->
  backward_pass l = Some b ->
  persist_weights (set_layer_name None l) g =
    (Ok tt,
     (set_layer_name None l,
      {| nodes := nodes g;
         persisted :=
           persisted g ++
           [(f, (class_name l ++ "_forward_pass")%string);
            (b, (class_name l ++ "_backward_pass")%string)] |})) /\
  (get_layer_name l = Raise AttributeError ->
   persist_weights l g = (Raise AttributeError, (l, g))).
Proof.
  intros [[d ->] | [[n ->] | [c ->]]] Hf Hb; cbn in Hf, Hb; split.
  all: try (unfold_methods; cbn; rewrite Hf, Hb; cbn;
            rewrite <- app_assoc; reflexivity).
  all: intros Hn; unfold_methods; cbn in Hn;
    unfold Dense.get_layer_name, BatchNormalization.get_layer_name,
      Conv2D.get_layer_name in Hn;
    rewrite Hf;
    match goal with
    | |- context [getattr ?x] => destruct x; [discriminate|reflexivity]
    end.
Qed.

Lemma persist_weights_uses_layer_name_witness :
  persist_weights (set_layer_name None (LConv2D conv_declared)) graph_1 =
    (Ok tt,
     (set_layer_name None (LConv2D conv_declared),
      {| nodes := nodes graph_1;
         persisted := [(0%nat, "Conv2D_forward_pass");
                       (1%nat, "Conv2D_backward_pass")] |})).
Proof.
  apply (proj1 (persist_weights_uses_layer_name (LConv2D conv_declared)
                  graph_1 0%nat 1%nat
                  (or_intror (or_intror (ex_intro _ conv_declared eq_refl)))
                  eq_refl eq_refl)).
Defined.

(** X18.  A call of set_input_shape stores any value without validation, and the
    layers that pass their input through (BatchNormalization, Dropout,
    Activation) give it back as output_shape(); Flatten gives the product of
    its entries when the entries and their product are 64-bit integers;
    Dense ignores it; and set_input_shape changes neither the name nor the
    cached handles nor parameters(). *)
Theorem input_shape_round_trip (l : layer) (s : noneable (list Z)) :
  match l with
  | LBatchNormalization _ | LDropout _ | LActivation _ =>
      output_shape (set_input_shape s l) = Ok s
  | LFlatten _ =>
      forall dims, s = Some dims ->
        Forall int64 dims -> int64 (fold_right Z.mul 1 dims) ->
        output_shape (set_input_shape s l) =
          Ok (Some [fold_right Z.mul 1 dims])
  | LDense d => output_shape (set_input_shape s l) = Ok (Some [Dense.n_units d])
  | LConv2D _ | LMaxPooling2D _ => True
  end /\
  get_layer_name (set_input_shape s l) = get_layer_name l /\
  parameters (set_input_shape s l) = parameters l /\
  forward_pass (set_input_shape s l) = forward_pass l /\
  backward_pass (set_input_shape s l) = backward_pass l.
Proof.
  destruct l; repeat split; try reflexivity.
  intros dims -> _ Hp. cbn. rewrite np_prod_exact by exact Hp. reflexivity.
Qed.

(** ** Wiring a Dense layer to a Flatten layer *)

(** X19.  A Dense layer whose input shape is set to the output shape of a
    Flatten layer over dims, the entries of dims and their product being
    64-bit integers, and which is then initialized, has
    prod(dims)*n_units + n_units parameters; initialization returns
    when the product is between 1 and 1024 and n_units between 0 and
    1024. *)
Theorem Flatten_then_Dense_parameters
  (f : Flatten.t) (d : Dense.t) (o : Optimizer) (dims out : list Z) :
  Flatten.input_shape f = Some dims ->
  Flatten.output_shape f = Ok out ->
  Forall int64 dims ->
  let P := fold_right Z.mul 1 dims in
  let n := Dense.n_units d in
  int64 P ->
  (forall d' : Dense.t,
      Dense.initialize o (Dense.set_input_shape (Some out) d) = (Ok tt, d') ->
      Dense.parameters d' = Ok (P * n + n)) /\
  (0 < P <= 1024 -> 0 <= n <= 1024 ->
   exists d' : Dense.t,
     Dense.initialize o (Dense.set_input_shape (Some out) d) = (Ok tt, d')).
Proof.
  intros Hin Hout _ P n HP.
  unfold Flatten.output_shape in Hout. rewrite Hin in Hout.
  injection Hout as <-. rewrite np_prod_exact by exact HP. fold P.
  split.
  - intros d' Hrun.
    exact (proj2 (proj2 (proj2
             (Dense_initialize_post (Dense.set_input_shape (Some [P]) d) d'
                o P [] eq_refl Hrun)))).
  - intros HPs Hn.
    exact (Dense_initialize_small (Dense.set_input_shape (Some [P]) d) o P []
             eq_refl HPs Hn).
Qed.

Lemma Flatten_then_Dense_parameters_witness :
  exists d' : Dense.t,
    Dense.initialize sgd (Dense.set_input_shape (Some [48]) dense_5_10) =
      (Ok tt, d') /\
    Dense.parameters d' = Ok 490.
Proof.
  assert (H64 : Forall int64 [3; 4; 4])
    by (repeat constructor; unfold int64; lia).
  assert (HP : int64 (fold_right Z.mul 1 [3; 4; 4]))
    by (unfold int64; cbn; lia).
  destruct (Flatten_then_Dense_parameters flatten_3_4_4 dense_5_10 sgd
              [3; 4; 4] [48] eq_refl ltac:(vm_compute; reflexivity) H64 HP)
    as [Hpost Hruns].
  destruct (Hruns ltac:(cbn; lia) ltac:(cbn; lia)) as [d' Hrun].
  exists d'. split; [exact Hrun | exact (Hpost d' Hrun)].
Defined.

(** ** How initialize and output_shape fail *)

Lemma np_new_negative (dims : list Z) :
  Forall int64 dims -> Exists (fun d => d < 0) dims ->
  np_new dims = Raise ValueError.
Proof.
  intros H64 Hneg. unfold np_new.
  replace (forallb (fun d => (- 2 ^ 63 <=? d) && (d <? 2 ^ 63)) dims)
    with true.
  2: { symmetry. apply forallb_forall. intros x Hx.
       pose proof (proj1 (Forall_forall _ _) H64 x Hx) as [Hlo Hhi].
       apply andb_true_intro. split; [apply Z.leb_le | apply Z.ltb_lt];
         assumption. }
  destruct (forallb (fun d => 0 <=? d) dims) eqn:E; [|reflexivity].
  exfalso. apply Exists_exists in Hneg. destruct Hneg as (x & Hx & Hlt).
  pose proof (proj1 (forallb_forall _ _) E x Hx) as H0.
  apply Z.leb_le in H0. lia.
Qed.

(** X20.  When Dense.initialize raises, the exception is TypeError for
    input_shape None and IndexError for an empty input_shape; and when the
    first entry of input_shape and n_units are at most 1024 in absolute
    value, it is ValueError for a negative first entry, ZeroDivisionError
    for a zero first entry, and ValueError for a negative n_units.  In all
    these cases the optimizer has nevertheless been replaced and nothing
    else has changed (weight shadows of an earlier initialize stay). *)
Theorem Dense_initialize_errors
  (self self' : Dense.t) (o : Optimizer) (e : exn) :
  Dense.initialize o self = (Raise e, self') ->
  match Dense.input_shape self with
  | None => e = TypeError /\ self' = Dense.set_optimizer o self
  | Some [] => e = IndexError /\ self' = Dense.set_optimizer o self
  | Some (d :: _) =>
      Z.abs d <= 1024 -> Z.abs (Dense.n_units self) <= 1024 ->
      self' = Dense.set_optimizer o self /\
      ((d < 0 /\ e = ValueError) \/
       (d = 0 /\ e = ZeroDivisionError) \/
       (0 < d /\ Dense.n_units self < 0 /\ e = ValueError))
  end.
Proof.
  intros Hrun.
  destruct (Dense.input_shape self) as [[|d rest]|] eqn:Hin.
  - revert Hrun. unfold Dense.initialize, bind, modify, get, lift_result.
    cbn [Dense.set_optimizer Dense.input_shape]. rewrite Hin. cbn.
    intros H. injection H as <- <-. split; reflexivity.
  - intros Hd Hn.
    rewrite (Dense_initialize_run self o d rest Hin) in Hrun.
    rewrite inv_sqrt_small in Hrun by lia.
    destruct (Z.ltb_spec d 0).
    { injection Hrun as <- <-. split; [reflexivity|]. left. split; easy. }
    destruct (Z.eqb_spec d 0).
    { injection Hrun as <- <-. split; [reflexivity|].
      right. left. split; easy. }
    destruct (Z_lt_le_dec (Dense.n_units self) 0) as [Hneg|Hpos].
    + rewrite np_new_negative in Hrun.
      * injection Hrun as <- <-. split; [reflexivity|].
        right. right. repeat split; lia.
      * repeat constructor; unfold int64; lia.
      * apply Exists_cons_tl. apply Exists_cons_hd. exact Hneg.
    + rewrite !np_new_small in Hrun
        by (cbn [List.length]; try lia; repeat constructor; lia).
      discriminate.
  - revert Hrun. unfold Dense.initialize, bind, modify, get, lift_result.
    cbn [Dense.set_optimizer Dense.input_shape]. rewrite Hin. cbn.
    intros H. injection H as <- <-. split; reflexivity.
Qed.

Lemma Dense_initialize_errors_witness :
  exists (e : exn) (self' : Dense.t),
    Dense.initialize sgd (Dense.__init__ 10 (Some [0])) = (Raise e, self') /\
    self' = Dense.set_optimizer sgd (Dense.__init__ 10 (Some [0])) /\
    e = ZeroDivisionError.
Proof.
  do 2 eexists. split; [vm_compute; reflexivity|].
  destruct (Dense_initialize_errors (Dense.__init__ 10 (Some [0])) _
              sgd _ ltac:(vm_compute; reflexivity)
              ltac:(cbn; lia) ltac:(cbn; lia))
    as [Hs [[Hd _] | [[_ He] | [Hd _]]]].
  - lia.
  - split; [exact Hs | exact He].
  - lia.
Defined.

(** X21.  When BatchNormalization.initialize raises, the exception is
    AttributeError when input_shape was never set, TypeError when it is
    None and IndexError when it is empty; and when the first entry of
    input_shape is at most 1024 in absolute value, that entry is negative
    and the exception is ValueError.  In all these cases the optimizer has
    nevertheless been replaced and nothing else has changed. *)
Theorem BatchNormalization_initialize_errors
  (self self' : BatchNormalization.t) (o : Optimizer) (e : exn) :
  BatchNormalization.initialize o self = (Raise e, self') ->
  match BatchNormalization.input_shape self with
  | None => e = AttributeError /\
            self' = BatchNormalization.set_optimizer o self
  | Some None => e = TypeError /\
                 self' = BatchNormalization.set_optimizer o self
  | Some (Some []) => e = IndexError /\
                      self' = BatchNormalization.set_optimizer o self
  | Some (Some (C :: _)) =>
      Z.abs C <= 1024 ->
      self' = BatchNormalization.set_optimizer o self /\
      C < 0 /\ e = ValueError
  end.
Proof.
  intros Hrun.
  destruct (BatchNormalization.input_shape self) as [[[|C rest]|]|] eqn:Hin.
  2: { intros HC.
       rewrite (BatchNormalization_initialize_run self o C rest Hin) in Hrun.
       destruct (Z_lt_le_dec C 0) as [Hneg|Hpos].
       - rewrite np_new_negative in Hrun.
         + injection Hrun as <- <-. repeat split. assumption.
         + destruct rest; repeat constructor; unfold int64; lia.
         + destruct rest; apply Exists_cons_tl; apply Exists_cons_hd;
             exact Hneg.
       - rewrite np_new_small in Hrun.
         + discriminate.
         + destruct rest; cbn [List.length]; lia.
         + destruct rest; repeat constructor; lia. }
  all: revert Hrun;
    unfold BatchNormalization.initialize, bind, modify, get, lift_result;
    cbn [BatchNormalization.set_optimizer BatchNormalization.input_shape];
    rewrite Hin; cbn;
    intros H; injection H as <- <-; split; reflexivity.
Qed.

Lemma BatchNormalization_initialize_errors_witness :
  exists (e : exn) (self' : BatchNormalization.t),
    BatchNormalization.initialize sgd
      (BatchNormalization.__init__ (99 # 100) (1 # 100)) = (Raise e, self') /\
    e = AttributeError /\
    self' = BatchNormalization.set_optimizer sgd
              (BatchNormalization.__init__ (99 # 100) (1 # 100)).
Proof.
  do 2 eexists. split; [reflexivity|].
  exact (BatchNormalization_initialize_errors
           (BatchNormalization.__init__ (99 # 100) (1 # 100)) _
           sgd _ eq_refl).
Defined.

(** X22.  Conv2D.output_shape returns a shape only for an input_shape of
    exactly three entries and a stride that is not zero, and the shape it
    returns starts with n_filters and has three entries. *)
Theorem Conv2D_output_shape_returns_only_if
  (self : Conv2D.t) (out : list Z) :
  Conv2D.output_shape self = Ok out ->
  (exists channels height width : Z,
      Conv2D.input_shape self = Some [channels; height; width]) /\
  Conv2D.stride self <> 0 /\
  exists oh ow : Z, out = [Conv2D.n_filters self; oh; ow].
Proof.
  unfold Conv2D.output_shape. intros Hout.
  destruct (Conv2D.input_shape self) as [[|c [|h [|w [|x rest]]]]|];
    try discriminate.
  cbn [unpack3 rbind] in Hout.
  destruct (determine_padding (Conv2D.filter_shape self)
              (Conv2D.padding self)) as [[pad_h pad_w]|];
    [|discriminate].
  cbn [unpack_pads rbind] in Hout.
  split; [do 3 eexists; reflexivity|].
  destruct (np_int (np_add (np_truediv
              (np_int_sub (np_int_add h (np_sum pad_h))
                 (fst (Conv2D.filter_shape self)))
              (Conv2D.stride self)) 1)) as [oh|] eqn:Eh;
    [|discriminate].
  destruct (np_int (np_add (np_truediv
              (np_int_sub (np_int_add w (np_sum pad_w))
                 (snd (Conv2D.filter_shape self)))
              (Conv2D.stride self)) 1)) as [ow|] eqn:Ew;
    [|discriminate].
  cbn [rbind] in Hout. injection Hout as <-.
  split; [|do 2 eexists; reflexivity].
  intros Hs. rewrite Hs, np_truediv_by_zero in Eh.
  destruct (round_int _ =? 0) in Eh; discriminate.
Qed.

Lemma Conv2D_output_shape_returns_only_if_witness :
  Conv2D.stride conv_valid <> 0 /\
  exists oh ow : Z, [16; 30; 30] = [Conv2D.n_filters conv_valid; oh; ow].
Proof.
  exact (proj2 (Conv2D_output_shape_returns_only_if conv_valid [16; 30; 30]
                  ltac:(vm_compute; reflexivity))).
Defined.

(** ** Instances of the properties above *)

Lemma forward_pass_appends_one_node_witness :
  exists (l' : layer) (g' : graph) (d : op_decl),
    _forward_pass (LDense dense_5_10) (PyNode 7%nat) "True" true graph_1 =
      (Ok 1%nat, (l', g')) /\
    nodes g' = nodes graph_1 ++ [d] /\ op_input d = PyNode 7%nat /\
    forward_pass l' = Some 1%nat.
Proof.
  do 2 eexists.
  destruct (forward_pass_appends_one_node (LDense dense_5_10) _
              (PyNode 7%nat) "True" true graph_1 _ _ eq_refl)
    as (_ & _ & [(e & He & _) | (d & _ & Hn & Hi & _ & Hf)]).
  - discriminate He.
  - exists d. split; [reflexivity|]. repeat split; assumption.
Defined.

Lemma backward_pass_appends_at_most_one_node_witness :
  exists (l' : layer) (g' : graph),
    _backward_pass (LDense (dense_wired true)) (PyNode 1%nat) "False"
      graph_1 = (Ok (Some 1%nat), (l', g')) /\
    persisted g' = persisted graph_1 /\
    forward_pass l' = Some 0%nat.
Proof.
  do 2 eexists. split; [reflexivity|].
  destruct (backward_pass_appends_at_most_one_node
              (LDense (dense_wired true)) _ (PyNode 1%nat) "False"
              graph_1 _ _ eq_refl) as (Hp & Hf & _).
  split; assumption.
Defined.

Lemma persist_weights_frame_witness :
  exists (r : result unit) (l' : layer) (g' : graph),
    persist_weights (LDense (dense_wired false)) graph_1 = (r, (l', g')) /\
    l' = LDense (dense_wired false) /\ nodes g' = nodes graph_1.
Proof.
  do 3 eexists. split; [reflexivity|].
  destruct (persist_weights_frame (LDense (dense_wired false)) _ graph_1
              _ _ eq_refl) as (Hl & Hn & _).
  split; assumption.
Defined.

Lemma handles_stay_valid_witness :
  exists (l' : layer) (g' : graph),
    _backward_pass (LDense (dense_wired true)) (PyNode 1%nat) "False"
      graph_1 = (Ok (Some 1%nat), (l', g')) /\
    handles_valid l' g'.
Proof.
  do 2 eexists. split; [reflexivity|].
  assert (Hv : handles_valid (LDense (dense_wired true)) graph_1).
  { repeat split; cbn; [lia | constructor]. }
  exact (proj1 (proj2 (handles_stay_valid (LDense (dense_wired true))
                         graph_1 Hv))
           (PyNode 1%nat) "False" _ _ _ eq_refl).
Defined.

Lemma backward_pass_refers_to_forward_witness :
  exists (l1 l2 : layer) (g1 g2 : graph) (d : op_decl),
    _forward_pass (LDropout (Dropout.__init__ (1 # 5))) (PyNode 7%nat)
      "True" true graph_1 = (Ok 1%nat, (l1, g1)) /\
    _backward_pass l1 (PyNode 9%nat) "False" g1 = (Ok (Some 2%nat), (l2, g2)) /\
    nodes g2 = nodes g1 ++ [d] /\
    kwarg "data" (op_kwargs d) = Some (PyNode 1%nat).
Proof.
  do 4 eexists.
  destruct (backward_pass_refers_to_forward
              (LDropout (Dropout.__init__ (1 # 5))) _ _
              (PyNode 7%nat) (PyNode 9%nat) "True" "False" true
              graph_1 _ _ 1%nat _ eq_refl eq_refl) as (d & Hn & Hd).
  - cbn. discriminate.
  - exists d. split; [reflexivity|]. split; [reflexivity|].
    split; assumption.
Defined.

Lemma forward_pass_follows_backward_witness :
  exists (l' : layer) (g' : graph) (d : op_decl),
    _forward_pass (LDense (dense_wired true)) (PyNode 7%nat) "True" true
      graph_1 = (Ok 1%nat, (l', g')) /\
    nodes g' = nodes graph_1 ++ [d] /\
    kwarg "data" (op_kwargs d) = Some PyNone.
Proof.
  do 2 eexists.
  destruct (forward_pass_follows_backward (LDense (dense_wired true)) _
              (PyNode 7%nat) "True" true graph_1 _ 1%nat
              (or_introl (ex_intro _ (dense_wired true) eq_refl)) eq_refl)
    as (d & Hn & Hd & _).
  exists d. split; [reflexivity|]. split; assumption.
Defined.

Lemma input_shape_round_trip_witness :
  output_shape (set_input_shape (Some [3; 4; 4]) (LFlatten flatten_3_4_4)) =
    Ok (Some [48]).
Proof.
  apply (proj1 (input_shape_round_trip (LFlatten flatten_3_4_4)
                  (Some [3; 4; 4])) [3; 4; 4] eq_refl).
  - repeat constructor; unfold int64; lia.
  - unfold int64. cbn. lia.
Defined.
